(** * SecureBox: one-time file sharing across three storage tiers

    A shallow embedding of the request handlers of the SecureBox services

    - [services/api-gateway/app.py]      (module [Gateway]),
    - [services/storage-service/app.py]  (module [Storage]),
    - [services/background-worker/worker.py] (module [Worker]),

    over an explicit model of the three tiers they share: the PostgreSQL
    table [files] (with [file_audit_log]), the MinIO bucket and the Redis
    key space.  Handlers are written in a small state-and-exception monad
    so that Python's [try]/[except] blocks and the order of the side
    effects stay visible; every write issued to a tier is also appended
    to an effect log, which is what the ordering statements are about. *)

From Stdlib Require Import ZArith NArith Lia.
From Stdlib.Strings Require Import Ascii Byte.
From stdpp Require Import gmap strings list fin_maps.

#[local] Open Scope Z_scope.

(* ===================================================================== *)
(** ** Python standard library: [binascii], [base64], [secrets]          *)
(* ===================================================================== *)

Module Encoding.

(** Characters of a string, as a predicate that computes. *)
Fixpoint string_forall (P : ascii -> bool) (s : string) : bool :=
  match s with
  | EmptyString => true
  | String c s' => P c && string_forall P s'
  end.

Definition hex_alphabet : list ascii :=
  ["0"; "1"; "2"; "3"; "4"; "5"; "6"; "7";
   "8"; "9"; "a"; "b"; "c"; "d"; "e"; "f"]%char.

Definition hex_digit (n : N) : ascii :=
  nth (N.to_nat n) hex_alphabet "0"%char.

(** [bytes.hex()] / [binascii.hexlify]: two lower-case digits per byte,
    high nibble first. *)
Fixpoint hexlify (bs : list byte) : string :=
  match bs with
  | [] => EmptyString
  | b :: rest =>
      String (hex_digit (N.shiftr (Byte.to_N b) 4))
        (String (hex_digit (N.land (Byte.to_N b) 15)) (hexlify rest))
  end.

Definition is_hex_char (c : ascii) : bool :=
  bool_decide (c ∈ hex_alphabet).

(** The URL-safe base64 alphabet of RFC 4648 section 5. *)
Definition urlsafe_alphabet : list ascii :=
  ["A"; "B"; "C"; "D"; "E"; "F"; "G"; "H"; "I"; "J"; "K"; "L"; "M";
   "N"; "O"; "P"; "Q"; "R"; "S"; "T"; "U"; "V"; "W"; "X"; "Y"; "Z";
   "a"; "b"; "c"; "d"; "e"; "f"; "g"; "h"; "i"; "j"; "k"; "l"; "m";
   "n"; "o"; "p"; "q"; "r"; "s"; "t"; "u"; "v"; "w"; "x"; "y"; "z";
   "0"; "1"; "2"; "3"; "4"; "5"; "6"; "7"; "8"; "9"; "-"; "_"]%char.

Definition b64_char (n : N) : ascii :=
  nth (N.to_nat (N.land n 63)) urlsafe_alphabet "A"%char.

Definition is_urlsafe_char (c : ascii) : bool :=
  bool_decide (c ∈ urlsafe_alphabet).

(** [base64.urlsafe_b64encode]: three bytes become four characters; a
    final group of one or two bytes is padded with ['=']. *)
Fixpoint urlsafe_b64encode (bs : list byte) : string :=
  match bs with
  | [] => EmptyString
  | [x] =>
      let a := Byte.to_N x in
      String (b64_char (N.shiftr a 2))
        (String (b64_char (N.shiftl (N.land a 3) 4)) "==")
  | [x; y] =>
      let a := Byte.to_N x in
      let b := Byte.to_N y in
      String (b64_char (N.shiftr a 2))
        (String (b64_char (N.lor (N.shiftl (N.land a 3) 4) (N.shiftr b 4)))
           (String (b64_char (N.shiftl (N.land b 15) 2)) "="))
  | x :: y :: z :: rest =>
      let a := Byte.to_N x in
      let b := Byte.to_N y in
      let c := Byte.to_N z in
      String (b64_char (N.shiftr a 2))
        (String (b64_char (N.lor (N.shiftl (N.land a 3) 4) (N.shiftr b 4)))
           (String (b64_char (N.lor (N.shiftl (N.land b 15) 2) (N.shiftr c 6)))
              (String (b64_char (N.land c 63)) (urlsafe_b64encode rest))))
  end.

(** [str.rstrip(c)]: drop every trailing occurrence of [c]. *)
Fixpoint rstrip (c : ascii) (s : string) : string :=
  match s with
  | EmptyString => EmptyString
  | String a s' =>
      match rstrip c s' with
      | EmptyString =>
          if Ascii.eqb a c then EmptyString else String a EmptyString
      | r => String a r
      end
  end.

End Encoding.

Module Secrets.
Import Encoding.

(** The operating system's entropy source, as the stream of bytes it
    will hand out. *)
Definition Entropy := nat -> byte.

(** [secrets.token_bytes(n)] read at position [pos] of the stream. *)
Definition token_bytes (e : Entropy) (pos n : nat) : list byte :=
  map e (seq pos n).

(** [secrets.token_hex(n)]. *)
Definition token_hex (e : Entropy) (pos n : nat) : string :=
  hexlify (token_bytes e pos n).

(** [secrets.token_urlsafe(n)]:
    [base64.urlsafe_b64encode(tok).rstrip(b'=').decode('ascii')]. *)
Definition token_urlsafe (e : Entropy) (pos n : nat) : string :=
  rstrip "="%char (urlsafe_b64encode (token_bytes e pos n)).

End Secrets.

(* ===================================================================== *)
(** ** The three tiers and the environment of a request                  *)
(* ===================================================================== *)

(** Timestamps are seconds of UTC time. *)

(** A row of the PostgreSQL table [files] ([init_database]). *)
Record FileRecord := {
  file_id : string;
  filename : string;
  file_size : Z;
  content_type : string;
  download_token : string;
  encryption_key : string;
  created_at : Z;
  expires_at : Z;
  downloaded_at : option Z;
  is_downloaded : bool;
  download_count : Z;
  minio_object_name : string
}.

(** A row of [file_audit_log], as the worker writes it. *)
Inductive Operation := expired_cleanup | downloaded_cleanup.

Record AuditEntry := {
  audit_file_id : string;
  audit_operation : Operation;
  audit_filename : string;
  audit_file_size : Z;
  audit_cleanup_time : Z
}.

(** The JSON document the storage service caches under
    [file_meta:<file_id>]. *)
Record FileMeta := {
  meta_file_id : string;
  meta_filename : string;
  meta_file_size : Z;
  meta_content_type : string;
  meta_expires_at : Z;
  meta_minio_object_name : string
}.

(** Every write a handler issues to a tier, in the order of issue. *)
Inductive Effect :=
| BlobPut (name : string)
| BlobRemove (name : string)
| RowInsert (fid : string)
| RowUpdate (fid token : string)
| RowDelete (fid : string)
| AuditInsert (fid : string) (op : Operation)
| TokenCacheSet (token : string)
| TokenCacheDelete (token : string)
| MetaCacheSet (fid : string)
| MetaCacheDelete (fid : string)
| CounterIncr (key : string)
| StatsSet.

(** The shared state.  Redis is one key space in the deployment; the
    handlers only ever address it through three constant prefixes, so it
    is kept as three typed maps: [token_cache] holds the keys
    [token:<download_token>], [meta_cache] the keys [file_meta:<file_id>]
    (both with the absolute time at which SETEX lets them lapse),
    [counters] the INCR keys [metrics:...]. *)
Record World := {
  files : list FileRecord;
  file_audit_log : list AuditEntry;
  bucket : gmap string (list byte);
  token_cache : gmap string (string * Z);
  meta_cache : gmap string (FileMeta * Z);
  counters : gmap string Z;
  cleanup_stats : option (Z * Z * Z * Z);
  effects : list Effect
}.

Definition empty_world : World :=
  {| files := []; file_audit_log := []; bucket := ∅; token_cache := ∅;
     meta_cache := ∅; counters := ∅; cleanup_stats := None; effects := [] |}.

(** Code that runs a handler: the HTTP routes and the worker's tasks. *)
Inductive Route :=
| RtEncrypt | RtDecrypt
| RtStore | RtRetrieve | RtMarkDownloaded | RtStatus | RtCleanupExpired
| TaskCleanupExpired | TaskCleanupDownloaded.

(** What [requests] does with a call: deliver it, fail to connect, or
    deliver it and time out waiting for the answer. *)
Inductive Network := Delivered | ConnectionError | ReadTimeout.

(** What a handler cannot decide by itself: the clock, the entropy of
    each process, and which of its external calls fail.  [now] is what
    [datetime.utcnow()] and the clocks of PostgreSQL and Redis read while
    the request is served.  [store_file] reads the clock first and issues
    its SETEX last, after the blob write and the INSERT:
    [store_elapsed] is the number of seconds that have passed by then. *)
Record Env := {
  now : Z;
  store_elapsed : N;
  gateway_entropy : Secrets.Entropy;
  storage_entropy : Secrets.Entropy;
  network : Route -> Network;
  db_down : Route -> bool;
  put_object_fails : bool;
  remove_object_error : string -> option string
}.

(** [os.getenv] with the defaults of the gateway. *)
Record Config := {
  MAX_EXPIRY_HOURS : Z;
  DEFAULT_EXPIRY_HOURS : Z
}.

Definition default_config : Config :=
  {| MAX_EXPIRY_HOURS := 168; DEFAULT_EXPIRY_HOURS := 24 |}.

(** A Flask response: the status code and either [{'error': msg}] or the
    JSON document of the success case. *)
Record Response (A : Type) := mkResponse {
  status_code : Z;
  body : string + A
}.
Arguments mkResponse {A} _ _.
Arguments status_code {A} _.
Arguments body {A} _.

Definition error {A} (msg : string) (code : Z) : Response A :=
  mkResponse code (inl msg).
Definition jsonify {A} (a : A) (code : Z) : Response A :=
  mkResponse code (inr a).

(* ===================================================================== *)
(** ** Handlers as state transformers that may raise                     *)
(* ===================================================================== *)

Inductive Exn :=
| S3Error (code : string)
| DatabaseError
| RedisError
| RequestException
| KeyError
| OverflowError.

Definition M (A : Type) : Type := World -> (Exn + A) * World.

Definition ret {A} (a : A) : M A := fun w => (inr a, w).

Definition bind {A B} (m : M A) (f : A -> M B) : M B :=
  fun w => match m w with
           | (inl e, w') => (inl e, w')
           | (inr a, w') => f a w'
           end.

Definition raise {A} (e : Exn) : M A := fun w => (inl e, w).

(** [try: m except Exception as e: h e]. *)
Definition try_except {A} (m : M A) (h : Exn -> M A) : M A :=
  fun w => match m w with
           | (inl e, w') => h e w'
           | r => r
           end.

Notation "'do' x <- m ;; k" := (bind m (fun x => k))
  (at level 10, x name, m at level 99, k at level 200).
Notation "'exec' m ;; k" := (bind m (fun _ => k))
  (at level 10, m at level 99, k at level 200).

(** A view function never lets an exception out: what its own handlers
    miss, Flask turns into a 500. *)
Definition run {A} (m : M (Response A)) (w : World) : Response A * World :=
  match m w with
  | (inr r, w') => (r, w')
  | (inl _, w') => (error "Internal server error" 500, w')
  end.

Definition log (e : Effect) (w : World) : list Effect := effects w ++ [e].

(* ===================================================================== *)
(** ** The clients of the tiers: psycopg2, minio, redis                  *)
(* ===================================================================== *)

Module Tiers.

Definition with_files (fs : list FileRecord) (e : Effect) (w : World) : World :=
  {| files := fs; file_audit_log := file_audit_log w; bucket := bucket w;
     token_cache := token_cache w; meta_cache := meta_cache w;
     counters := counters w; cleanup_stats := cleanup_stats w;
     effects := log e w |}.

Definition with_audit (a : list AuditEntry) (e : Effect) (w : World) : World :=
  {| files := files w; file_audit_log := a; bucket := bucket w;
     token_cache := token_cache w; meta_cache := meta_cache w;
     counters := counters w; cleanup_stats := cleanup_stats w;
     effects := log e w |}.

Definition with_bucket (b : gmap string (list byte)) (e : Effect) (w : World) : World :=
  {| files := files w; file_audit_log := file_audit_log w; bucket := b;
     token_cache := token_cache w; meta_cache := meta_cache w;
     counters := counters w; cleanup_stats := cleanup_stats w;
     effects := log e w |}.

Definition with_token_cache (c : gmap string (string * Z)) (e : Effect) (w : World) : World :=
  {| files := files w; file_audit_log := file_audit_log w; bucket := bucket w;
     token_cache := c; meta_cache := meta_cache w;
     counters := counters w; cleanup_stats := cleanup_stats w;
     effects := log e w |}.

Definition with_meta_cache (c : gmap string (FileMeta * Z)) (e : Effect) (w : World) : World :=
  {| files := files w; file_audit_log := file_audit_log w; bucket := bucket w;
     token_cache := token_cache w; meta_cache := c;
     counters := counters w; cleanup_stats := cleanup_stats w;
     effects := log e w |}.

Definition with_counters (c : gmap string Z) (e : Effect) (w : World) : World :=
  {| files := files w; file_audit_log := file_audit_log w; bucket := bucket w;
     token_cache := token_cache w; meta_cache := meta_cache w;
     counters := c; cleanup_stats := cleanup_stats w;
     effects := log e w |}.

Definition with_cleanup_stats (s : option (Z * Z * Z * Z)) (e : Effect) (w : World) : World :=
  {| files := files w; file_audit_log := file_audit_log w; bucket := bucket w;
     token_cache := token_cache w; meta_cache := meta_cache w;
     counters := counters w; cleanup_stats := s;
     effects := log e w |}.

(** *** datetime.  Timestamps are whole seconds since 1970-01-01; a
    [timedelta] holds at most 999999999 days either way and a [datetime]
    the years 1 to 9999, and what falls outside raises OverflowError. *)

Definition timedelta_fits (hours : Z) : bool :=
  (-999999999 <=? hours / 24) && (hours / 24 <=? 999999999).

(** [datetime.min] and [datetime.max]. *)
Definition datetime_min : Z := -62135596800.
Definition datetime_max : Z := 253402300799.

Definition datetime_fits (t : Z) : bool :=
  (datetime_min <=? t) && (t <=? datetime_max).

(** [t + timedelta(hours=hours)] for a datetime [t]. *)
Definition plus_hours (t hours : Z) : M Z :=
  if timedelta_fits hours && datetime_fits (t + hours * 3600)
  then ret (t + hours * 3600)
  else raise OverflowError.

(** *** PostgreSQL.  Statements act on the table at once: in the fault
    model below nothing can raise between a statement and the
    [conn.commit()] that follows it, so no handler ever abandons a
    transaction that has pending changes. *)

Definition get_db_connection (env : Env) (rt : Route) : M unit :=
  if db_down env rt then raise DatabaseError else ret tt.

(** [SELECT * FROM files WHERE p] followed by [fetchall()]. *)
Definition select (p : FileRecord -> bool) : M (list FileRecord) :=
  fun w => (inr (List.filter p (files w)), w).

(** [WHERE file_id = %s AND download_token = %s]. *)
Definition matches (fid token : string) (r : FileRecord) : bool :=
  bool_decide (file_id r = fid) && bool_decide (download_token r = token).

(** The column constraints of [CREATE TABLE files]: the VARCHAR widths
    and the two UNIQUE columns. *)
Definition fits_columns (r : FileRecord) : bool :=
  (String.length (file_id r) <=? 32)%nat
  && (String.length (filename r) <=? 255)%nat
  && (String.length (content_type r) <=? 100)%nat
  && (String.length (download_token r) <=? 64)%nat
  && (String.length (minio_object_name r) <=? 255)%nat.

Definition clashes (r r' : FileRecord) : bool :=
  bool_decide (file_id r' = file_id r)
  || bool_decide (download_token r' = download_token r).

(** [INSERT INTO files (...) VALUES (...)]; the columns that are not
    listed take their defaults. *)
Definition insert_file (env : Env) (fid fname : string) (size : Z)
    (ctype token key : string) (expires : Z) (object_name : string) : M unit :=
  fun w =>
    let r := {| file_id := fid; filename := fname; file_size := size;
                content_type := ctype; download_token := token;
                encryption_key := key; created_at := now env;
                expires_at := expires; downloaded_at := None;
                is_downloaded := false; download_count := 0;
                minio_object_name := object_name |} in
    if fits_columns r && negb (existsb (clashes r) (files w))
    then (inr tt, with_files (files w ++ [r]) (RowInsert fid) w)
    else (inl DatabaseError, w).

(** [UPDATE files SET ... WHERE p]; returns [cursor.rowcount]. *)
Definition update_files (p : FileRecord -> bool)
    (f : FileRecord -> FileRecord) (e : Effect) : M nat :=
  fun w =>
    (inr (length (List.filter p (files w))),
     with_files (map (fun r => if p r then f r else r) (files w)) e w).

(** [DELETE FROM files WHERE file_id = %s]. *)
Definition delete_file (fid : string) : M unit :=
  fun w =>
    (inr tt,
     with_files
       (List.filter (fun r => negb (bool_decide (file_id r = fid))) (files w))
       (RowDelete fid) w).

(** [INSERT INTO file_audit_log (file_id, operation, metadata)]. *)
Definition insert_audit (env : Env) (op : Operation) (r : FileRecord) : M unit :=
  fun w =>
    (inr tt,
     with_audit
       (file_audit_log w ++
          [{| audit_file_id := file_id r; audit_operation := op;
              audit_filename := filename r; audit_file_size := file_size r;
              audit_cleanup_time := now env |}])
       (AuditInsert (file_id r) op) w).

(** *** MinIO. *)

Definition put_object (env : Env) (name : string) (data : list byte) : M unit :=
  fun w =>
    if put_object_fails env then (inl (S3Error "InternalError"), w)
    else (inr tt, with_bucket (<[name := data]> (bucket w)) (BlobPut name) w).

Definition get_object (name : string) : M (list byte) :=
  fun w =>
    match bucket w !! name with
    | Some data => (inr data, w)
    | None => (inl (S3Error "NoSuchKey"), w)
    end.

Definition remove_object (env : Env) (name : string) : M unit :=
  fun w =>
    match remove_object_error env name with
    | Some code => (inl (S3Error code), w)
    | None => (inr tt, with_bucket (delete name (bucket w)) (BlobRemove name) w)
    end.

(** *** Redis.  A key written by SETEX is gone once its time is up;
    SETEX refuses a time to live that is not positive. *)

Definition live {A} (env : Env) (entry : option (A * Z)) : option A :=
  match entry with
  | Some (v, deadline) => if now env <? deadline then Some v else None
  | None => None
  end.

Definition redis_get_token (env : Env) (token : string) : M (option string) :=
  fun w => (inr (live env (token_cache w !! token)), w).

Definition redis_setex_token (env : Env) (token : string) (ttl : Z)
    (fid : string) : M unit :=
  fun w =>
    if ttl <=? 0 then (inl RedisError, w)
    else (inr tt,
          with_token_cache (<[token := (fid, now env + ttl)]> (token_cache w))
            (TokenCacheSet token) w).

Definition redis_delete_token (token : string) : M unit :=
  fun w =>
    (inr tt,
     with_token_cache (delete token (token_cache w)) (TokenCacheDelete token) w).

Definition redis_get_file_meta (env : Env) (fid : string) : M (option FileMeta) :=
  fun w => (inr (live env (meta_cache w !! fid)), w).

(** The SETEX of [store_file]: the time to live counts from the moment
    the command reaches Redis. *)
Definition redis_setex_file_meta (env : Env) (fid : string) (ttl : Z)
    (m : FileMeta) : M unit :=
  fun w =>
    if ttl <=? 0 then (inl RedisError, w)
    else (inr tt,
          with_meta_cache
            (<[fid := (m, now env + Z.of_N (store_elapsed env) + ttl)]>
               (meta_cache w))
            (MetaCacheSet fid) w).

Definition redis_delete_file_meta (fid : string) : M unit :=
  fun w =>
    (inr tt,
     with_meta_cache (delete fid (meta_cache w)) (MetaCacheDelete fid) w).

Definition redis_incr (key : string) : M unit :=
  fun w =>
    (inr tt,
     with_counters (<[key := default 0 (counters w !! key) + 1]> (counters w))
       (CounterIncr key) w).

Definition redis_setex_cleanup_stats (env : Env) (deleted freed : Z) : M unit :=
  fun w =>
    (inr tt,
     with_cleanup_stats (Some (now env, deleted, freed, now env + 86400))
       StatsSet w).

End Tiers.

(* ===================================================================== *)
(** ** services/storage-service/app.py                                   *)
(* ===================================================================== *)

Module Storage.
Import Tiers.

(** The JSON body of [POST /store].  Its eight fields are the
    [required_fields] of the handler; a record has them all, so the
    400 for a missing field has no counterpart here.  Base64 and hex
    are transport encodings and are not represented: contents are the
    bytes they stand for. *)
Record StoreRequest := {
  sr_file_id : string;
  sr_filename : string;
  sr_encrypted_content : list byte;
  sr_encryption_key : string;
  sr_file_size : Z;
  sr_download_token : string;
  sr_expiry_hours : Z;
  sr_content_type : string
}.

Record Stored := {
  st_file_id : string;
  st_expires_at : Z;
  st_minio_object : string
}.

Definition store_file (env : Env) (data : StoreRequest)
    : World -> Response Stored * World :=
  run (try_except
    (let file_id := sr_file_id data in
     let expiry_hours := sr_expiry_hours data in
     (* Calculate expiry time *)
     do expires_at <- plus_hours (now env) expiry_hours ;;
     (* Generate MinIO object name *)
     let minio_object_name :=
       file_id +:+ "/" +:+ Secrets.token_hex (storage_entropy env) 0 8 in
     (* Store encrypted content in MinIO *)
     exec put_object env minio_object_name (sr_encrypted_content data) ;;
     (* Store metadata in database *)
     exec get_db_connection env RtStore ;;
     exec insert_file env file_id (sr_filename data) (sr_file_size data)
       (sr_content_type data) (sr_download_token data)
       (sr_encryption_key data) expires_at minio_object_name ;;
     (* Cache file metadata in Redis *)
     exec redis_setex_file_meta env file_id (expiry_hours * 3600)
       {| meta_file_id := file_id; meta_filename := sr_filename data;
          meta_file_size := sr_file_size data;
          meta_content_type := sr_content_type data;
          meta_expires_at := expires_at;
          meta_minio_object_name := minio_object_name |} ;;
     ret (jsonify {| st_file_id := file_id; st_expires_at := expires_at;
                     st_minio_object := minio_object_name |} 200))
    (fun e =>
       match e with
       | S3Error _ => ret (error "Storage service error" 500)
       | _ => ret (error "Storage failed" 500)
       end)).

Record Retrieved := {
  rt_file_id : string;
  rt_filename : string;
  rt_file_size : Z;
  rt_content_type : string;
  rt_encrypted_content : list byte;
  rt_encryption_key : string;
  rt_created_at : Z;
  rt_expires_at : Z
}.

(** [GET /retrieve/<file_id>?token=...].  [request.args.get('token')]
    is [None] for an absent parameter, which [not token] treats like
    the empty string. *)
Definition retrieve_file (env : Env) (fid token : string)
    : World -> Response Retrieved * World :=
  run (try_except
    (if bool_decide (token = "") then
       ret (error "Download token required" 400)
     else
       (* Get file metadata from database *)
       exec get_db_connection env RtRetrieve ;;
       do rows <- select (matches fid token) ;;
       match head rows with
       | None => ret (error "File not found or invalid token" 404)
       | Some file_record =>
           (* Check if file has expired *)
           if now env >? expires_at file_record then
             ret (error "File has expired" 410)
           (* Check if file has already been downloaded (one-time use) *)
           else if is_downloaded file_record then
             ret (error "File has already been downloaded" 410)
           else
             (* Retrieve encrypted content from MinIO *)
             try_except
               (do encrypted_content <-
                  get_object (minio_object_name file_record) ;;
                ret (jsonify
                       {| rt_file_id := fid;
                          rt_filename := filename file_record;
                          rt_file_size := file_size file_record;
                          rt_content_type := content_type file_record;
                          rt_encrypted_content := encrypted_content;
                          rt_encryption_key := encryption_key file_record;
                          rt_created_at := created_at file_record;
                          rt_expires_at := expires_at file_record |} 200))
               (fun e =>
                  match e with
                  | S3Error _ => ret (error "File not found in storage" 404)
                  | _ => raise e
                  end)
       end)
    (fun _ => ret (error "Retrieval failed" 500))).

(** The SET clause of [mark_file_downloaded]. *)
Definition set_downloaded (env : Env) (r : FileRecord) : FileRecord :=
  {| file_id := file_id r; filename := filename r;
     file_size := file_size r; content_type := content_type r;
     download_token := download_token r;
     encryption_key := encryption_key r; created_at := created_at r;
     expires_at := expires_at r;
     downloaded_at := Some (now env);
     is_downloaded := true;
     download_count := download_count r + 1;
     minio_object_name := minio_object_name r |}.

Record Marked := {
  mk_file_id : string;
  mk_timestamp : Z
}.

(** [POST /mark_downloaded/<file_id>] with body [{'token': ...}]. *)
Definition mark_file_downloaded (env : Env) (fid token : string)
    : World -> Response Marked * World :=
  run (try_except
    (if bool_decide (token = "") then
       ret (error "Download token required" 400)
     else
       exec get_db_connection env RtMarkDownloaded ;;
       do rowcount <-
         update_files (matches fid token) (set_downloaded env)
           (RowUpdate fid token) ;;
       if (rowcount =? 0)%nat then
         ret (error "File not found or invalid token" 404)
       else
         (* Remove from Redis cache *)
         exec redis_delete_file_meta fid ;;
         ret (jsonify {| mk_file_id := fid; mk_timestamp := now env |} 200))
    (fun _ => ret (error "Operation failed" 500))).

Inductive FileStatus := downloaded | expired | available.

(** The JSON document of [GET /status/<file_id>].  The two paths of the
    handler build documents with different keys: [minio_object_name]
    comes from the cached metadata only, [status] and [time_remaining]
    are added on the database path only. *)
Record StatusBody := {
  sb_file_id : string;
  sb_filename : string;
  sb_file_size : Z;
  sb_content_type : string;
  sb_created_at : Z;
  sb_expires_at : Z;
  sb_is_downloaded : bool;
  sb_downloaded_at : option Z;
  sb_download_count : Z;
  sb_minio_object_name : option string;
  sb_status : option FileStatus;
  sb_time_remaining : option Z
}.

(** [metadata.update({...}); return jsonify(metadata)]. *)
Definition cached_status (metadata : FileMeta) (db_data : FileRecord) : StatusBody :=
  {| sb_file_id := meta_file_id metadata;
     sb_filename := meta_filename metadata;
     sb_file_size := meta_file_size metadata;
     sb_content_type := meta_content_type metadata;
     sb_created_at := created_at db_data;
     sb_expires_at := meta_expires_at metadata;
     sb_is_downloaded := is_downloaded db_data;
     sb_downloaded_at := downloaded_at db_data;
     sb_download_count := download_count db_data;
     sb_minio_object_name := Some (meta_minio_object_name metadata);
     sb_status := None;
     sb_time_remaining := None |}.

(** [result = dict(file_record)] with the computed status added. *)
Definition computed_status (env : Env) (file_record : FileRecord) : StatusBody :=
  let status :=
    if is_downloaded file_record then downloaded
    else if now env >? expires_at file_record then expired
    else available in
  {| sb_file_id := file_id file_record;
     sb_filename := filename file_record;
     sb_file_size := file_size file_record;
     sb_content_type := content_type file_record;
     sb_created_at := created_at file_record;
     sb_expires_at := expires_at file_record;
     sb_is_downloaded := is_downloaded file_record;
     sb_downloaded_at := downloaded_at file_record;
     sb_download_count := download_count file_record;
     sb_minio_object_name := None;
     sb_status := Some status;
     sb_time_remaining :=
       match status with
       | available => Some (expires_at file_record - now env)
       | _ => None
       end |}.

(** The database path of [get_file_status]. *)
Definition status_from_database (env : Env) (fid token : string)
    : M (Response StatusBody) :=
  exec get_db_connection env RtStatus ;;
  do rows <- select (matches fid token) ;;
  match head rows with
  | None => ret (error "File not found or invalid token" 404)
  | Some file_record => ret (jsonify (computed_status env file_record) 200)
  end.

Definition get_file_status (env : Env) (fid token : string)
    : World -> Response StatusBody * World :=
  run (try_except
    (if bool_decide (token = "") then
       ret (error "Download token required" 400)
     else
       (* Try Redis cache first *)
       do cached_meta <- redis_get_file_meta env fid ;;
       match cached_meta with
       | Some metadata =>
           (* Also get download status from database *)
           exec get_db_connection env RtStatus ;;
           do rows <- select (matches fid token) ;;
           match head rows with
           | Some db_data => ret (jsonify (cached_status metadata db_data) 200)
           | None => status_from_database env fid token
           end
       | None =>
           (* Fall back to database *)
           status_from_database env fid token
       end)
    (fun _ => ret (error "Status check failed" 500))).

(** [WHERE expires_at < CURRENT_TIMESTAMP AND is_downloaded = FALSE]. *)
Definition expired_not_downloaded (env : Env) (r : FileRecord) : bool :=
  (expires_at r <? now env) && negb (is_downloaded r).

(** The [for file_record in expired_files] loop of
    [cleanup_expired_files]. *)
Fixpoint cleanup_loop (env : Env) (expired_files : list FileRecord)
    (deleted_count : Z) : M Z :=
  match expired_files with
  | [] => ret deleted_count
  | file_record :: rest =>
      do deleted_count' <-
        try_except
          ((* Delete from MinIO *)
           exec remove_object env (minio_object_name file_record) ;;
           (* Delete from database *)
           exec delete_file (file_id file_record) ;;
           (* Remove from Redis cache *)
           exec redis_delete_file_meta (file_id file_record) ;;
           ret (deleted_count + 1))
          (fun _ => ret deleted_count) ;;
      cleanup_loop env rest deleted_count'
  end.

(** [POST /cleanup/expired]; the body of the answer is
    [deleted_count]. *)
Definition cleanup_expired_files (env : Env) : World -> Response Z * World :=
  run (try_except
    (exec get_db_connection env RtCleanupExpired ;;
     do expired_files <- select (expired_not_downloaded env) ;;
     do deleted_count <- cleanup_loop env expired_files 0 ;;
     ret (jsonify deleted_count 200))
    (fun _ => ret (error "Cleanup failed" 500))).

End Storage.

(* ===================================================================== *)
(** ** services/background-worker/worker.py                              *)
(* ===================================================================== *)

Module Worker.
Import Tiers.

(** What a Celery task hands back: its result, or [self.retry(...)]. *)
Inductive TaskResult :=
| Retry
| Completed (deleted_count bytes_freed : Z).

(** The [for file_record in ...] loop.  [cleanup_expired_files] and
    [cleanup_downloaded_files] carry the same loop body and differ in
    the operation they write to the audit log. *)
Fixpoint sweep (env : Env) (op : Operation) (records : list FileRecord)
    (deleted_count total_size_freed : Z) : M (Z * Z) :=
  match records with
  | [] => ret (deleted_count, total_size_freed)
  | file_record :: rest =>
      do counts <-
        try_except
          ((* Delete from MinIO *)
           exec remove_object env (minio_object_name file_record) ;;
           (* Log the cleanup operation *)
           exec insert_audit env op file_record ;;
           (* Delete from database *)
           exec delete_file (file_id file_record) ;;
           (* Remove from Redis cache *)
           exec redis_delete_file_meta (file_id file_record) ;;
           ret (deleted_count + 1,
                total_size_freed + file_size file_record))
          (fun e =>
             match e with
             | S3Error code =>
                 if bool_decide (code = "NoSuchKey") then
                   (* File already deleted from MinIO, just remove from
                      database *)
                   exec delete_file (file_id file_record) ;;
                   ret (deleted_count + 1, total_size_freed)
                 else ret (deleted_count, total_size_freed)
             | _ => ret (deleted_count, total_size_freed)
             end) ;;
      sweep env op rest (fst counts) (snd counts)
  end.

Definition task (m : M (Z * Z)) (w : World) : TaskResult * World :=
  match m w with
  | (inr (deleted, freed), w') => (Completed deleted freed, w')
  | (inl _, w') => (Retry, w')
  end.

(** [WHERE expires_at < CURRENT_TIMESTAMP]. *)
Definition is_expired (env : Env) (r : FileRecord) : bool :=
  expires_at r <? now env.

Definition cleanup_expired_files (env : Env) : World -> TaskResult * World :=
  task
    (exec get_db_connection env TaskCleanupExpired ;;
     do expired_files <- select (is_expired env) ;;
     do counts <- sweep env expired_cleanup expired_files 0 0 ;;
     (* Update cleanup statistics in Redis *)
     exec redis_setex_cleanup_stats env (fst counts) (snd counts) ;;
     ret counts).

(** [WHERE is_downloaded = TRUE
     AND downloaded_at < CURRENT_TIMESTAMP - INTERVAL '1 hour'];
    a NULL [downloaded_at] never satisfies the comparison. *)
Definition downloaded_long_ago (env : Env) (r : FileRecord) : bool :=
  is_downloaded r
  && match downloaded_at r with
     | Some t => t <? now env - 3600
     | None => false
     end.

Definition cleanup_downloaded_files (env : Env) : World -> TaskResult * World :=
  task
    (exec get_db_connection env TaskCleanupDownloaded ;;
     do downloaded_files <- select (downloaded_long_ago env) ;;
     sweep env downloaded_cleanup downloaded_files 0 0).

End Worker.

(** [send_notification] of the worker keeps its record of sent
    notifications in the Redis list [sent_notifications], which no other
    code reads or writes; the list is the state here. *)
Module Notifier.

Record Notification := {
  nt_type : string;
  nt_recipient : string;
  nt_message : string;
  nt_metadata : list (string * string);
  nt_sent_at : Z
}.

(** [LPUSH key x]. *)
Definition lpush {A} (x : A) (l : list A) : list A := x :: l.

(** [LTRIM key start stop] with indices that are not negative: what
    stays are the elements at the positions [start] to [stop]. *)
Definition ltrim {A} (start stop : nat) (l : list A) : list A :=
  take (S stop - start) (drop start l).

Definition send_notification (env : Env)
    (notification_type recipient message : string)
    (metadata : option (list (string * string)))
    (sent_notifications : list Notification)
    : Notification * list Notification :=
  let notification_data :=
    {| nt_type := notification_type;
       nt_recipient := recipient;
       nt_message := message;
       nt_metadata := default [] metadata;
       nt_sent_at := now env |} in
  (* Store notification in Redis for potential retry *)
  (notification_data,
   (* Keep last 1000 notifications *)
   ltrim 0 999 (lpush notification_data sent_notifications)).

(** One call of the task, with the clock it ran at. *)
Record Call := {
  c_env : Env;
  c_type : string;
  c_recipient : string;
  c_message : string;
  c_metadata : option (list (string * string))
}.

Definition send (l : list Notification) (c : Call) : list Notification :=
  snd (send_notification (c_env c) (c_type c) (c_recipient c) (c_message c)
         (c_metadata c) l).

Definition returned (c : Call) : Notification :=
  fst (send_notification (c_env c) (c_type c) (c_recipient c) (c_message c)
         (c_metadata c) []).

End Notifier.

(* ===================================================================== *)
(** ** services/api-gateway/app.py                                       *)
(* ===================================================================== *)

(** The encryption service is a separate program; the gateway sees the
    answers of its two routes. *)
Record EncryptionService := {
  encrypt : string -> list byte -> option string
            -> Response (list byte * string);
  decrypt : string -> list byte -> string -> option string
            -> Response (list byte)
}.

Module Gateway.
Import Tiers.

Definition ALLOWED_EXTENSIONS : list string :=
  ["txt"; "pdf"; "png"; "jpg"; "jpeg"; "gif"; "doc"; "docx"; "xls"; "xlsx";
   "ppt"; "pptx"; "zip"; "rar"; "7z"; "mp4"; "mp3"; "wav"; "avi"; "mov"].

(** [s.rsplit('.', 1)[1]] when ['.' in s]. *)
Fixpoint rsplit_dot (s : string) : option string :=
  match s with
  | EmptyString => None
  | String c s' =>
      match rsplit_dot s' with
      | Some ext => Some ext
      | None => if Ascii.eqb c "." then Some s' else None
      end
  end.

Definition lower_char (c : ascii) : ascii :=
  let n := nat_of_ascii c in
  if ((65 <=? n) && (n <=? 90))%nat then ascii_of_nat (n + 32) else c.

Fixpoint lower (s : string) : string :=
  match s with
  | EmptyString => EmptyString
  | String c s' => String (lower_char c) (lower s')
  end.

Definition allowed_file (filename : string) : bool :=
  match rsplit_dot filename with
  | Some ext => bool_decide (lower ext ∈ ALLOWED_EXTENSIONS)
  | None => false
  end.

(** [generate_token()], reading the entropy stream at [pos]. *)
Definition generate_token (e : Secrets.Entropy) (pos : nat) : string :=
  Secrets.token_urlsafe e pos 32.

(** [requests.get] / [requests.post] to a route served by [handler]. *)
Definition requests_call {A} (env : Env) (rt : Route)
    (handler : World -> Response A * World) : M (Response A) :=
  fun w =>
    match network env rt with
    | Delivered => let '(r, w') := handler w in (inr r, w')
    | ConnectionError => (inl RequestException, w)
    | ReadTimeout => (inl RequestException, snd (handler w))
    end.

(** [response.json()] read as the success document. *)
Definition json {A} (r : Response A) : M A :=
  match body r with
  | inr a => ret a
  | inl _ => raise KeyError
  end.

Record UploadedFile := {
  uf_filename : string;
  uf_content : list byte;
  uf_content_type : string
}.

(** [request.files] and [request.form] of [POST /upload]. *)
Record UploadRequest := {
  up_file : option UploadedFile;
  up_expiry_hours : option Z;
  up_password : option string
}.

Record Uploaded := {
  u_file_id : string;
  u_download_token : string;
  u_download_url : string;
  u_filename : string;
  u_file_size : Z;
  u_expires_at : Z
}.

Record Download := {
  dl_content : list byte;
  dl_download_name : string;
  dl_mimetype : string
}.

Section Handlers.

(** [os.getenv], [werkzeug.utils.secure_filename] and the encryption
    service. *)
Variable cfg : Config.
Variable secure_filename : string -> string.
Variable encryption : EncryptionService.

(** [x or default] on an optional integer. *)
Definition or_default (x : option Z) (d : Z) : Z :=
  match x with
  | Some h => if h =? 0 then d else h
  | None => d
  end.

(** [expiry_hours and expiry_hours > MAX_EXPIRY_HOURS]. *)
Definition exceeds_max (x : option Z) : bool :=
  match x with
  | Some h => negb (h =? 0) && (h >? MAX_EXPIRY_HOURS cfg)
  | None => false
  end.

Definition upload_file (env : Env) (request : UploadRequest)
    : World -> Response Uploaded * World :=
  run (try_except
    (match up_file request with
     | None => ret (error "No file provided" 400)
     | Some file =>
       if bool_decide (uf_filename file = "") then
         ret (error "No file selected" 400)
       (* Validate file *)
       else if negb (allowed_file (uf_filename file)) then
         ret (error "File type not allowed" 400)
       else
         (* Get optional parameters *)
         let expiry_hours := up_expiry_hours request in
         if exceeds_max expiry_hours then
           ret (error "Maximum expiry is MAX_EXPIRY_HOURS hours" 400)
         else
           let password := up_password request in
           (* Generate unique identifiers *)
           let file_id := Secrets.token_hex (gateway_entropy env) 0 16 in
           let download_token := generate_token (gateway_entropy env) 16 in
           (* Record metrics *)
           exec redis_incr "metrics:uploads_total" ;;
           (* Read file content *)
           let file_content := uf_content file in
           let file_size := Z.of_nat (length file_content) in
           (* Step 1: Encrypt the file *)
           do encryption_response <-
             requests_call env RtEncrypt
               (fun w => (encrypt encryption file_id file_content password, w)) ;;
           if negb (status_code encryption_response =? 200) then
             ret (error "Encryption failed" 500)
           else
             do encryption_data <- json encryption_response ;;
             (* Step 2: Store the encrypted file *)
             do storage_response <-
               requests_call env RtStore
                 (Storage.store_file env
                    {| Storage.sr_file_id := file_id;
                       Storage.sr_filename := secure_filename (uf_filename file);
                       Storage.sr_encrypted_content := fst encryption_data;
                       Storage.sr_encryption_key := snd encryption_data;
                       Storage.sr_file_size := file_size;
                       Storage.sr_download_token := download_token;
                       Storage.sr_expiry_hours :=
                         or_default expiry_hours (DEFAULT_EXPIRY_HOURS cfg);
                       Storage.sr_content_type :=
                         if bool_decide (uf_content_type file = "")
                         then "application/octet-stream"
                         else uf_content_type file |}) ;;
             if negb (status_code storage_response =? 200) then
               ret (error "Storage failed" 500)
             else
               do storage_data <- json storage_response ;;
               (* Cache download token for quick lookup *)
               exec redis_setex_token env download_token
                 (DEFAULT_EXPIRY_HOURS cfg * 3600) file_id ;;
               ret (jsonify
                      {| u_file_id := file_id;
                         u_download_token := download_token;
                         u_download_url := "/download/" +:+ download_token;
                         u_filename := secure_filename (uf_filename file);
                         u_file_size := file_size;
                         u_expires_at := Storage.st_expires_at storage_data |}
                      200)
     end)
    (fun e =>
       match e with
       | RequestException =>
           ret (error "Service temporarily unavailable" 503)
       | _ => ret (error "Upload failed" 500)
       end)).

(** [not file_id] on the answer of [redis_client.get]. *)
Definition truthy (v : option string) : option string :=
  match v with
  | Some s => if bool_decide (s = "") then None else Some s
  | None => None
  end.

Definition download_file (env : Env) (token : string)
    (password : option string) : World -> Response Download * World :=
  run (try_except
    ((* Check if token exists and get file_id *)
     do cached <- redis_get_token env token ;;
     match truthy cached with
     | None => ret (error "Invalid or expired download link" 404)
     | Some file_id =>
       (* Record download metric *)
       exec redis_incr "metrics:downloads_total" ;;
       (* Get file metadata and encrypted content from storage *)
       do storage_response <-
         requests_call env RtRetrieve (Storage.retrieve_file env file_id token) ;;
       if negb (status_code storage_response =? 200) then
         if status_code storage_response =? 404 then
           ret (error "File not found or expired" 404)
         else ret (error "Storage service error" 500)
       else
         do file_data <- json storage_response ;;
         (* Decrypt the file *)
         do decryption_response <-
           requests_call env RtDecrypt
             (fun w =>
                (decrypt encryption file_id
                   (Storage.rt_encrypted_content file_data)
                   (Storage.rt_encryption_key file_data) password, w)) ;;
         if negb (status_code decryption_response =? 200) then
           if status_code decryption_response =? 401 then
             ret (error "Invalid password" 401)
           else ret (error "Decryption failed" 500)
         else
           do file_content <- json decryption_response ;;
           (* Mark file as downloaded (one-time use) *)
           exec requests_call env RtMarkDownloaded
             (Storage.mark_file_downloaded env file_id token) ;;
           (* Remove token from cache *)
           exec redis_delete_token token ;;
           (* Return file *)
           ret (jsonify
                  {| dl_content := file_content;
                     dl_download_name := Storage.rt_filename file_data;
                     dl_mimetype := Storage.rt_content_type file_data |}
                  200)
     end)
    (fun e =>
       match e with
       | RequestException =>
           ret (error "Service temporarily unavailable" 503)
       | _ => ret (error "Download failed" 500)
       end)).

Definition get_file_status (env : Env) (token : string)
    : World -> Response Storage.StatusBody * World :=
  run (try_except
    ((* Check if token exists *)
     do cached <- redis_get_token env token ;;
     match truthy cached with
     | None => ret (error "Invalid or expired token" 404)
     | Some file_id =>
       (* Get file status from storage *)
       do storage_response <-
         requests_call env RtStatus (Storage.get_file_status env file_id token) ;;
       if negb (status_code storage_response =? 200) then
         ret (error "File not found" 404)
       else
         do result <- json storage_response ;;
         ret (jsonify result 200)
     end)
    (fun e =>
       match e with
       | RequestException =>
           ret (error "Service temporarily unavailable" 503)
       | _ => ret (error "Status check failed" 500)
       end)).

End Handlers.

End Gateway.

(* ===================================================================== *)
(** ** A deployment to run the handlers in                               *)
(* ===================================================================== *)

Module Scenario.

(** All services answer, nothing fails. *)
Definition calm (t : Z) : Env :=
  {| now := t; store_elapsed := 0%N;
     gateway_entropy := fun n => default x00%byte (Byte.of_nat ((7 * n + 3) mod 256));
     storage_entropy := fun n => default x00%byte (Byte.of_nat ((11 * n + 5) mod 256));
     network := fun _ => Delivered;
     db_down := fun _ => false;
     put_object_fails := false;
     remove_object_error := fun _ => None |}.

(** An encryption service that keeps the content as it is and uses the
    password as key material; [decrypt] answers 401 to another
    password. *)
Definition keyed : EncryptionService :=
  {| encrypt := fun _ content password =>
       jsonify (content, default "" password) 200;
     decrypt := fun _ content key password =>
       if bool_decide (default "" password = key)
       then jsonify content 200
       else error "Invalid password" 401 |}.

Definition hello : list byte := [x48; x65; x6c; x6c; x6f]%byte.

Definition request (hours : option Z) (password : option string)
    : Gateway.UploadRequest :=
  {| Gateway.up_file :=
       Some {| Gateway.uf_filename := "test_file.txt";
               Gateway.uf_content := hello;
               Gateway.uf_content_type := "text/plain" |};
     Gateway.up_expiry_hours := hours;
     Gateway.up_password := password |}.

Definition upload (hours : option Z) (password : option string) (t : Z)
    : Response Gateway.Uploaded * World :=
  Gateway.upload_file default_config (fun s => s) keyed (calm t)
    (request hours password) empty_world.

(** The identifiers the entropy of [calm] yields. *)
Definition the_file_id : string :=
  Secrets.token_hex (gateway_entropy (calm 0)) 0 16.
Definition the_token : string :=
  Gateway.generate_token (gateway_entropy (calm 0)) 16.

(** The world after an upload at time 1000 that asks for one hour. *)
Definition uploaded : World := snd (upload (Some 1) None 1000).

Definition download (env : Env) (password : option string) (w : World)
    : Response Gateway.Download * World :=
  Gateway.download_file keyed env the_token password w.

(** ... and after its download at time 2000. *)
Definition consumed : World := snd (download (calm 2000) None uploaded).

(** What the uploader of [uploaded] was told. *)
Definition receipt : Gateway.Uploaded :=
  {| Gateway.u_file_id := the_file_id;
     Gateway.u_download_token := the_token;
     Gateway.u_download_url := "/download/" +:+ the_token;
     Gateway.u_filename := "test_file.txt";
     Gateway.u_file_size := 5;
     Gateway.u_expires_at := 4600 |}.

(** The row that upload left in [files]. *)
Definition the_row : FileRecord :=
  {| file_id := the_file_id; filename := "test_file.txt"; file_size := 5;
     content_type := "text/plain"; download_token := the_token;
     encryption_key := ""; created_at := 1000; expires_at := 4600;
     downloaded_at := None; is_downloaded := false; download_count := 0;
     minio_object_name :=
       the_file_id +:+ "/"
       +:+ Secrets.token_hex (storage_entropy (calm 0)) 0 8 |}.

(** The same upload protected by a password. *)
Definition locked : World := snd (upload (Some 1) (Some "s3cret") 1000).

Definition locked_row : FileRecord :=
  {| file_id := the_file_id; filename := "test_file.txt"; file_size := 5;
     content_type := "text/plain"; download_token := the_token;
     encryption_key := "s3cret"; created_at := 1000; expires_at := 4600;
     downloaded_at := None; is_downloaded := false; download_count := 0;
     minio_object_name := minio_object_name the_row |}.

(** The database cannot be reached while [mark_file_downloaded]
    runs. *)
Definition mark_outage (t : Z) : Env :=
  {| now := t; store_elapsed := 0%N;
     gateway_entropy := gateway_entropy (calm t);
     storage_entropy := storage_entropy (calm t);
     network := fun _ => Delivered;
     db_down := fun rt => match rt with RtMarkDownloaded => true | _ => false end;
     put_object_fails := false;
     remove_object_error := fun _ => None |}.

(** What the uploader is told when asking for 48 hours. *)
Definition long_receipt : Gateway.Uploaded :=
  {| Gateway.u_file_id := the_file_id;
     Gateway.u_download_token := the_token;
     Gateway.u_download_url := "/download/" +:+ the_token;
     Gateway.u_filename := "test_file.txt";
     Gateway.u_file_size := 5;
     Gateway.u_expires_at := 1000 + 48 * 3600 |}.

(** The storage service cannot be reached for [mark_downloaded]. *)
Definition mark_unreachable (t : Z) : Env :=
  {| now := t; store_elapsed := 0%N;
     gateway_entropy := gateway_entropy (calm t);
     storage_entropy := storage_entropy (calm t);
     network := fun rt => match rt with
                          | RtMarkDownloaded => ConnectionError
                          | _ => Delivered
                          end;
     db_down := fun _ => false;
     put_object_fails := false;
     remove_object_error := fun _ => None |}.

(** The encryption service cannot be reached. *)
Definition encryption_lost (t : Z) : Env :=
  {| now := t; store_elapsed := 0%N;
     gateway_entropy := gateway_entropy (calm t);
     storage_entropy := storage_entropy (calm t);
     network := fun rt => match rt with
                          | RtEncrypt => ConnectionError
                          | _ => Delivered
                          end;
     db_down := fun _ => false;
     put_object_fails := false;
     remove_object_error := fun _ => None |}.

(** A store in which two seconds pass between the reading of the clock
    and the SETEX. *)
Definition unhurried (t : Z) : Env :=
  {| now := t; store_elapsed := 2%N;
     gateway_entropy := gateway_entropy (calm t);
     storage_entropy := storage_entropy (calm t);
     network := fun _ => Delivered;
     db_down := fun _ => false;
     put_object_fails := false;
     remove_object_error := fun _ => None |}.

(** Another client, with other bytes from the entropy source. *)
Definition other (t : Z) : Env :=
  {| now := t; store_elapsed := 0%N;
     gateway_entropy := fun n => default x00%byte (Byte.of_nat ((13 * n + 1) mod 256));
     storage_entropy := fun n => default x00%byte (Byte.of_nat ((17 * n + 2) mod 256));
     network := fun _ => Delivered;
     db_down := fun _ => false;
     put_object_fails := false;
     remove_object_error := fun _ => None |}.

(** [uploaded], and a second file uploaded at time 1500 for 48 hours. *)
Definition two_files : World :=
  snd (Gateway.upload_file default_config (fun s => s) keyed (other 1500)
         (request (Some 48) None) uploaded).

Definition other_file_id : string :=
  Secrets.token_hex (gateway_entropy (other 0)) 0 16.
Definition other_token : string :=
  Gateway.generate_token (gateway_entropy (other 0)) 16.

Definition other_row : FileRecord :=
  {| file_id := other_file_id; filename := "test_file.txt"; file_size := 5;
     content_type := "text/plain"; download_token := other_token;
     encryption_key := ""; created_at := 1500;
     expires_at := 1500 + 48 * 3600;
     downloaded_at := None; is_downloaded := false; download_count := 0;
     minio_object_name :=
       other_file_id +:+ "/"
       +:+ Secrets.token_hex (storage_entropy (other 0)) 0 8 |}.

(** A request to store a file of its own. *)
Definition parcel (hours : Z) : Storage.StoreRequest :=
  {| Storage.sr_file_id := "abc";
     Storage.sr_filename := "a.txt";
     Storage.sr_encrypted_content := hello;
     Storage.sr_encryption_key := "k";
     Storage.sr_file_size := 5;
     Storage.sr_download_token := "t";
     Storage.sr_expiry_hours := hours;
     Storage.sr_content_type := "text/plain" |}.

(** The blob tier refuses every removal. *)
Definition removal_denied (t : Z) : Env :=
  {| now := t; store_elapsed := 0%N;
     gateway_entropy := gateway_entropy (calm t);
     storage_entropy := storage_entropy (calm t);
     network := fun _ => Delivered;
     db_down := fun _ => false;
     put_object_fails := false;
     remove_object_error := fun _ => Some "AccessDenied" |}.

End Scenario.

(* ===================================================================== *)
(** ** Vocabulary of the statements                                      *)
(* ===================================================================== *)

Ltac unfold_handler :=
  unfold Tiers.get_db_connection, Tiers.select, Tiers.get_object,
    Tiers.update_files, Tiers.redis_delete_file_meta,
    Tiers.redis_get_file_meta, Tiers.redis_get_token,
    Tiers.redis_delete_token, Tiers.redis_incr in *;
  unfold run, try_except, bind, ret, raise, error, jsonify in *.

(** The writes of a handler, read off the world it leaves. *)
Ltac store_trace :=
  cbn [effects Tiers.with_bucket Tiers.with_files Tiers.with_meta_cache];
  repeat (unfold log;
          cbn [effects Tiers.with_bucket Tiers.with_files
               Tiers.with_meta_cache]);
  rewrite <- ?app_assoc; reflexivity.

Definition served (fid : string) (r : FileRecord) (blob : list byte)
    : Storage.Retrieved :=
  {| Storage.rt_file_id := fid;
     Storage.rt_filename := filename r;
     Storage.rt_file_size := file_size r;
     Storage.rt_content_type := content_type r;
     Storage.rt_encrypted_content := blob;
     Storage.rt_encryption_key := encryption_key r;
     Storage.rt_created_at := created_at r;
     Storage.rt_expires_at := expires_at r |}.

Definition object_name (env : Env) (data : Storage.StoreRequest) : string :=
  Storage.sr_file_id data +:+ "/"
  +:+ Secrets.token_hex (storage_entropy env) 0 8.

Definition stored_row (env : Env) (data : Storage.StoreRequest) : FileRecord :=
  {| file_id := Storage.sr_file_id data;
     filename := Storage.sr_filename data;
     file_size := Storage.sr_file_size data;
     content_type := Storage.sr_content_type data;
     download_token := Storage.sr_download_token data;
     encryption_key := Storage.sr_encryption_key data;
     created_at := now env;
     expires_at := now env + Storage.sr_expiry_hours data * 3600;
     downloaded_at := None;
     is_downloaded := false;
     download_count := 0;
     minio_object_name := object_name env data |}.

Definition stored_meta (env : Env) (data : Storage.StoreRequest) : FileMeta :=
  {| meta_file_id := Storage.sr_file_id data;
     meta_filename := Storage.sr_filename data;
     meta_file_size := Storage.sr_file_size data;
     meta_content_type := Storage.sr_content_type data;
     meta_expires_at := now env + Storage.sr_expiry_hours data * 3600;
     meta_minio_object_name := object_name env data |}.

(** The checks of [datetime] on the expiry time pass. *)
Definition expiry_fits (env : Env) (data : Storage.StoreRequest) : bool :=
  Tiers.timedelta_fits (Storage.sr_expiry_hours data)
  && Tiers.datetime_fits (now env + Storage.sr_expiry_hours data * 3600).

(** The moment at which the SETEX of [store_file] reaches Redis. *)
Definition cached_at (env : Env) : Z := now env + Z.of_N (store_elapsed env).

(** Every cache entry belongs to a row of [files]: a cached metadata
    document to a row with its file identifier, a cached token to a row
    with its file identifier and that token. *)
Definition cache_backed (w : World) : Prop :=
  (forall fid, is_Some (meta_cache w !! fid) ->
               exists r, r ∈ files w /\ file_id r = fid)
  /\ (forall token fid deadline,
        token_cache w !! token = Some (fid, deadline) ->
        exists r, r ∈ files w /\ file_id r = fid /\ download_token r = token).

(** What the blob tier answers to the removal of a candidate's blob. *)
Definition blob_error (env : Env) (c : FileRecord) : option string :=
  remove_object_error env (minio_object_name c).

Definition blob_removed (env : Env) (c : FileRecord) : bool :=
  match blob_error env c with
  | None => true
  | Some _ => false
  end.

(** The candidates whose row the worker deletes: the blob was removed,
    or the blob tier said [NoSuchKey]. *)
Definition worker_cleans (env : Env) (c : FileRecord) : bool :=
  match blob_error env c with
  | None => true
  | Some code => bool_decide (code = "NoSuchKey")
  end.

Definition audit_entry (env : Env) (op : Operation) (c : FileRecord) : AuditEntry :=
  {| audit_file_id := file_id c; audit_operation := op;
     audit_filename := filename c; audit_file_size := file_size c;
     audit_cleanup_time := now env |}.

(** No row of [files] carries this file identifier any more. *)
Definition gone (fid : string) (w : World) : Prop :=
  forall r, In r (files w) -> file_id r <> fid.

(** What a sweep of the worker has done to each row [c] of the table it
    started from: a candidate whose blob was removed is gone, with its
    blob, and is in the audit log; a candidate that the blob tier
    reported as [NoSuchKey] is gone; a candidate whose blob removal
    failed otherwise is still there; and so is every row that was not a
    candidate. *)
Definition worker_outcome (env : Env) (op : Operation)
    (candidate : FileRecord -> bool) (w w' : World) : Prop :=
  forall c, In c (files w) ->
    if candidate c then
      match blob_error env c with
      | None =>
          gone (file_id c) w'
          /\ bucket w' !! minio_object_name c = None
          /\ In (audit_entry env op c) (file_audit_log w')
      | Some code =>
          if bool_decide (code = "NoSuchKey") then gone (file_id c) w'
          else In c (files w')
      end
    else In c (files w').

(** The same for [POST /cleanup/expired] of the storage service, which
    keeps no audit log and leaves the row on any error of the blob
    tier. *)
Definition storage_outcome (env : Env) (candidate : FileRecord -> bool)
    (w w' : World) : Prop :=
  file_audit_log w' = file_audit_log w
  /\ forall c, In c (files w) ->
       if candidate c then
         match blob_error env c with
         | None => gone (file_id c) w' /\ bucket w' !! minio_object_name c = None
         | Some _ => In c (files w')
         end
       else In c (files w').

(** The status the storage service computes from a row. *)
Definition status_of (env : Env) (r : FileRecord) : Storage.FileStatus :=
  if is_downloaded r then Storage.downloaded
  else if now env >? expires_at r then Storage.expired
  else Storage.available.

(** The world once [upload_file] has counted the upload. *)
Definition upload_counted (w : World) : World :=
  Tiers.with_counters
    (<["metrics:uploads_total" :=
         default 0 (counters w !! "metrics:uploads_total") + 1]>
       (counters w))
    (CounterIncr "metrics:uploads_total") w.

(** The body [upload_file] posts to [/store]. *)
Definition store_request_of (cfg : Config) (sf : string -> string) (env : Env)
    (request : Gateway.UploadRequest) (file : Gateway.UploadedFile)
    (encryption_data : list byte * string) : Storage.StoreRequest :=
  {| Storage.sr_file_id := Secrets.token_hex (gateway_entropy env) 0 16;
     Storage.sr_filename := sf (Gateway.uf_filename file);
     Storage.sr_encrypted_content := fst encryption_data;
     Storage.sr_encryption_key := snd encryption_data;
     Storage.sr_file_size := Z.of_nat (length (Gateway.uf_content file));
     Storage.sr_download_token :=
       Gateway.generate_token (gateway_entropy env) 16;
     Storage.sr_expiry_hours :=
       Gateway.or_default (Gateway.up_expiry_hours request)
         (DEFAULT_EXPIRY_HOURS cfg);
     Storage.sr_content_type :=
       if bool_decide (Gateway.uf_content_type file = "")
       then "application/octet-stream"
       else Gateway.uf_content_type file |}.

(** The two UNIQUE columns of [files] hold no value twice. *)
Definition unique_keys (w : World) : Prop :=
  NoDup (map file_id (files w)) /\ NoDup (map download_token (files w)).

(** No ['.'] in the string. *)
Definition no_dot (s : string) : bool :=
  Encoding.string_forall (fun c => negb (Ascii.eqb c ".")) s.

(** The sizes of the rows, added up. *)
Definition total_size (l : list FileRecord) : Z :=
  fold_right (fun r acc => file_size r + acc) 0 l.

(* ===================================================================== *)
(** * Properties                                                         *)
(* ===================================================================== *)

(** ** Identifiers *)

Section EncodingFacts.
Import Encoding.

Lemma hex_digit_is_hex (n : N) : is_hex_char (hex_digit n) = true.
Proof.
  unfold hex_digit.
  assert (H : forall k : nat, is_hex_char (nth k hex_alphabet "0"%char) = true).
  { intros k. do 16 (destruct k as [|k]; [reflexivity|]).
    destruct k; reflexivity. }
  apply H.
Qed.

Lemma hexlify_length (bs : list byte) :
  String.length (hexlify bs) = (2 * length bs)%nat.
Proof. induction bs as [|b bs IH]; simpl; [reflexivity | rewrite IH; lia]. Qed.

Lemma hexlify_is_hex (bs : list byte) :
  string_forall is_hex_char (hexlify bs) = true.
Proof.
  induction bs as [|b bs IH]; simpl; [reflexivity|].
  rewrite !hex_digit_is_hex, IH. reflexivity.
Qed.

Lemma b64_char_urlsafe (n : N) : is_urlsafe_char (b64_char n) = true.
Proof.
  unfold b64_char.
  assert (H : forall k : nat,
             is_urlsafe_char (nth k urlsafe_alphabet "A"%char) = true).
  { intros k. do 64 (destruct k as [|k]; [reflexivity|]).
    destruct k; reflexivity. }
  apply H.
Qed.

Lemma b64_char_not_pad (n : N) : Ascii.eqb (b64_char n) "=" = false.
Proof.
  unfold b64_char.
  assert (H : forall k : nat,
             Ascii.eqb (nth k urlsafe_alphabet "A"%char) "=" = false).
  { intros k. do 64 (destruct k as [|k]; [reflexivity|]).
    destruct k; reflexivity. }
  apply H.
Qed.

Lemma rstrip_cons_other (c a : ascii) (s : string) :
  Ascii.eqb a c = false -> rstrip c (String a s) = String a (rstrip c s).
Proof. intros H. simpl. rewrite H. destruct (rstrip c s); reflexivity. Qed.

(** Lists three elements at a time, the way base64 consumes them. *)
Lemma list_ind3 {A} (P : list A -> Prop) :
  P [] -> (forall x, P [x]) -> (forall x y, P [x; y]) ->
  (forall x y z l, P l -> P (x :: y :: z :: l)) ->
  forall l, P l.
Proof.
  intros H0 H1 H2 H3 l.
  cut (P l /\ (forall x, P (x :: l)) /\ (forall x y, P (x :: y :: l))).
  { intros [H _]. exact H. }
  induction l as [|a l (IHa & IHb & IHc)].
  - auto.
  - repeat split; auto.
Qed.

Lemma b64_stripped_length (bs : list byte) :
  String.length (rstrip "=" (urlsafe_b64encode bs))
  = ((4 * length bs + 2) / 3)%nat.
Proof.
  induction bs as [|x|x y|x y z l IH] using list_ind3.
  - reflexivity.
  - cbn [urlsafe_b64encode].
    rewrite !rstrip_cons_other by apply b64_char_not_pad. reflexivity.
  - cbn [urlsafe_b64encode].
    rewrite !rstrip_cons_other by apply b64_char_not_pad. reflexivity.
  - cbn [urlsafe_b64encode].
    rewrite !rstrip_cons_other by apply b64_char_not_pad.
    cbn [String.length length]. rewrite IH.
    replace (4 * S (S (S (length l))) + 2)%nat
      with ((4 * length l + 2) + 4 * 3)%nat by lia.
    rewrite Nat.div_add by lia. lia.
Qed.

Lemma b64_stripped_urlsafe (bs : list byte) :
  string_forall is_urlsafe_char (rstrip "=" (urlsafe_b64encode bs)) = true.
Proof.
  induction bs as [|x|x y|x y z l IH] using list_ind3.
  - reflexivity.
  - cbn [urlsafe_b64encode].
    rewrite !rstrip_cons_other by apply b64_char_not_pad.
    cbn [string_forall rstrip]. rewrite !b64_char_urlsafe. reflexivity.
  - cbn [urlsafe_b64encode].
    rewrite !rstrip_cons_other by apply b64_char_not_pad.
    cbn [string_forall rstrip]. rewrite !b64_char_urlsafe. reflexivity.
  - cbn [urlsafe_b64encode].
    rewrite !rstrip_cons_other by apply b64_char_not_pad.
    cbn [string_forall]. rewrite !b64_char_urlsafe, IH. reflexivity.
Qed.

Lemma token_bytes_length (e : Secrets.Entropy) (pos n : nat) :
  length (Secrets.token_bytes e pos n) = n.
Proof. unfold Secrets.token_bytes. rewrite length_map, length_seq. reflexivity. Qed.

Lemma token_hex_shape (e : Secrets.Entropy) (pos n : nat) :
  String.length (Secrets.token_hex e pos n) = (2 * n)%nat
  /\ string_forall is_hex_char (Secrets.token_hex e pos n) = true.
Proof.
  unfold Secrets.token_hex. split.
  - rewrite hexlify_length, token_bytes_length. reflexivity.
  - apply hexlify_is_hex.
Qed.

Lemma token_urlsafe_shape (e : Secrets.Entropy) (pos n : nat) :
  String.length (Secrets.token_urlsafe e pos n) = ((4 * n + 2) / 3)%nat
  /\ string_forall is_urlsafe_char (Secrets.token_urlsafe e pos n) = true.
Proof.
  unfold Secrets.token_urlsafe. split.
  - rewrite b64_stripped_length, token_bytes_length. reflexivity.
  - apply b64_stripped_urlsafe.
Qed.

End EncodingFacts.

(** ** The storage service *)

Lemma head_filter_find {A} (p : A -> bool) (l : list A) :
  head (List.filter p l) = List.find p l.
Proof.
  induction l as [|a l IH]; simpl; [reflexivity|].
  destruct (p a); simpl; [reflexivity | exact IH].
Qed.

Lemma matches_spec (fid token : string) (r : FileRecord) :
  Tiers.matches fid token r = true <-> file_id r = fid /\ download_token r = token.
Proof.
  unfold Tiers.matches. rewrite andb_true_iff, !bool_decide_eq_true. tauto.
Qed.

Lemma retrieve_file_eq (env : Env) (fid token : string) (w : World) :
  Storage.retrieve_file env fid token w =
  (if bool_decide (token = "") then error "Download token required" 400
   else if db_down env RtRetrieve then error "Retrieval failed" 500
   else match List.find (Tiers.matches fid token) (files w) with
        | None => error "File not found or invalid token" 404
        | Some r =>
            if now env >? expires_at r then error "File has expired" 410
            else if is_downloaded r then
              error "File has already been downloaded" 410
            else match bucket w !! minio_object_name r with
                 | None => error "File not found in storage" 404
                 | Some content =>
                     jsonify
                       {| Storage.rt_file_id := fid;
                          Storage.rt_filename := filename r;
                          Storage.rt_file_size := file_size r;
                          Storage.rt_content_type := content_type r;
                          Storage.rt_encrypted_content := content;
                          Storage.rt_encryption_key := encryption_key r;
                          Storage.rt_created_at := created_at r;
                          Storage.rt_expires_at := expires_at r |} 200
                 end
        end,
   w).
Proof.
  unfold Storage.retrieve_file. unfold_handler.
  destruct (bool_decide (token = "")); [reflexivity|].
  destruct (db_down env RtRetrieve); [reflexivity|].
  cbn beta iota. rewrite head_filter_find.
  destruct (List.find _ _) as [r|]; [|reflexivity].
  destruct (now env >? expires_at r); [reflexivity|].
  destruct (is_downloaded r); [reflexivity|].
  destruct (bucket w !! minio_object_name r); reflexivity.
Qed.

(** C10. [retrieve_file] is read-only: whatever the file identifier, the
    token, the clock and the faults of the environment, and whichever
    answer it gives (content, 400, 404, 410 or 500), the state after the
    call is the state before it: no field of any row of [files] changes,
    no row and no blob is deleted, neither cache is touched and no write
    is issued to any tier. *)
Theorem retrieve_file_read_only (env : Env) (fid token : string) (w : World) :
  snd (Storage.retrieve_file env fid token w) = w.
Proof. rewrite retrieve_file_eq. reflexivity. Qed.

(** C4 (as amended). With a token that is not empty and the metadata
    store reachable, [retrieve_file] answers by the first row that
    matches both the file identifier and the token: 404 when there is
    none, 410 "expired" when [now > expires_at], 410 "already
    downloaded" when the row is not expired and [is_downloaded] holds;
    and a 200 answer always comes from a matching row that is neither
    expired nor downloaded, with the content of its blob. *)
Theorem retrieve_file_outcomes (env : Env) (fid token : string) (w : World)
    (Htoken : token <> "") (Hdb : db_down env RtRetrieve = false) :
  let answer := fst (Storage.retrieve_file env fid token w) in
  (List.find (Tiers.matches fid token) (files w) = None ->
     answer = error "File not found or invalid token" 404)
  /\ (forall r, List.find (Tiers.matches fid token) (files w) = Some r ->
        (now env > expires_at r) -> answer = error "File has expired" 410)
  /\ (forall r, List.find (Tiers.matches fid token) (files w) = Some r ->
        now env <= expires_at r -> is_downloaded r = true ->
        answer = error "File has already been downloaded" 410)
  /\ (status_code answer = 200 ->
        exists r d,
          List.find (Tiers.matches fid token) (files w) = Some r
          /\ file_id r = fid /\ download_token r = token
          /\ now env <= expires_at r /\ is_downloaded r = false
          /\ body answer = inr d
          /\ bucket w !! minio_object_name r = Some (Storage.rt_encrypted_content d)).
Proof.
  intros answer. subst answer. rewrite retrieve_file_eq. cbn [fst].
  rewrite bool_decide_eq_false_2 by exact Htoken. rewrite Hdb.
  repeat split.
  - intros ->. reflexivity.
  - intros r -> Hexp.
    assert ((now env >? expires_at r) = true) as -> by lia. reflexivity.
  - intros r -> Hexp Hdl.
    assert ((now env >? expires_at r) = false) as -> by lia.
    rewrite Hdl. reflexivity.
  - destruct (List.find _ _) as [r|] eqn:Hfind; [|discriminate].
    destruct (now env >? expires_at r) eqn:Hexp; [discriminate|].
    destruct (is_downloaded r) eqn:Hdl; [discriminate|].
    destruct (bucket w !! minio_object_name r) as [content|] eqn:Hblob;
      [|discriminate].
    intros _. eexists r, _.
    apply find_some in Hfind as Hm. destruct Hm as [_ Hm].
    apply matches_spec in Hm as [Hf Ht].
    repeat split; try eassumption; try reflexivity. lia.
Qed.

(** The "only when" half without any assumption: a 200 answer of
    [retrieve_file] is never given for an expired or downloaded row. *)
Lemma retrieve_file_content_only_when (env : Env) (fid token : string)
    (w : World) :
  status_code (fst (Storage.retrieve_file env fid token w)) = 200 ->
  exists r, List.find (Tiers.matches fid token) (files w) = Some r
            /\ now env <= expires_at r /\ is_downloaded r = false.
Proof.
  rewrite retrieve_file_eq. cbn [fst].
  destruct (bool_decide (token = "")); [discriminate|].
  destruct (db_down env RtRetrieve); [discriminate|].
  destruct (List.find _ _) as [r|]; [|discriminate].
  destruct (now env >? expires_at r) eqn:Hexp; [discriminate|].
  destruct (is_downloaded r) eqn:Hdl; [discriminate|].
  intros _. exists r. split; [reflexivity|]. split; [lia | exact Hdl].
Qed.

Lemma map_unmatched (p : FileRecord -> bool) (f : FileRecord -> FileRecord)
    (l : list FileRecord) :
  existsb p l = false -> map (fun r => if p r then f r else r) l = l.
Proof.
  induction l as [|a l IH]; simpl; [reflexivity|].
  intros H. apply orb_false_iff in H as [Ha Hl].
  rewrite Ha, IH by exact Hl. reflexivity.
Qed.

Lemma rowcount_zero (p : FileRecord -> bool) (l : list FileRecord) :
  (length (List.filter p l) =? 0)%nat = negb (existsb p l).
Proof.
  induction l as [|a l IH]; simpl; [reflexivity|].
  destruct (p a); simpl; [reflexivity | exact IH].
Qed.

Lemma mark_file_downloaded_eq (env : Env) (fid token : string) (w : World) :
  Storage.mark_file_downloaded env fid token w =
  if bool_decide (token = "") then (error "Download token required" 400, w)
  else if db_down env RtMarkDownloaded then (error "Operation failed" 500, w)
  else
    let w1 :=
      Tiers.with_files
        (map (fun r => if Tiers.matches fid token r
                       then Storage.set_downloaded env r else r) (files w))
        (RowUpdate fid token) w in
    if existsb (Tiers.matches fid token) (files w) then
      (jsonify {| Storage.mk_file_id := fid;
                  Storage.mk_timestamp := now env |} 200,
       Tiers.with_meta_cache (delete fid (meta_cache w1)) (MetaCacheDelete fid) w1)
    else (error "File not found or invalid token" 404, w1).
Proof.
  unfold Storage.mark_file_downloaded. unfold_handler.
  destruct (bool_decide (token = "")); [reflexivity|].
  destruct (db_down env RtMarkDownloaded); [reflexivity|].
  cbn beta iota. rewrite rowcount_zero.
  destruct (existsb _ _); reflexivity.
Qed.

(** C1 (as amended). [mark_file_downloaded] applies its update to every
    row that matches the file identifier and the token, whether or not
    the row is already downloaded: such a row ends with [is_downloaded]
    set, [downloaded_at] at the current time and [download_count] one
    higher, every other row is left as it was, and the answer is 200.
    When no row matches, the answer is 404 and no row changes.  No call
    ever takes [is_downloaded] back from true to false. *)
Theorem mark_file_downloaded_every_match (env : Env) (fid token : string)
    (w : World) (Htoken : token <> "")
    (Hdb : db_down env RtMarkDownloaded = false) :
  let answer := fst (Storage.mark_file_downloaded env fid token w) in
  let w' := snd (Storage.mark_file_downloaded env fid token w) in
  (forall i r, files w !! i = Some r ->
     files w' !! i =
       Some (if Tiers.matches fid token r
             then {| file_id := file_id r; filename := filename r;
                     file_size := file_size r; content_type := content_type r;
                     download_token := download_token r;
                     encryption_key := encryption_key r;
                     created_at := created_at r; expires_at := expires_at r;
                     downloaded_at := Some (now env);
                     is_downloaded := true;
                     download_count := download_count r + 1;
                     minio_object_name := minio_object_name r |}
             else r))
  /\ length (files w') = length (files w)
  /\ (existsb (Tiers.matches fid token) (files w) = true ->
        status_code answer = 200)
  /\ (existsb (Tiers.matches fid token) (files w) = false ->
        answer = error "File not found or invalid token" 404
        /\ files w' = files w)
  /\ (forall i r, files w !! i = Some r -> is_downloaded r = true ->
        exists r', files w' !! i = Some r' /\ is_downloaded r' = true)
  /\ bucket w' = bucket w /\ token_cache w' = token_cache w
  /\ file_audit_log w' = file_audit_log w.
Proof.
  intros answer w'. subst answer w'. rewrite mark_file_downloaded_eq.
  rewrite bool_decide_eq_false_2 by exact Htoken. rewrite Hdb. cbn zeta.
  assert (Hmono : forall i r,
            files w !! i = Some r -> is_downloaded r = true ->
            exists r',
              map (fun r => if Tiers.matches fid token r
                            then Storage.set_downloaded env r else r)
                (files w) !! i = Some r' /\ is_downloaded r' = true).
  { intros i r Hi Hdl. rewrite list_lookup_fmap, Hi.
    destruct (Tiers.matches fid token r) eqn:Hm; cbn; rewrite Hm;
      eexists; (split; [reflexivity|]); [reflexivity | exact Hdl]. }
  destruct (existsb (Tiers.matches fid token) (files w)) eqn:Hex;
    cbn [fst snd files bucket token_cache file_audit_log
         Tiers.with_files Tiers.with_meta_cache status_code jsonify].
  - repeat split; try discriminate; try exact Hmono.
    + intros i r Hi. rewrite list_lookup_fmap, Hi. reflexivity.
    + apply length_map.
  - repeat split; try discriminate; try exact Hmono.
    + intros i r Hi. rewrite list_lookup_fmap, Hi. reflexivity.
    + apply length_map.
    + apply map_unmatched, Hex.
Qed.

(** ** The gateway *)

(** [download_file] unrolled: one case per way the handler can end. *)
Lemma download_file_eq (enc : EncryptionService) (env : Env) (token : string)
    (password : option string) (w : World) :
  Gateway.download_file enc env token password w =
  match Gateway.truthy (Tiers.live env (token_cache w !! token)) with
  | None => (error "Invalid or expired download link" 404, w)
  | Some fid =>
    let w1 :=
      Tiers.with_counters
        (<["metrics:downloads_total" :=
             default 0 (counters w !! "metrics:downloads_total") + 1]>
           (counters w))
        (CounterIncr "metrics:downloads_total") w in
    let unavailable : Response Gateway.Download :=
      error "Service temporarily unavailable" 503 in
    match network env RtRetrieve with
    | Delivered =>
      let storage_response := fst (Storage.retrieve_file env fid token w1) in
      if negb (status_code storage_response =? 200) then
        (if status_code storage_response =? 404
         then error "File not found or expired" 404
         else error "Storage service error" 500, w1)
      else
        match body storage_response with
        | inl _ => (error "Download failed" 500, w1)
        | inr file_data =>
          match network env RtDecrypt with
          | Delivered =>
            let decryption_response :=
              decrypt enc fid (Storage.rt_encrypted_content file_data)
                (Storage.rt_encryption_key file_data) password in
            if negb (status_code decryption_response =? 200) then
              (if status_code decryption_response =? 401
               then error "Invalid password" 401
               else error "Decryption failed" 500, w1)
            else
              match body decryption_response with
              | inl _ => (error "Download failed" 500, w1)
              | inr file_content =>
                let w2 := snd (Storage.mark_file_downloaded env fid token w1) in
                match network env RtMarkDownloaded with
                | Delivered =>
                  (jsonify
                     {| Gateway.dl_content := file_content;
                        Gateway.dl_download_name := Storage.rt_filename file_data;
                        Gateway.dl_mimetype := Storage.rt_content_type file_data |}
                     200,
                   Tiers.with_token_cache (delete token (token_cache w2))
                     (TokenCacheDelete token) w2)
                | ConnectionError => (unavailable, w1)
                | ReadTimeout => (unavailable, w2)
                end
              end
          | _ => (unavailable, w1)
          end
        end
    | _ => (unavailable, w1)
    end
  end.
Proof.
  unfold Gateway.download_file, Gateway.requests_call, Gateway.json.
  unfold_handler.
  destruct (Gateway.truthy _) as [fid|]; [|reflexivity].
  cbn beta iota zeta.
  set (w1 := Tiers.with_counters _ _ w).
  assert (Hro : snd (Storage.retrieve_file env fid token w1) = w1)
    by (rewrite retrieve_file_eq; reflexivity).
  destruct (network env RtRetrieve); try (rewrite ?Hro; reflexivity).
  destruct (Storage.retrieve_file env fid token w1) as [r1 w1'].
  cbn [fst snd] in *. subst w1'.
  destruct (negb (status_code r1 =? 200)).
  { destruct (status_code r1 =? 404); reflexivity. }
  destruct (body r1) as [?|file_data]; [reflexivity|].
  destruct (network env RtDecrypt); try reflexivity.
  destruct (negb (status_code (decrypt enc fid _ _ password) =? 200)).
  { destruct (status_code _ =? 401); reflexivity. }
  destruct (body (decrypt enc fid _ _ password)) as [?|content]; [reflexivity|].
  destruct (network env RtMarkDownloaded); try reflexivity.
  destruct (Storage.mark_file_downloaded env fid token w1); reflexivity.
Qed.

Lemma retrieve_file_200 (env : Env) (fid token : string) (w : World) :
  status_code (fst (Storage.retrieve_file env fid token w)) = 200 ->
  token <> "" /\ db_down env RtRetrieve = false
  /\ exists r blob,
       List.find (Tiers.matches fid token) (files w) = Some r
       /\ now env <= expires_at r /\ is_downloaded r = false
       /\ bucket w !! minio_object_name r = Some blob
       /\ fst (Storage.retrieve_file env fid token w) = jsonify (served fid r blob) 200.
Proof.
  rewrite retrieve_file_eq. cbn [fst].
  destruct (bool_decide (token = "")) eqn:Htok; [discriminate|].
  apply bool_decide_eq_false in Htok.
  destruct (db_down env RtRetrieve); [discriminate|].
  destruct (List.find _ _) as [r|]; [|discriminate].
  destruct (now env >? expires_at r) eqn:Hexp; [discriminate|].
  destruct (is_downloaded r) eqn:Hdl; [discriminate|].
  destruct (bucket w !! minio_object_name r) as [blob|] eqn:Hblob;
    [|discriminate].
  intros _. split; [exact Htok|]. split; [reflexivity|].
  exists r, blob. rewrite Hdl.
  repeat split; [lia | exact Hblob].
Qed.

Lemma retrieve_file_serves (env : Env) (fid token : string) (w : World)
    (r : FileRecord) (blob : list byte) :
  token <> "" -> db_down env RtRetrieve = false ->
  List.find (Tiers.matches fid token) (files w) = Some r ->
  now env <= expires_at r -> is_downloaded r = false ->
  bucket w !! minio_object_name r = Some blob ->
  fst (Storage.retrieve_file env fid token w) = jsonify (served fid r blob) 200.
Proof.
  intros Htok Hdb Hfind Hexp Hdl Hblob.
  rewrite retrieve_file_eq. cbn [fst].
  rewrite bool_decide_eq_false_2 by exact Htok.
  rewrite Hdb, Hfind, Hdl, Hblob.
  assert ((now env >? expires_at r) = false) as -> by lia.
  reflexivity.
Qed.

Lemma truthy_live (env : Env) (token fid : string) (w : World) :
  Gateway.truthy (Tiers.live env (token_cache w !! token)) = Some fid <->
  exists deadline,
    token_cache w !! token = Some (fid, deadline)
    /\ now env < deadline /\ fid <> "".
Proof.
  unfold Gateway.truthy, Tiers.live. split.
  - destruct (token_cache w !! token) as [[v d]|]; [|discriminate].
    destruct (now env <? d) eqn:Hd; [|discriminate].
    destruct (bool_decide (v = "")) eqn:Hv; [discriminate|].
    intros [= ->]. apply bool_decide_eq_false in Hv.
    exists d. repeat split; [lia | exact Hv].
  - intros (d & -> & Hd & Hv).
    assert ((now env <? d) = true) as -> by lia.
    rewrite bool_decide_eq_false_2 by exact Hv. reflexivity.
Qed.

(** A [download_file] that answers 401 got that answer from the
    decryption service, for a token that resolves to a row that is
    neither expired nor downloaded; it has changed nothing but the
    download counter, and a later call that is served finds all it
    needs. *)
Lemma unauthorized_download_frame (enc : EncryptionService) (env : Env)
    (token : string) (password : option string) (w : World)
    (H401 : status_code (fst (Gateway.download_file enc env token password w)) = 401) :
  let w' := snd (Gateway.download_file enc env token password w) in
  fst (Gateway.download_file enc env token password w)
    = error "Invalid password" 401
  /\ files w' = files w /\ bucket w' = bucket w
  /\ token_cache w' = token_cache w /\ meta_cache w' = meta_cache w
  /\ file_audit_log w' = file_audit_log w
  /\ exists fid deadline r blob,
       token_cache w' !! token = Some (fid, deadline) /\ now env < deadline
       /\ List.find (Tiers.matches fid token) (files w') = Some r
       /\ is_downloaded r = false /\ now env <= expires_at r
       /\ bucket w' !! minio_object_name r = Some blob
       /\ forall (env2 : Env) (password2 : option string) (content : list byte),
            now env2 < deadline -> now env2 <= expires_at r ->
            (forall rt, network env2 rt = Delivered) ->
            db_down env2 RtRetrieve = false ->
            decrypt enc fid blob (encryption_key r) password2
              = jsonify content 200 ->
            fst (Gateway.download_file enc env2 token password2 w')
            = jsonify {| Gateway.dl_content := content;
                         Gateway.dl_download_name := filename r;
                         Gateway.dl_mimetype := content_type r |} 200.
Proof.
  intros w'. subst w'. revert H401. rewrite download_file_eq.
  destruct (Gateway.truthy _) as [fid|] eqn:Hfid; [|discriminate].
  cbn zeta. set (w1 := Tiers.with_counters _ _ w).
  destruct (network env RtRetrieve); try discriminate.
  destruct (negb (status_code (fst (Storage.retrieve_file env fid token w1)) =? 200))
    eqn:H200.
  { destruct (status_code _ =? 404); discriminate. }
  apply negb_false_iff, Z.eqb_eq, retrieve_file_200 in H200.
  destruct H200 as (Htok & Hdb & r & blob & Hfind & Hexp & Hdl & Hblob & ->).
  cbn [body jsonify].
  destruct (network env RtDecrypt); try discriminate.
  cbn [served Storage.rt_encrypted_content Storage.rt_encryption_key].
  destruct (negb (status_code (decrypt enc fid blob (encryption_key r) password) =? 200)).
  2:{ destruct (body _); [discriminate|].
      destruct (network env RtMarkDownloaded); discriminate. }
  destruct (status_code _ =? 401); [|discriminate].
  intros _. cbn [fst snd].
  repeat (split; [reflexivity|]).
  apply truthy_live in Hfid as (deadline & Hcache & Hlive & Hne).
  exists fid, deadline, r, blob.
  repeat (split; [assumption|]).
  intros env2 password2 content Hlive2 Hexp2 Hnet Hdb2 Hdec.
  rewrite download_file_eq.
  assert (Gateway.truthy (Tiers.live env2 (token_cache w1 !! token)) = Some fid)
    as -> by (apply truthy_live; exists deadline; auto).
  cbn zeta. rewrite !Hnet.
  set (w2 := Tiers.with_counters _ _ w1).
  rewrite (retrieve_file_serves env2 fid token w2 r blob) by assumption.
  cbn [status_code jsonify body negb Z.eqb Pos.eqb served
       Storage.rt_encrypted_content Storage.rt_encryption_key
       Storage.rt_filename Storage.rt_content_type].
  rewrite Hdec. reflexivity.
Qed.

(** [download_file] serves the file of a live token when every call on
    the way is answered. *)
Lemma download_file_serves (enc : EncryptionService) (env : Env)
    (token : string) (password : option string) (w : World)
    (fid : string) (deadline : Z) (r : FileRecord) (blob content : list byte) :
  token_cache w !! token = Some (fid, deadline) -> now env < deadline ->
  fid <> "" -> token <> "" ->
  List.find (Tiers.matches fid token) (files w) = Some r ->
  is_downloaded r = false -> now env <= expires_at r ->
  bucket w !! minio_object_name r = Some blob ->
  (forall rt, network env rt = Delivered) ->
  db_down env RtRetrieve = false ->
  decrypt enc fid blob (encryption_key r) password = jsonify content 200 ->
  fst (Gateway.download_file enc env token password w)
  = jsonify {| Gateway.dl_content := content;
               Gateway.dl_download_name := filename r;
               Gateway.dl_mimetype := content_type r |} 200.
Proof.
  intros Hcache Hlive Hfid Htok Hfind Hdl Hexp Hblob Hnet Hdb Hdec.
  rewrite download_file_eq.
  assert (Gateway.truthy (Tiers.live env (token_cache w !! token)) = Some fid)
    as -> by (apply truthy_live; exists deadline; auto).
  cbn zeta. rewrite !Hnet.
  set (w1 := Tiers.with_counters _ _ w).
  rewrite (retrieve_file_serves env fid token w1 r blob) by assumption.
  cbn [status_code jsonify body negb Z.eqb Pos.eqb served
       Storage.rt_encrypted_content Storage.rt_encryption_key
       Storage.rt_filename Storage.rt_content_type].
  rewrite Hdec. reflexivity.
Qed.

(** C3. Take a stored file: its token resolves in the token cache, its
    row is neither expired nor downloaded, its blob is in the bucket and
    the storage and decryption services answer.  A [download_file] whose
    password the decryption service refuses with 401 answers 401 and
    leaves every tier as it was, apart from the download counter: the
    token entry is still cached and the row is still not downloaded.  A
    later [download_file] with a password the decryption service accepts,
    made from that state before the token entry and the file expire,
    answers 200 with the decrypted content. *)
Theorem wrong_password_keeps_token (enc : EncryptionService) (env : Env)
    (token : string) (password : option string) (w : World)
    (fid : string) (deadline : Z) (r : FileRecord) (blob : list byte)
    (Hcache : token_cache w !! token = Some (fid, deadline))
    (Hlive : now env < deadline) (Hfid : fid <> "") (Htoken : token <> "")
    (Hrow : List.find (Tiers.matches fid token) (files w) = Some r)
    (Hfresh : is_downloaded r = false) (Hexp : now env <= expires_at r)
    (Hblob : bucket w !! minio_object_name r = Some blob)
    (Hretrieve : network env RtRetrieve = Delivered)
    (Hdecrypt : network env RtDecrypt = Delivered)
    (Hdb : db_down env RtRetrieve = false)
    (Hwrong : status_code (decrypt enc fid blob (encryption_key r) password) = 401) :
  let w' := snd (Gateway.download_file enc env token password w) in
  fst (Gateway.download_file enc env token password w)
    = error "Invalid password" 401
  /\ files w' = files w /\ bucket w' = bucket w
  /\ token_cache w' = token_cache w /\ meta_cache w' = meta_cache w
  /\ file_audit_log w' = file_audit_log w
  /\ token_cache w' !! token = Some (fid, deadline)
  /\ List.find (Tiers.matches fid token) (files w') = Some r
  /\ forall (env2 : Env) (password2 : option string) (content : list byte),
       now env2 < deadline -> now env2 <= expires_at r ->
       (forall rt, network env2 rt = Delivered) ->
       db_down env2 RtRetrieve = false ->
       decrypt enc fid blob (encryption_key r) password2 = jsonify content 200 ->
       fst (Gateway.download_file enc env2 token password2 w')
       = jsonify {| Gateway.dl_content := content;
                    Gateway.dl_download_name := filename r;
                    Gateway.dl_mimetype := content_type r |} 200.
Proof.
  intros w'. subst w'. rewrite download_file_eq.
  assert (Gateway.truthy (Tiers.live env (token_cache w !! token)) = Some fid)
    as -> by (apply truthy_live; exists deadline; auto).
  cbn zeta. rewrite Hretrieve, Hdecrypt.
  set (w1 := Tiers.with_counters _ _ w).
  rewrite (retrieve_file_serves env fid token w1 r blob) by assumption.
  cbn [status_code jsonify body negb Z.eqb Pos.eqb served
       Storage.rt_encrypted_content Storage.rt_encryption_key].
  rewrite Hwrong. cbn [Z.eqb Pos.eqb negb fst snd].
  repeat (split; [first [reflexivity | assumption]|]).
  intros env2 password2 content Hlive2 Hexp2 Hnet Hdb2 Hdec.
  apply (download_file_serves enc env2 token password2 w1 fid deadline r blob);
    assumption.
Qed.

(** ** Storing *)

Lemma store_file_eq (env : Env) (data : Storage.StoreRequest) (w : World) :
  Storage.store_file env data w =
  if negb (expiry_fits env data) then (error "Storage failed" 500, w)
  else if put_object_fails env then (error "Storage service error" 500, w)
  else
    let w1 :=
      Tiers.with_bucket
        (<[object_name env data := Storage.sr_encrypted_content data]> (bucket w))
        (BlobPut (object_name env data)) w in
    if db_down env RtStore then (error "Storage failed" 500, w1)
    else if Tiers.fits_columns (stored_row env data)
            && negb (existsb (Tiers.clashes (stored_row env data)) (files w))
    then
      let w2 :=
        Tiers.with_files (files w ++ [stored_row env data])
          (RowInsert (Storage.sr_file_id data)) w1 in
      if Storage.sr_expiry_hours data * 3600 <=? 0
      then (error "Storage failed" 500, w2)
      else
        (jsonify
           {| Storage.st_file_id := Storage.sr_file_id data;
              Storage.st_expires_at :=
                now env + Storage.sr_expiry_hours data * 3600;
              Storage.st_minio_object := object_name env data |} 200,
         Tiers.with_meta_cache
           (<[Storage.sr_file_id data :=
                (stored_meta env data,
                 cached_at env + Storage.sr_expiry_hours data * 3600)]>
              (meta_cache w))
           (MetaCacheSet (Storage.sr_file_id data)) w2)
    else (error "Storage failed" 500, w1).
Proof.
  unfold Storage.store_file, Tiers.plus_hours, Tiers.put_object,
    Tiers.insert_file, Tiers.redis_setex_file_meta.
  unfold_handler.
  fold (expiry_fits env data). fold (cached_at env).
  destruct (expiry_fits env data); [|reflexivity].
  cbn beta iota zeta.
  fold (object_name env data). fold (stored_row env data).
  fold (stored_meta env data).
  destruct (put_object_fails env); [reflexivity|].
  destruct (db_down env RtStore); [reflexivity|].
  cbn beta iota zeta. cbn [files Tiers.with_bucket].
  destruct (Tiers.fits_columns _ && _); [|reflexivity].
  destruct (Storage.sr_expiry_hours data * 3600 <=? 0); reflexivity.
Qed.

(** A 200 answer of [store_file] carries the identifier, the expiry time
    and the object name. *)
Lemma store_file_answer (env : Env) (data : Storage.StoreRequest) (w : World) :
  status_code (fst (Storage.store_file env data w)) = 200 ->
  body (fst (Storage.store_file env data w))
  = inr {| Storage.st_file_id := Storage.sr_file_id data;
           Storage.st_expires_at :=
             now env + Storage.sr_expiry_hours data * 3600;
           Storage.st_minio_object := object_name env data |}.
Proof.
  rewrite store_file_eq.
  destruct (expiry_fits env data); [|discriminate]. cbn [negb].
  destruct (put_object_fails env); [discriminate|]. cbn zeta.
  destruct (db_down env RtStore); [discriminate|].
  destruct (Tiers.fits_columns _ && _); [|discriminate].
  destruct (_ <=? 0); [discriminate | reflexivity].
Qed.

(** What a 200 answer of [store_file] tells about the world it leaves. *)
Lemma store_file_stored (env : Env) (data : Storage.StoreRequest) (w : World) :
  status_code (fst (Storage.store_file env data w)) = 200 ->
  let w' := snd (Storage.store_file env data w) in
  files w' = files w ++ [stored_row env data]
  /\ existsb (Tiers.clashes (stored_row env data)) (files w) = false
  /\ bucket w'
     = <[object_name env data := Storage.sr_encrypted_content data]> (bucket w)
  /\ token_cache w' = token_cache w
  /\ meta_cache w'
     = <[Storage.sr_file_id data :=
           (stored_meta env data,
            cached_at env + Storage.sr_expiry_hours data * 3600)]> (meta_cache w)
  /\ file_audit_log w' = file_audit_log w
  /\ 0 < Storage.sr_expiry_hours data * 3600.
Proof.
  rewrite store_file_eq.
  destruct (expiry_fits env data); [|discriminate]. cbn [negb].
  destruct (put_object_fails env); [discriminate|]. cbn zeta.
  destruct (db_down env RtStore); [discriminate|].
  destruct (Tiers.fits_columns _ && _) eqn:Hfit; [|discriminate].
  apply andb_true_iff in Hfit as [_ Hclash].
  apply negb_true_iff in Hclash.
  destruct (_ <=? 0) eqn:Httl; [discriminate|].
  intros _. cbn. repeat split; try assumption. lia.
Qed.

Lemma store_keeps_token_cache (env : Env) (data : Storage.StoreRequest)
    (w : World) :
  token_cache (snd (Storage.store_file env data w)) = token_cache w.
Proof.
  rewrite store_file_eq.
  destruct (expiry_fits env data); [|reflexivity]. cbn [negb].
  destruct (put_object_fails env); [reflexivity|]. cbn zeta.
  destruct (db_down env RtStore); [reflexivity|].
  destruct (Tiers.fits_columns _ && _); [|reflexivity].
  destruct (_ <=? 0); reflexivity.
Qed.

(** [store_file] leaves the rows of [files] where they are. *)
Lemma store_file_keeps_rows (env : Env) (data : Storage.StoreRequest)
    (w : World) (r : FileRecord) :
  r ∈ files w -> r ∈ files (snd (Storage.store_file env data w)).
Proof.
  intros Hr. rewrite store_file_eq.
  destruct (expiry_fits env data); [|exact Hr]. cbn [negb].
  destruct (put_object_fails env); [exact Hr|]. cbn zeta.
  destruct (db_down env RtStore); [exact Hr|].
  destruct (Tiers.fits_columns _ && _); [|exact Hr].
  destruct (_ <=? 0); cbn [snd files Tiers.with_files Tiers.with_meta_cache];
    apply elem_of_app; left; exact Hr.
Qed.

(** [store_file] never leaves a cache entry without its row. *)
Lemma store_file_backed (env : Env) (data : Storage.StoreRequest) (w : World) :
  cache_backed w -> cache_backed (snd (Storage.store_file env data w)).
Proof.
  intros [Hm Ht]. split.
  - intros fid Hc.
    destruct (decide (is_Some (meta_cache w !! fid))) as [Hold|Hnew].
    + destruct (Hm fid Hold) as (r & Hr & Hf).
      exists r. split; [apply store_file_keeps_rows; exact Hr | exact Hf].
    + revert Hc. rewrite store_file_eq.
      destruct (expiry_fits env data); [|intros; contradiction]. cbn [negb].
      destruct (put_object_fails env); [intros; contradiction|]. cbn zeta.
      destruct (db_down env RtStore); [intros; contradiction|].
      destruct (Tiers.fits_columns _ && _); [|intros; contradiction].
      destruct (_ <=? 0); [intros; contradiction|].
      cbn [snd files meta_cache Tiers.with_files Tiers.with_meta_cache].
      destruct (decide (fid = Storage.sr_file_id data)) as [->|Hne].
      * intros _. exists (stored_row env data). split; [|reflexivity].
        apply elem_of_app. right. apply list_elem_of_singleton. reflexivity.
      * rewrite lookup_insert_ne by congruence. intros; contradiction.
  - intros token fid deadline Hc. rewrite store_keeps_token_cache in Hc.
    destruct (Ht token fid deadline Hc) as (r & Hr & Hf).
    exists r. split; [apply store_file_keeps_rows; exact Hr | exact Hf].
Qed.

(** The worlds [upload_file] can leave: the one it found; that with the
    upload counted; that after [store_file]; and, when [store_file] has
    answered 200 and so does the upload, that with the token entry. *)
Lemma upload_file_worlds (cfg : Config) (sf : string -> string)
    (enc : EncryptionService) (env : Env) (request : Gateway.UploadRequest)
    (w : World) :
  let up := Gateway.upload_file cfg sf enc env request w in
  (status_code (fst up) <> 200 /\ (snd up = w \/ snd up = upload_counted w))
  \/ exists data,
       let stored := Storage.store_file env data (upload_counted w) in
       (status_code (fst up) <> 200 /\ snd up = snd stored)
       \/ (status_code (fst stored) = 200 /\ status_code (fst up) = 200
           /\ snd up
              = Tiers.with_token_cache
                  (<[Storage.sr_download_token data :=
                       (Storage.sr_file_id data,
                        now env + DEFAULT_EXPIRY_HOURS cfg * 3600)]>
                     (token_cache (snd stored)))
                  (TokenCacheSet (Storage.sr_download_token data))
                  (snd stored)).
Proof.
  cbn zeta.
  unfold Gateway.upload_file, Gateway.requests_call, Gateway.json,
    Tiers.redis_setex_token.
  unfold_handler.
  destruct (Gateway.up_file request) as [file|];
    [|left; split; [discriminate | left; reflexivity]].
  destruct (bool_decide (Gateway.uf_filename file = ""));
    [left; split; [discriminate | left; reflexivity]|].
  destruct (negb (Gateway.allowed_file _));
    [left; split; [discriminate | left; reflexivity]|].
  destruct (Gateway.exceeds_max cfg _);
    [left; split; [discriminate | left; reflexivity]|].
  cbn beta iota zeta. fold (upload_counted w).
  destruct (network env RtEncrypt);
    try (left; split; [discriminate | right; reflexivity]).
  destruct (negb (status_code (encrypt enc _ _ _) =? 200));
    [left; split; [discriminate | right; reflexivity]|].
  destruct (body (encrypt enc _ _ _)) as [?|encryption_data];
    [left; split; [discriminate | right; reflexivity]|].
  fold (store_request_of cfg sf env request file encryption_data).
  set (data := store_request_of cfg sf env request file encryption_data).
  destruct (network env RtStore);
    [| left; split; [discriminate | right; reflexivity]
     | right; exists data; left; split; [discriminate | reflexivity]].
  right. exists data.
  destruct (Storage.store_file env data (upload_counted w)) as [rs ws].
  cbn [fst snd].
  destruct (negb (status_code rs =? 200)) eqn:Hrs;
    [left; split; [discriminate | reflexivity]|].
  apply negb_false_iff, Z.eqb_eq in Hrs.
  destruct (body rs); [left; split; [discriminate | reflexivity]|].
  destruct (DEFAULT_EXPIRY_HOURS cfg * 3600 <=? 0);
    [left; split; [discriminate | reflexivity]|].
  right. cbn [fst snd status_code]. repeat split. exact Hrs.
Qed.

(** [upload_file] never leaves a cache entry without its row. *)
Lemma upload_file_backed (cfg : Config) (sf : string -> string)
    (enc : EncryptionService) (env : Env) (request : Gateway.UploadRequest)
    (w : World) :
  cache_backed w ->
  cache_backed (snd (Gateway.upload_file cfg sf enc env request w)).
Proof.
  intros Hb.
  assert (Hc : cache_backed (upload_counted w)) by exact Hb.
  destruct (upload_file_worlds cfg sf enc env request w)
    as [[_ [-> | ->]] | (data & [[_ ->] | (H200 & _ & ->)])];
    [exact Hb | exact Hc | apply store_file_backed; exact Hc |].
  pose proof (store_file_backed env data _ Hc) as [Hm Ht].
  destruct (store_file_stored env data _ H200) as (Hfiles & _).
  split; [exact Hm|].
  intros token fid deadline.
  cbn [token_cache files Tiers.with_token_cache].
  destruct (decide (token = Storage.sr_download_token data)) as [->|Hne].
  - rewrite lookup_insert_eq. intros [= <- <-].
    exists (stored_row env data). split; [|split; reflexivity].
    rewrite Hfiles. apply elem_of_app. right.
    apply list_elem_of_singleton. reflexivity.
  - rewrite lookup_insert_ne by congruence. apply Ht.
Qed.

(** C5. [store_file] issues its writes in one order and stops at the
    first that fails.  The expiry time [now + expiry_hours * 3600] is
    computed first; when it is out of the range of [datetime], or when
    the blob write fails, nothing is written.  Otherwise the blob is in
    the bucket under [<file_id>/<16 hex digits>], and then the row is
    inserted, with that expiry time, when the database is reached and
    accepts it, and not otherwise.  With the row inserted, the metadata
    document is cached and the answer is 200 when SETEX accepts the time
    to live, and neither otherwise.  So a row is added only with its
    blob in the bucket and a metadata document is cached only with its
    row in the table; [store_file] never touches the token cache, the
    gateway writes the token entry only in an upload answered 200, when
    the row is in the table; and a world in which every cache entry has
    its row stays so under [store_file] and under [upload_file]. *)
Theorem store_file_order (env : Env) (data : Storage.StoreRequest) (w : World) :
  let fid := Storage.sr_file_id data in
  let hours := Storage.sr_expiry_hours data in
  let content := Storage.sr_encrypted_content data in
  let suffix := Secrets.token_hex (storage_entropy env) 0 8 in
  let name := fid +:+ "/" +:+ suffix in
  let expires := now env + hours * 3600 in
  let row := stored_row env data in
  let answer := fst (Storage.store_file env data w) in
  let w' := snd (Storage.store_file env data w) in
  (String.length suffix = 16%nat
   /\ Encoding.string_forall Encoding.is_hex_char suffix = true
   /\ file_id row = fid
   /\ download_token row = Storage.sr_download_token data
   /\ expires_at row = expires
   /\ is_downloaded row = false
   /\ minio_object_name row = name)
  /\ (exists k, effects w' =
                effects w ++ take k [BlobPut name; RowInsert fid; MetaCacheSet fid])
  /\ (expiry_fits env data = false \/ put_object_fails env = true ->
        w' = w /\ status_code answer = 500)
  /\ (expiry_fits env data = true -> put_object_fails env = false ->
        bucket w' = <[name := content]> (bucket w)
        /\ (db_down env RtStore = true
            \/ Tiers.fits_columns row = false
            \/ existsb (Tiers.clashes row) (files w) = true ->
              effects w' = effects w ++ [BlobPut name]
              /\ files w' = files w /\ meta_cache w' = meta_cache w
              /\ answer = error "Storage failed" 500)
        /\ (db_down env RtStore = false ->
            Tiers.fits_columns row = true ->
            existsb (Tiers.clashes row) (files w) = false ->
              files w' = files w ++ [row]
              /\ (hours * 3600 <= 0 ->
                    effects w' = effects w ++ [BlobPut name; RowInsert fid]
                    /\ meta_cache w' = meta_cache w
                    /\ answer = error "Storage failed" 500)
              /\ (0 < hours * 3600 ->
                    effects w' =
                    effects w ++ [BlobPut name; RowInsert fid; MetaCacheSet fid]
                    /\ meta_cache w'
                       = <[fid := (stored_meta env data,
                                   cached_at env + hours * 3600)]> (meta_cache w)
                    /\ answer
                       = jsonify {| Storage.st_file_id := fid;
                                    Storage.st_expires_at := expires;
                                    Storage.st_minio_object := name |} 200)))
  /\ (files w' = files w
      \/ (files w' = files w ++ [row]
          /\ bucket w' !! name = Some content))
  /\ (meta_cache w' = meta_cache w
      \/ (exists m deadline,
            meta_cache w' = <[fid := (m, deadline)]> (meta_cache w)
            /\ files w' = files w ++ [row]))
  /\ (status_code answer = 200 ->
        is_Some (meta_cache w' !! fid)
        /\ files w' = files w ++ [row]
        /\ bucket w' !! name = Some content)
  /\ token_cache w' = token_cache w
  /\ (cache_backed w -> cache_backed w')
  /\ (forall (cfg : Config) (sf : string -> string) (enc : EncryptionService)
             (request : Gateway.UploadRequest),
        let up := Gateway.upload_file cfg sf enc env request w in
        ((status_code (fst up) <> 200 /\ token_cache (snd up) = token_cache w)
         \/ (exists token' fid' deadline r,
               status_code (fst up) = 200
               /\ token_cache (snd up)
                  = <[token' := (fid', deadline)]> (token_cache w)
               /\ r ∈ files (snd up)
               /\ file_id r = fid' /\ download_token r = token'))
        /\ (cache_backed w -> cache_backed (snd up))).
Proof.
  intros fid hours content suffix name expires row answer w'.
  split; [pose proof (token_hex_shape (storage_entropy env) 0 8) as [? ?];
          repeat split; assumption|].
  assert (Hup : forall (cfg : Config) (sf : string -> string)
                  (enc : EncryptionService) (request : Gateway.UploadRequest),
             let up := Gateway.upload_file cfg sf enc env request w in
             ((status_code (fst up) <> 200
               /\ token_cache (snd up) = token_cache w)
              \/ (exists token' fid' deadline r,
                    status_code (fst up) = 200
                    /\ token_cache (snd up)
                       = <[token' := (fid', deadline)]> (token_cache w)
                    /\ r ∈ files (snd up)
                    /\ file_id r = fid' /\ download_token r = token'))
             /\ (cache_backed w -> cache_backed (snd up))).
  { intros cfg sf enc request. cbn zeta.
    split; [|apply upload_file_backed].
    destruct (upload_file_worlds cfg sf enc env request w)
      as [[Hn [-> | ->]] | (d & [[Hn ->] | (H200 & Hu & ->)])].
    - left. split; [exact Hn | reflexivity].
    - left. split; [exact Hn | reflexivity].
    - left. split; [exact Hn|]. rewrite store_keeps_token_cache. reflexivity.
    - right.
      destruct (store_file_stored env d _ H200) as (Hfiles & _ & _ & Htc & _).
      exists (Storage.sr_download_token d), (Storage.sr_file_id d),
        (now env + DEFAULT_EXPIRY_HOURS cfg * 3600), (stored_row env d).
      cbn [token_cache files Tiers.with_token_cache].
      split; [exact Hu|]. split; [rewrite Htc; reflexivity|].
      split; [|split; reflexivity].
      rewrite Hfiles. apply elem_of_app. right.
      apply list_elem_of_singleton. reflexivity. }
  assert (Hbacked : cache_backed w -> cache_backed w')
    by apply store_file_backed.
  assert (Htoken : token_cache w' = token_cache w)
    by apply store_keeps_token_cache.
  subst answer w'. revert Hbacked Htoken. rewrite store_file_eq.
  change (object_name env data) with name. fold fid hours content row expires.
  intros Hbacked Htoken.
  assert (Hblob : <[name := content]> (bucket w) !! name = Some content)
    by apply lookup_insert_eq.
  destruct (expiry_fits env data).
  2:{ cbn [negb fst snd status_code error].
      split; [exists 0%nat; cbn; rewrite app_nil_r; reflexivity|].
      split; [intros _; split; reflexivity|].
      split; [discriminate|].
      repeat (split; [first [left; reflexivity | discriminate
                        | exact Htoken | exact Hbacked]|]).
      exact Hup. }
  cbn [negb].
  destruct (put_object_fails env).
  { cbn [fst snd status_code error].
    split; [exists 0%nat; cbn; rewrite app_nil_r; reflexivity|].
    split; [intros _; split; reflexivity|].
    split; [discriminate|].
    repeat (split; [first [left; reflexivity | discriminate
                        | exact Htoken | exact Hbacked]|]).
    exact Hup. }
  cbn zeta.
  destruct (db_down env RtStore).
  { cbn [fst snd files meta_cache effects bucket status_code error
         Tiers.with_bucket log].
    split; [exists 1%nat; reflexivity|].
    split; [intros [?|?]; discriminate|].
    split.
    { intros _ _. split; [reflexivity|].
      split; [intros _; repeat split | discriminate]. }
    repeat (split; [first [left; reflexivity | discriminate
                        | exact Htoken | exact Hbacked]|]).
    exact Hup. }
  destruct (Tiers.fits_columns row && _) eqn:Hins.
  2:{ cbn [fst snd files meta_cache effects bucket status_code error
           Tiers.with_bucket log].
      split; [exists 1%nat; reflexivity|].
      split; [intros [?|?]; discriminate|].
      split.
      { intros _ _. split; [reflexivity|].
        split; [intros _; repeat split|].
        intros _ Hfit Hclash. rewrite Hfit, Hclash in Hins. discriminate. }
      repeat (split; [first [left; reflexivity | discriminate
                        | exact Htoken | exact Hbacked]|]).
      exact Hup. }
  apply andb_true_iff in Hins as [Hfit Hclash].
  apply negb_true_iff in Hclash.
  destruct (hours * 3600 <=? 0) eqn:Httl; cbn [fst snd].
  - split; [exists 2%nat; store_trace|].
    split; [intros [?|?]; discriminate|].
    split.
    { intros _ _. split; [reflexivity|].
      split; [intros [?|[?|?]]; congruence|].
      intros _ _ _. split; [reflexivity|].
      split; [intros _; split; [store_trace | split; reflexivity] | lia]. }
    split; [right; split; [reflexivity | exact Hblob]|].
    split; [left; reflexivity|].
    split; [discriminate|].
    split; [exact Htoken|]. split; [exact Hbacked | exact Hup].
  - split; [exists 3%nat; store_trace|].
    split; [intros [?|?]; discriminate|].
    split.
    { intros _ _. split; [reflexivity|].
      split; [intros [?|[?|?]]; congruence|].
      intros _ _ _. split; [reflexivity|].
      split; [lia | intros _; split; [store_trace | split; reflexivity]]. }
    split; [right; split; [reflexivity | exact Hblob]|].
    split; [right; eexists _, _; split; reflexivity|].
    split; [intros _; split; [cbn; rewrite lookup_insert_eq; eauto|];
            split; [reflexivity | exact Hblob]|].
    split; [exact Htoken|]. split; [exact Hbacked | exact Hup].
Qed.

(** ** Uploading *)

(** What a 200 answer of [upload_file] tells about the run. *)
Lemma upload_file_200 (cfg : Config) (sf : string -> string)
    (enc : EncryptionService) (env : Env) (request : Gateway.UploadRequest)
    (w : World) (u : Gateway.Uploaded) :
  fst (Gateway.upload_file cfg sf enc env request w) = jsonify u 200 ->
  exists data : Storage.StoreRequest,
    let fid := Secrets.token_hex (gateway_entropy env) 0 16 in
    let token := Gateway.generate_token (gateway_entropy env) 16 in
    let w1 :=
      Tiers.with_counters
        (<["metrics:uploads_total" :=
             default 0 (counters w !! "metrics:uploads_total") + 1]>
           (counters w))
        (CounterIncr "metrics:uploads_total") w in
    let ws := snd (Storage.store_file env data w1) in
    Storage.sr_file_id data = fid
    /\ Storage.sr_download_token data = token
    /\ Storage.sr_expiry_hours data
       = Gateway.or_default (Gateway.up_expiry_hours request)
           (DEFAULT_EXPIRY_HOURS cfg)
    /\ Gateway.u_file_id u = fid
    /\ Gateway.u_download_token u = token
    /\ status_code (fst (Storage.store_file env data w1)) = 200
    /\ body (fst (Storage.store_file env data w1))
       = inr {| Storage.st_file_id := fid;
                Storage.st_expires_at := Gateway.u_expires_at u;
                Storage.st_minio_object := object_name env data |}
    /\ 0 < DEFAULT_EXPIRY_HOURS cfg * 3600
    /\ snd (Gateway.upload_file cfg sf enc env request w)
       = Tiers.with_token_cache
           (<[token := (fid, now env + DEFAULT_EXPIRY_HOURS cfg * 3600)]>
              (token_cache ws))
           (TokenCacheSet token) ws.
Proof.
  unfold Gateway.upload_file, Gateway.requests_call, Gateway.json,
    Tiers.redis_setex_token.
  unfold_handler.
  destruct (Gateway.up_file request) as [file|]; [|discriminate].
  destruct (bool_decide (Gateway.uf_filename file = "")); [discriminate|].
  destruct (negb (Gateway.allowed_file _)); [discriminate|].
  destruct (Gateway.exceeds_max cfg _); [discriminate|].
  cbn beta iota zeta.
  set (w1 := Tiers.with_counters _ _ w).
  destruct (network env RtEncrypt); try discriminate.
  destruct (negb (status_code (encrypt enc _ _ _) =? 200)); [discriminate|].
  destruct (body (encrypt enc _ _ _)) as [?|encryption_data]; [discriminate|].
  destruct (network env RtStore); try discriminate.
  match goal with
  | |- context [Storage.store_file env ?d w1] => set (data := d)
  end.
  pose proof (store_file_answer env data w1) as Hbody.
  destruct (Storage.store_file env data w1) as [rs ws] eqn:Hs.
  cbn [fst snd] in *.
  destruct (negb (status_code rs =? 200)) eqn:Hrs; [discriminate|].
  apply negb_false_iff, Z.eqb_eq in Hrs.
  pose proof (Hbody Hrs) as Hb. rewrite Hb.
  destruct (DEFAULT_EXPIRY_HOURS cfg * 3600 <=? 0) eqn:Httl; [discriminate|].
  cbn [fst snd]. intros [= <-].
  exists data. cbn zeta. rewrite Hs.
  cbn [fst snd Gateway.u_file_id Gateway.u_download_token
       Gateway.u_expires_at].
  repeat split; try reflexivity; try assumption. lia.
Qed.

(** The time to live of the token entry, for any requested expiry. *)
Lemma upload_token_ttl (cfg : Config) (sf : string -> string)
    (enc : EncryptionService) (env : Env) (request : Gateway.UploadRequest)
    (w : World) (u : Gateway.Uploaded) :
  fst (Gateway.upload_file cfg sf enc env request w) = jsonify u 200 ->
  token_cache (snd (Gateway.upload_file cfg sf enc env request w))
    !! Gateway.u_download_token u
  = Some (Gateway.u_file_id u, now env + DEFAULT_EXPIRY_HOURS cfg * 3600)
  /\ Gateway.u_expires_at u
     = now env
       + Gateway.or_default (Gateway.up_expiry_hours request)
           (DEFAULT_EXPIRY_HOURS cfg) * 3600.
Proof.
  intros Hok. apply upload_file_200 in Hok.
  destruct Hok as (data & Hfid & Htok & Hhours & Hufid & Hutok & H200 & Hbody
                   & _ & ->).
  cbn zeta in *. rewrite Hufid, Hutok.
  split; [apply lookup_insert_eq|].
  pose proof (store_file_answer env data _ H200) as Hb'.
  rewrite Hbody in Hb'.
  apply (f_equal (fun b => match b with
                           | inr s => Storage.st_expires_at s
                           | inl _ => 0
                           end)) in Hb'.
  cbn in Hb'. rewrite Hb', Hhours. reflexivity.
Qed.

(** C9. A successful [upload_file] returns a [file_id] of 32 hexadecimal
    digits and a [download_token] of 43 characters of the URL-safe
    base64 alphabet, whatever bytes the entropy source hands out. *)
Theorem upload_identifier_shapes (cfg : Config) (sf : string -> string)
    (enc : EncryptionService) (env : Env) (request : Gateway.UploadRequest)
    (w : World) (u : Gateway.Uploaded)
    (Hok : fst (Gateway.upload_file cfg sf enc env request w) = jsonify u 200) :
  String.length (Gateway.u_file_id u) = 32%nat
  /\ Encoding.string_forall Encoding.is_hex_char (Gateway.u_file_id u) = true
  /\ String.length (Gateway.u_download_token u) = 43%nat
  /\ Encoding.string_forall Encoding.is_urlsafe_char
       (Gateway.u_download_token u) = true.
Proof.
  apply upload_file_200 in Hok.
  destruct Hok as (data & _ & _ & _ & -> & -> & _).
  unfold Gateway.generate_token.
  destruct (token_hex_shape (gateway_entropy env) 0 16) as [Hl Hh].
  destruct (token_urlsafe_shape (gateway_entropy env) 16 32) as [Hl' Hu].
  repeat split; assumption.
Qed.

(** ** Cleaning up *)

Lemma sweep_cons (env : Env) (op : Operation) (c : FileRecord)
    (rest : list FileRecord) (n s : Z) (w : World) :
  Worker.sweep env op (c :: rest) n s w =
  match blob_error env c with
  | None =>
      Worker.sweep env op rest (n + 1) (s + file_size c)
        (Tiers.with_meta_cache
           (delete (file_id c) (meta_cache w)) (MetaCacheDelete (file_id c))
           (Tiers.with_files
              (List.filter (fun r => negb (bool_decide (file_id r = file_id c)))
                 (files w))
              (RowDelete (file_id c))
              (Tiers.with_audit (file_audit_log w ++ [audit_entry env op c])
                 (AuditInsert (file_id c) op)
                 (Tiers.with_bucket (delete (minio_object_name c) (bucket w))
                    (BlobRemove (minio_object_name c)) w))))
  | Some code =>
      if bool_decide (code = "NoSuchKey") then
        Worker.sweep env op rest (n + 1) s
          (Tiers.with_files
             (List.filter (fun r => negb (bool_decide (file_id r = file_id c)))
                (files w))
             (RowDelete (file_id c)) w)
      else Worker.sweep env op rest n s w
  end.
Proof.
  cbn [Worker.sweep]. unfold blob_error, Tiers.remove_object,
    Tiers.insert_audit, Tiers.delete_file. unfold_handler.
  destruct (remove_object_error env (minio_object_name c)) as [code|];
    [|reflexivity].
  destruct (bool_decide (code = "NoSuchKey")); reflexivity.
Qed.

Lemma files_after_delete (fs fs' : list FileRecord) (c : FileRecord)
    (ids : list string) :
  (forall r, In r fs' <->
     In r (List.filter (fun r => negb (bool_decide (file_id r = file_id c))) fs)
     /\ ~ In (file_id r) ids) ->
  forall r, In r fs' <-> In r fs /\ ~ In (file_id r) (file_id c :: ids).
Proof.
  intros Hf r. rewrite Hf, filter_In, negb_true_iff, bool_decide_eq_false.
  cbn [In]. split.
  - intros [[Hr Hne] Hn]. split; [exact Hr|].
    intros [Heq|Hin]; [congruence | tauto].
  - intros [Hr Hn]. repeat split; [exact Hr | |]; intros H; apply Hn; auto.
Qed.

Lemma bucket_after_delete (b b' : gmap string (list byte)) (gone : string)
    (names : list string) :
  (forall name, b' !! name =
     if bool_decide (name ∈ names) then None else delete gone b !! name) ->
  forall name, b' !! name =
     if bool_decide (name ∈ gone :: names) then None else b !! name.
Proof.
  intros Hb name. rewrite Hb.
  destruct (decide (name = gone)) as [->|Hne].
  - rewrite lookup_delete_eq.
    rewrite (bool_decide_eq_true_2 (_ ∈ _ :: _)) by apply list_elem_of_here.
    destruct (bool_decide _); reflexivity.
  - rewrite lookup_delete_ne by congruence.
    destruct (bool_decide (name ∈ names)) eqn:Hin.
    + apply bool_decide_eq_true in Hin.
      rewrite bool_decide_eq_true_2
        by (apply list_elem_of_further; exact Hin).
      reflexivity.
    + apply bool_decide_eq_false in Hin.
      rewrite bool_decide_eq_false_2; [reflexivity|].
      intros Hc. apply elem_of_cons in Hc as [Heq|Hin'];
        [congruence | tauto].
Qed.

(** The state a worker sweep ends in, candidate by candidate. *)
Lemma sweep_spec (env : Env) (op : Operation) (cs : list FileRecord) :
  forall (n s : Z) (w : World),
  exists n' s' w',
    Worker.sweep env op cs n s w = (inr (n', s'), w')
    /\ (forall r, In r (files w') <->
          In r (files w)
          /\ ~ In (file_id r) (map file_id (List.filter (worker_cleans env) cs)))
    /\ file_audit_log w'
       = file_audit_log w
         ++ map (audit_entry env op) (List.filter (blob_removed env) cs)
    /\ (forall name,
          bucket w' !! name =
          if bool_decide (name ∈ map minio_object_name
                                   (List.filter (blob_removed env) cs))
          then None else bucket w !! name)
    /\ token_cache w' = token_cache w
    /\ n' = n + Z.of_nat (length (List.filter (worker_cleans env) cs)).
Proof.
  induction cs as [|c rest IH]; intros n s w.
  - exists n, s, w. cbn. split; [reflexivity|]. split; [tauto|].
    split; [rewrite app_nil_r; reflexivity|]. split; [reflexivity|].
    split; [reflexivity | lia].
  - rewrite sweep_cons. cbn [List.filter].
    destruct (blob_error env c) as [code|] eqn:Herr.
    + assert (Hrm : blob_removed env c = false)
        by (unfold blob_removed; rewrite Herr; reflexivity).
      assert (Hcl : worker_cleans env c = bool_decide (code = "NoSuchKey"))
        by (unfold worker_cleans; rewrite Herr; reflexivity).
      rewrite Hrm, Hcl.
      destruct (bool_decide (code = "NoSuchKey")); [|apply IH].
      edestruct IH as (n' & s' & w' & -> & Hf & Ha & Hb & Ht & Hn).
      exists n', s', w'.
      cbn [files file_audit_log bucket token_cache Tiers.with_files] in *.
      split; [reflexivity|].
      split; [apply files_after_delete; exact Hf|].
      split; [exact Ha|]. split; [exact Hb|]. split; [exact Ht|].
      cbn [length]. lia.
    + assert (Hrm : blob_removed env c = true)
        by (unfold blob_removed; rewrite Herr; reflexivity).
      assert (Hcl : worker_cleans env c = true)
        by (unfold worker_cleans; rewrite Herr; reflexivity).
      rewrite Hrm, Hcl.
      edestruct IH as (n' & s' & w' & -> & Hf & Ha & Hb & Ht & Hn).
      exists n', s', w'.
      cbn [files file_audit_log bucket token_cache Tiers.with_files
           Tiers.with_meta_cache Tiers.with_audit Tiers.with_bucket] in *.
      split; [reflexivity|].
      split; [apply files_after_delete; exact Hf|].
      split; [rewrite Ha; cbn [map]; rewrite <- app_assoc; reflexivity|].
      split; [apply bucket_after_delete; exact Hb|].
      split; [exact Ht|].
      cbn [length]. lia.
Qed.

Lemma cleanup_loop_cons (env : Env) (c : FileRecord) (rest : list FileRecord)
    (n : Z) (w : World) :
  Storage.cleanup_loop env (c :: rest) n w =
  match blob_error env c with
  | None =>
      Storage.cleanup_loop env rest (n + 1)
        (Tiers.with_meta_cache
           (delete (file_id c) (meta_cache w)) (MetaCacheDelete (file_id c))
           (Tiers.with_files
              (List.filter (fun r => negb (bool_decide (file_id r = file_id c)))
                 (files w))
              (RowDelete (file_id c))
              (Tiers.with_bucket (delete (minio_object_name c) (bucket w))
                 (BlobRemove (minio_object_name c)) w)))
  | Some _ => Storage.cleanup_loop env rest n w
  end.
Proof.
  cbn [Storage.cleanup_loop]. unfold blob_error, Tiers.remove_object,
    Tiers.delete_file. unfold_handler.
  destruct (remove_object_error env (minio_object_name c)); reflexivity.
Qed.

(** The state the storage service's sweep ends in. *)
Lemma cleanup_loop_spec (env : Env) (cs : list FileRecord) :
  forall (n : Z) (w : World),
  exists n' w',
    Storage.cleanup_loop env cs n w = (inr n', w')
    /\ (forall r, In r (files w') <->
          In r (files w)
          /\ ~ In (file_id r) (map file_id (List.filter (blob_removed env) cs)))
    /\ file_audit_log w' = file_audit_log w
    /\ (forall name,
          bucket w' !! name =
          if bool_decide (name ∈ map minio_object_name
                                   (List.filter (blob_removed env) cs))
          then None else bucket w !! name)
    /\ token_cache w' = token_cache w
    /\ n' = n + Z.of_nat (length (List.filter (blob_removed env) cs)).
Proof.
  induction cs as [|c rest IH]; intros n w.
  - exists n, w. cbn. split; [reflexivity|]. split; [tauto|].
    split; [reflexivity|]. split; [reflexivity|].
    split; [reflexivity | lia].
  - rewrite cleanup_loop_cons. cbn [List.filter].
    destruct (blob_error env c) as [code|] eqn:Herr.
    + assert (Hrm : blob_removed env c = false)
        by (unfold blob_removed; rewrite Herr; reflexivity).
      rewrite Hrm. apply IH.
    + assert (Hrm : blob_removed env c = true)
        by (unfold blob_removed; rewrite Herr; reflexivity).
      rewrite Hrm.
      edestruct IH as (n' & w' & -> & Hf & Ha & Hb & Ht & Hn).
      exists n', w'.
      cbn [files file_audit_log bucket token_cache Tiers.with_files
           Tiers.with_meta_cache Tiers.with_bucket] in *.
      split; [reflexivity|].
      split; [apply files_after_delete; exact Hf|].
      split; [exact Ha|].
      split; [apply bucket_after_delete; exact Hb|].
      split; [exact Ht|].
      cbn [length]. lia.
Qed.

Lemma unique_file_id (l : list FileRecord) (a b : FileRecord) :
  NoDup (map file_id l) -> In a l -> In b l -> file_id a = file_id b -> a = b.
Proof.
  induction l as [|x l IH]; cbn [map In]; [tauto|].
  intros Hnd Ha Hb Heq. apply NoDup_cons in Hnd as [Hx Hnd].
  rewrite list_elem_of_In in Hx.
  destruct Ha as [->|Ha], Hb as [->|Hb]; auto.
  - exfalso. apply Hx. rewrite Heq. apply in_map. exact Hb.
  - exfalso. apply Hx. rewrite <- Heq. apply in_map. exact Ha.
Qed.

Lemma worker_outcome_of_sweep (env : Env) (op : Operation)
    (candidate : FileRecord -> bool) (w w' : World) :
  NoDup (map file_id (files w)) ->
  (forall r, In r (files w') <->
     In r (files w)
     /\ ~ In (file_id r)
          (map file_id (List.filter (worker_cleans env)
                          (List.filter candidate (files w))))) ->
  file_audit_log w'
    = file_audit_log w
      ++ map (audit_entry env op)
           (List.filter (blob_removed env) (List.filter candidate (files w))) ->
  (forall name,
     bucket w' !! name =
     if bool_decide (name ∈ map minio_object_name
                       (List.filter (blob_removed env)
                          (List.filter candidate (files w))))
     then None else bucket w !! name) ->
  worker_outcome env op candidate w w'.
Proof.
  intros Hnd Hf Ha Hb c Hc.
  assert (Hids : forall r, In r (files w) ->
            In (file_id r)
               (map file_id (List.filter (worker_cleans env)
                               (List.filter candidate (files w))))
            <-> candidate r = true /\ worker_cleans env r = true).
  { intros r Hr. rewrite in_map_iff. split.
    - intros (x & Hx & Hin). apply filter_In in Hin as [Hin Hcl].
      apply filter_In in Hin as [Hin Hcand].
      assert (x = r) as -> by (eapply unique_file_id; eauto). auto.
    - intros [Hcand Hcl]. exists r. split; [reflexivity|].
      apply filter_In. split; [|exact Hcl]. apply filter_In. auto. }
  destruct (candidate c) eqn:Hcand.
  - destruct (blob_error env c) as [code|] eqn:Herr.
    + destruct (bool_decide (code = "NoSuchKey")) eqn:Hcode.
      * intros r Hr Heq. apply Hf in Hr as [Hr Hn]. apply Hn.
        rewrite Heq. apply Hids; [exact Hc|]. split; [exact Hcand|].
        unfold worker_cleans. rewrite Herr. exact Hcode.
      * apply Hf. split; [exact Hc|]. rewrite Hids by exact Hc.
        unfold worker_cleans. rewrite Herr, Hcode. intros [_ H]. discriminate.
    + assert (Hin : In c (List.filter (blob_removed env)
                            (List.filter candidate (files w)))).
      { apply filter_In. split; [apply filter_In; auto|].
        unfold blob_removed. rewrite Herr. reflexivity. }
      split; [|split].
      * intros r Hr Heq. apply Hf in Hr as [Hr Hn]. apply Hn.
        rewrite Heq. apply Hids; [exact Hc|]. split; [exact Hcand|].
        unfold worker_cleans. rewrite Herr. reflexivity.
      * rewrite Hb. rewrite bool_decide_eq_true_2; [reflexivity|].
        apply list_elem_of_In, in_map, Hin.
      * rewrite Ha. apply in_or_app. right. apply in_map, Hin.
  - apply Hf. split; [exact Hc|]. rewrite Hids by exact Hc.
    intros [H _]. congruence.
Qed.

Lemma storage_outcome_of_loop (env : Env) (candidate : FileRecord -> bool)
    (w w' : World) :
  NoDup (map file_id (files w)) ->
  (forall r, In r (files w') <->
     In r (files w)
     /\ ~ In (file_id r)
          (map file_id (List.filter (blob_removed env)
                          (List.filter candidate (files w))))) ->
  file_audit_log w' = file_audit_log w ->
  (forall name,
     bucket w' !! name =
     if bool_decide (name ∈ map minio_object_name
                       (List.filter (blob_removed env)
                          (List.filter candidate (files w))))
     then None else bucket w !! name) ->
  storage_outcome env candidate w w'.
Proof.
  intros Hnd Hf Ha Hb. split; [exact Ha|]. intros c Hc.
  assert (Hids : forall r, In r (files w) ->
            In (file_id r)
               (map file_id (List.filter (blob_removed env)
                               (List.filter candidate (files w))))
            <-> candidate r = true /\ blob_removed env r = true).
  { intros r Hr. rewrite in_map_iff. split.
    - intros (x & Hx & Hin). apply filter_In in Hin as [Hin Hcl].
      apply filter_In in Hin as [Hin Hcand].
      assert (x = r) as -> by (eapply unique_file_id; eauto). auto.
    - intros [Hcand Hcl]. exists r. split; [reflexivity|].
      apply filter_In. split; [|exact Hcl]. apply filter_In. auto. }
  destruct (candidate c) eqn:Hcand.
  - destruct (blob_error env c) as [code|] eqn:Herr.
    + apply Hf. split; [exact Hc|]. rewrite Hids by exact Hc.
      unfold blob_removed. rewrite Herr. intros [_ H]. discriminate.
    + assert (Hrm : blob_removed env c = true)
        by (unfold blob_removed; rewrite Herr; reflexivity).
      split.
      * intros r Hr Heq. apply Hf in Hr as [Hr Hn]. apply Hn.
        rewrite Heq. apply Hids; auto.
      * rewrite Hb. rewrite bool_decide_eq_true_2; [reflexivity|].
        apply list_elem_of_In, in_map, filter_In.
        split; [apply filter_In; auto | exact Hrm].
  - apply Hf. split; [exact Hc|]. rewrite Hids by exact Hc.
    intros [H _]. congruence.
Qed.

(** C8 (as amended). In a table whose file identifiers are unique, every
    sweep that reaches the database handles each candidate by the answer
    of the blob tier for that candidate alone, and runs to its end
    whatever the answers were.  In the two sweeps of the worker a
    candidate whose blob is removed (an absent blob is removed without
    error) loses its row and gets an audit entry, a candidate reported
    as [NoSuchKey] loses its row, and a candidate with any other error
    keeps its row.  In the sweep of the storage service a candidate whose
    blob is removed loses its row, a candidate with any error keeps it,
    and the audit log is not written.  Rows that are not candidates
    stay. *)
Theorem cleanup_candidate_by_candidate (env : Env) (w : World)
    (Hunique : NoDup (map file_id (files w))) :
  (db_down env TaskCleanupExpired = false ->
     (exists n s, fst (Worker.cleanup_expired_files env w) = Worker.Completed n s)
     /\ worker_outcome env expired_cleanup (Worker.is_expired env) w
          (snd (Worker.cleanup_expired_files env w)))
  /\ (db_down env TaskCleanupDownloaded = false ->
        (exists n s,
           fst (Worker.cleanup_downloaded_files env w) = Worker.Completed n s)
        /\ worker_outcome env downloaded_cleanup (Worker.downloaded_long_ago env) w
             (snd (Worker.cleanup_downloaded_files env w)))
  /\ (db_down env RtCleanupExpired = false ->
        (exists n, fst (Storage.cleanup_expired_files env w) = jsonify n 200)
        /\ storage_outcome env (Storage.expired_not_downloaded env) w
             (snd (Storage.cleanup_expired_files env w))).
Proof.
  split; [|split]; intros Hdb.
  - unfold Worker.cleanup_expired_files, Worker.task,
      Tiers.redis_setex_cleanup_stats.
    unfold_handler. rewrite Hdb. cbn beta iota.
    destruct (sweep_spec env expired_cleanup
                (List.filter (Worker.is_expired env) (files w)) 0 0 w)
      as (n' & s' & w' & -> & Hf & Ha & Hb & _).
    cbn [fst snd]. split; [eauto|].
    apply worker_outcome_of_sweep; assumption.
  - unfold Worker.cleanup_downloaded_files, Worker.task.
    unfold_handler. rewrite Hdb. cbn beta iota.
    destruct (sweep_spec env downloaded_cleanup
                (List.filter (Worker.downloaded_long_ago env) (files w)) 0 0 w)
      as (n' & s' & w' & -> & Hf & Ha & Hb & _).
    cbn [fst snd]. split; [eauto|].
    apply worker_outcome_of_sweep; assumption.
  - unfold Storage.cleanup_expired_files.
    unfold_handler. rewrite Hdb. cbn beta iota.
    destruct (cleanup_loop_spec env
                (List.filter (Storage.expired_not_downloaded env) (files w)) 0 w)
      as (n' & w' & -> & Hf & Ha & Hb & _).
    cbn [fst snd]. split; [eauto|].
    apply storage_outcome_of_loop; assumption.
Qed.

(** ** Status *)

Lemma storage_status_eq (env : Env) (fid token : string) (w : World) :
  Storage.get_file_status env fid token w =
  (if bool_decide (token = "") then error "Download token required" 400
   else if db_down env RtStatus then error "Status check failed" 500
   else match List.find (Tiers.matches fid token) (files w) with
        | None => error "File not found or invalid token" 404
        | Some r =>
            match Tiers.live env (meta_cache w !! fid) with
            | Some metadata => jsonify (Storage.cached_status metadata r) 200
            | None => jsonify (Storage.computed_status env r) 200
            end
        end,
   w).
Proof.
  unfold Storage.get_file_status, Storage.status_from_database.
  unfold_handler.
  destruct (bool_decide (token = "")); [reflexivity|].
  destruct (Tiers.live env (meta_cache w !! fid));
    destruct (db_down env RtStatus); try reflexivity;
    cbn beta iota; rewrite head_filter_find;
    destruct (List.find _ _) eqn:Hfind; try reflexivity.
  cbn beta iota. rewrite head_filter_find, Hfind. reflexivity.
Qed.

Lemma gateway_status_eq (env : Env) (token : string) (w : World) :
  Gateway.get_file_status env token w =
  (match Gateway.truthy (Tiers.live env (token_cache w !! token)) with
   | None => error "Invalid or expired token" 404
   | Some fid =>
       match network env RtStatus with
       | Delivered =>
           let storage_response := fst (Storage.get_file_status env fid token w) in
           if negb (status_code storage_response =? 200)
           then error "File not found" 404
           else match body storage_response with
                | inr result => jsonify result 200
                | inl _ => error "Status check failed" 500
                end
       | _ => error "Service temporarily unavailable" 503
       end
   end,
   w).
Proof.
  unfold Gateway.get_file_status, Gateway.requests_call, Gateway.json.
  unfold_handler.
  destruct (Gateway.truthy _) as [fid|]; [|reflexivity].
  rewrite storage_status_eq. cbn [fst snd].
  destruct (network env RtStatus); try reflexivity.
  cbn zeta.
  match goal with
  | |- context [negb (status_code ?r =? 200)] =>
      destruct (negb (status_code r =? 200)); [reflexivity|];
      destruct (body r); reflexivity
  end.
Qed.

(** C6 (as amended). [get_file_status] of the gateway changes nothing and
    reads the token cache first; when the token is not there it answers
    404 whatever the metadata store holds.  When the token is there, the
    storage service reads its metadata cache first and, when that has no
    live entry for the file, falls back to the row in [files] and
    computes the status from it: [downloaded] when [is_downloaded],
    otherwise [expired] when [now > expires_at], otherwise
    [available]. *)
Theorem status_paths (env : Env) (token : string) (w : World) :
  let answer := fst (Gateway.get_file_status env token w) in
  snd (Gateway.get_file_status env token w) = w
  /\ (Gateway.truthy (Tiers.live env (token_cache w !! token)) = None ->
        answer = error "Invalid or expired token" 404)
  /\ (forall fid r,
        Gateway.truthy (Tiers.live env (token_cache w !! token)) = Some fid ->
        network env RtStatus = Delivered ->
        token <> "" -> db_down env RtStatus = false ->
        Tiers.live env (meta_cache w !! fid) = None ->
        List.find (Tiers.matches fid token) (files w) = Some r ->
        exists b,
          answer = jsonify b 200
          /\ Storage.sb_status b = Some (status_of env r)
          /\ Storage.sb_expires_at b = expires_at r
          /\ Storage.sb_is_downloaded b = is_downloaded r
          /\ (Storage.sb_status b = Some Storage.available ->
                is_downloaded r = false /\ now env <= expires_at r)
          /\ (Storage.sb_status b = Some Storage.downloaded ->
                is_downloaded r = true)
          /\ (Storage.sb_status b = Some Storage.expired ->
                is_downloaded r = false /\ now env > expires_at r)).
Proof.
  intros answer. subst answer. rewrite gateway_status_eq. cbn [fst snd].
  split; [reflexivity|]. split.
  - intros ->. reflexivity.
  - intros fid r -> -> Htok Hdb Hmeta Hfind.
    rewrite storage_status_eq. cbn [fst].
    rewrite bool_decide_eq_false_2 by exact Htok.
    rewrite Hdb, Hfind, Hmeta. cbn.
    eexists. split; [reflexivity|]. cbn. unfold status_of.
    split; [reflexivity|]. split; [reflexivity|]. split; [reflexivity|].
    destruct (is_downloaded r); [|destruct (now env >? expires_at r) eqn:He];
      (split; [|split]); intros [=]; auto; split; auto; lia.
Qed.

(** ** The handlers at work *)

Example upload_then_download :
  fst (Scenario.upload (Some 1) None 1000) = jsonify Scenario.receipt 200
  /\ fst (Scenario.download (Scenario.calm 2000) None Scenario.uploaded)
     = jsonify {| Gateway.dl_content := Scenario.hello;
                  Gateway.dl_download_name := "test_file.txt";
                  Gateway.dl_mimetype := "text/plain" |} 200
  /\ fst (Scenario.download (Scenario.calm 2001) None Scenario.consumed)
     = error "Invalid or expired download link" 404.
Proof. vm_compute. repeat split. Qed.

(** C1, the statement of the specification refuted: a second
    [mark_file_downloaded] on a row that is already downloaded answers
    200, counts the download again and moves [downloaded_at]. *)
Lemma second_mark_is_applied :
  let before := Scenario.consumed in
  let call :=
    Storage.mark_file_downloaded (Scenario.calm 3000)
      Scenario.the_file_id Scenario.the_token before in
  map (fun r => (is_downloaded r, download_count r, downloaded_at r))
    (files before) = [(true, 1, Some 2000)]
  /\ status_code (fst call) = 200
  /\ map (fun r => (is_downloaded r, download_count r, downloaded_at r))
       (files (snd call)) = [(true, 2, Some 3000)].
Proof. vm_compute. repeat split. Qed.

(** C4, the statement of the specification refuted: no row matches the
    file identifier together with the empty token, and the answer is the
    400 of a missing token, not a not-found error. *)
Lemma retrieve_without_token_is_400 :
  List.find (Tiers.matches Scenario.the_file_id "") (files Scenario.uploaded)
    = None
  /\ fst (Storage.retrieve_file (Scenario.calm 2000) Scenario.the_file_id ""
            Scenario.uploaded)
     = error "Download token required" 400.
Proof. vm_compute. repeat split. Qed.

(** C6, the statement of the specification refuted: after a successful
    download the row is in the metadata store and downloaded, the token
    is no longer cached, and the gateway answers 404 instead of falling
    back to the store and reporting [downloaded]. *)
Lemma status_after_download_is_404 :
  map (fun r => (download_token r, is_downloaded r)) (files Scenario.consumed)
    = [(Scenario.the_token, true)]
  /\ token_cache Scenario.consumed !! Scenario.the_token = None
  /\ fst (Gateway.get_file_status (Scenario.calm 2001) Scenario.the_token
            Scenario.consumed)
     = error "Invalid or expired token" 404.
Proof. vm_compute. repeat split. Qed.

(** C8, the statement of the specification refuted: the sweep of the
    storage service cleans its candidate (row and blob are gone) and
    appends nothing to the audit log. *)
Lemma storage_sweep_leaves_no_audit :
  let call := Storage.cleanup_expired_files (Scenario.calm 5000) Scenario.uploaded in
  length (files Scenario.uploaded) = 1%nat
  /\ fst call = jsonify 1 200
  /\ files (snd call) = []
  /\ bucket (snd call) = ∅
  /\ file_audit_log (snd call) = [].
Proof. vm_compute. repeat split. Qed.

(** C2, the code at the failing input: the storage service answers 500
    to [mark_file_downloaded], and [download_file] still deletes the
    token entry and returns the content with a 200; the row stays not
    downloaded. *)
Theorem download_ignores_failed_mark :
  let env := Scenario.mark_outage 2000 in
  let call := Scenario.download env None Scenario.uploaded in
  status_code
    (fst (Storage.mark_file_downloaded env Scenario.the_file_id
            Scenario.the_token Scenario.uploaded)) = 500
  /\ token_cache Scenario.uploaded !! Scenario.the_token
     = Some (Scenario.the_file_id, 87400)
  /\ fst call = jsonify {| Gateway.dl_content := Scenario.hello;
                           Gateway.dl_download_name := "test_file.txt";
                           Gateway.dl_mimetype := "text/plain" |} 200
  /\ token_cache (snd call) !! Scenario.the_token = None
  /\ map is_downloaded (files (snd call)) = [false].
Proof. vm_compute. repeat split. Qed.

(** C7, the code at the failing input: an upload that asks for one hour
    gets a row that expires after 3600 seconds and a token entry that
    lives for 86400. *)
Theorem token_ttl_is_default_expiry :
  let call := Scenario.upload (Some 1) None 1000 in
  fst call = jsonify Scenario.receipt 200
  /\ map expires_at (files (snd call)) = [1000 + 1 * 3600]
  /\ token_cache (snd call) !! Scenario.the_token
     = Some (Scenario.the_file_id, 1000 + 24 * 3600).
Proof. vm_compute. repeat split. Qed.

Example uploaded_row : files Scenario.uploaded = [Scenario.the_row].
Proof. vm_compute. reflexivity. Qed.

Example wrong_then_right_password :
  let first := Scenario.download (Scenario.calm 2000) (Some "guess") Scenario.locked in
  let second := Scenario.download (Scenario.calm 2001) (Some "s3cret") (snd first) in
  fst first = error "Invalid password" 401
  /\ fst second = jsonify {| Gateway.dl_content := Scenario.hello;
                             Gateway.dl_download_name := "test_file.txt";
                             Gateway.dl_mimetype := "text/plain" |} 200.
Proof. vm_compute. repeat split. Qed.

(** The update applied to the row of [Scenario.uploaded]. *)
Lemma mark_file_downloaded_every_match_witness :
  Scenario.the_token <> ""
  /\ db_down (Scenario.calm 2000) RtMarkDownloaded = false
  /\ status_code
       (fst (Storage.mark_file_downloaded (Scenario.calm 2000)
               Scenario.the_file_id Scenario.the_token Scenario.uploaded)) = 200.
Proof.
  assert (Ht : Scenario.the_token <> "") by (vm_compute; discriminate).
  split; [exact Ht|]. split; [reflexivity|].
  destruct (mark_file_downloaded_every_match (Scenario.calm 2000)
              Scenario.the_file_id Scenario.the_token Scenario.uploaded
              Ht eq_refl) as (_ & _ & H & _).
  apply H. vm_compute. reflexivity.
Defined.

(** A wrong guess at the password of [Scenario.locked], then the right
    one. *)
Lemma wrong_password_keeps_token_witness :
  fst (Gateway.download_file Scenario.keyed (Scenario.calm 2000)
         Scenario.the_token (Some "guess") Scenario.locked)
    = error "Invalid password" 401
  /\ fst (Gateway.download_file Scenario.keyed (Scenario.calm 2001)
            Scenario.the_token (Some "s3cret")
            (snd (Gateway.download_file Scenario.keyed (Scenario.calm 2000)
                    Scenario.the_token (Some "guess") Scenario.locked)))
     = jsonify {| Gateway.dl_content := Scenario.hello;
                  Gateway.dl_download_name := "test_file.txt";
                  Gateway.dl_mimetype := "text/plain" |} 200.
Proof.
  assert (Ht : Scenario.the_token <> "") by (vm_compute; discriminate).
  assert (Hf : Scenario.the_file_id <> "") by (vm_compute; discriminate).
  destruct (wrong_password_keeps_token Scenario.keyed (Scenario.calm 2000)
              Scenario.the_token (Some "guess") Scenario.locked
              Scenario.the_file_id 87400 Scenario.locked_row Scenario.hello)
    as (Ha & _ & _ & _ & _ & _ & _ & _ & Hnext).
  - vm_compute. reflexivity.
  - vm_compute. reflexivity.
  - exact Hf.
  - exact Ht.
  - vm_compute. reflexivity.
  - reflexivity.
  - vm_compute. discriminate.
  - vm_compute. reflexivity.
  - reflexivity.
  - reflexivity.
  - reflexivity.
  - vm_compute. reflexivity.
  - split; [exact Ha|].
    apply (Hnext (Scenario.calm 2001) (Some "s3cret") Scenario.hello).
    + vm_compute. reflexivity.
    + vm_compute. discriminate.
    + intros rt. reflexivity.
    + reflexivity.
    + vm_compute. reflexivity.
Defined.

(** [Scenario.uploaded] retrieved after its hour has passed. *)
Lemma retrieve_file_outcomes_witness :
  Scenario.the_token <> ""
  /\ db_down (Scenario.calm 5000) RtRetrieve = false
  /\ fst (Storage.retrieve_file (Scenario.calm 5000) Scenario.the_file_id
            Scenario.the_token Scenario.uploaded)
     = error "File has expired" 410.
Proof.
  assert (Ht : Scenario.the_token <> "") by (vm_compute; discriminate).
  split; [exact Ht|]. split; [reflexivity|].
  destruct (retrieve_file_outcomes (Scenario.calm 5000) Scenario.the_file_id
              Scenario.the_token Scenario.uploaded Ht eq_refl)
    as (_ & H & _).
  apply (H Scenario.the_row); [vm_compute; reflexivity | vm_compute; reflexivity].
Defined.

(** A file stored beside the row of [Scenario.uploaded], with nothing
    failing: the answer is 200, the table has the two rows, the cached
    document lapses an hour after the SETEX, and every cache entry has
    its row, before and after. *)
Lemma store_file_order_witness :
  cache_backed Scenario.uploaded
  /\ fst (Storage.store_file (Scenario.unhurried 1500) (Scenario.parcel 1)
            Scenario.uploaded)
     = jsonify {| Storage.st_file_id := "abc";
                  Storage.st_expires_at := 1500 + 1 * 3600;
                  Storage.st_minio_object :=
                    "abc" +:+ "/" +:+
                    Secrets.token_hex
                      (storage_entropy (Scenario.unhurried 1500)) 0 8 |} 200
  /\ files (snd (Storage.store_file (Scenario.unhurried 1500)
                   (Scenario.parcel 1) Scenario.uploaded))
     = [Scenario.the_row;
        stored_row (Scenario.unhurried 1500) (Scenario.parcel 1)]
  /\ meta_cache (snd (Storage.store_file (Scenario.unhurried 1500)
                        (Scenario.parcel 1) Scenario.uploaded))
     = <["abc" := (stored_meta (Scenario.unhurried 1500) (Scenario.parcel 1),
                   1502 + 1 * 3600)]> (meta_cache Scenario.uploaded)
  /\ cache_backed (snd (Storage.store_file (Scenario.unhurried 1500)
                          (Scenario.parcel 1) Scenario.uploaded)).
Proof.
  assert (Hempty : cache_backed empty_world).
  { split.
    - intros fid [x Hx]. cbn in Hx. rewrite lookup_empty in Hx. discriminate.
    - intros token fid deadline Hx. cbn in Hx. rewrite lookup_empty in Hx.
      discriminate. }
  assert (Hbacked : cache_backed Scenario.uploaded).
  { destruct (store_file_order (Scenario.calm 1000) (Scenario.parcel 1)
                empty_world) as (_ & _ & _ & _ & _ & _ & _ & _ & _ & Hup).
    exact (proj2 (Hup default_config (fun s => s) Scenario.keyed
                    (Scenario.request (Some 1) None)) Hempty). }
  split; [exact Hbacked|].
  destruct (store_file_order (Scenario.unhurried 1500) (Scenario.parcel 1)
              Scenario.uploaded)
    as (_ & _ & _ & Hrun & _ & _ & _ & _ & Hkeep & _).
  destruct Hrun as (_ & _ & Hrow);
    [vm_compute; reflexivity | reflexivity |].
  destruct Hrow as (Hfiles & _ & Hcached);
    [reflexivity | vm_compute; reflexivity | vm_compute; reflexivity |].
  destruct Hcached as (_ & Hmeta & Hanswer); [vm_compute; reflexivity|].
  split; [exact Hanswer|].
  split; [rewrite Hfiles; reflexivity|].
  split; [exact Hmeta | exact (Hkeep Hbacked)].
Defined.

(** The status of [Scenario.uploaded] once the file and its cached
    metadata have lapsed and the token entry has not. *)
Lemma status_paths_witness :
  exists b,
    fst (Gateway.get_file_status (Scenario.calm 5000) Scenario.the_token
           Scenario.uploaded) = jsonify b 200
    /\ Storage.sb_status b = Some Storage.expired.
Proof.
  destruct (status_paths (Scenario.calm 5000) Scenario.the_token Scenario.uploaded)
    as (_ & _ & H).
  destruct (H Scenario.the_file_id Scenario.the_row) as (b & Hb & Hs & _).
  - vm_compute. reflexivity.
  - reflexivity.
  - vm_compute. discriminate.
  - reflexivity.
  - vm_compute. reflexivity.
  - vm_compute. reflexivity.
  - exists b. split; [exact Hb|]. rewrite Hs. vm_compute. reflexivity.
Defined.

(** The worker sweeping [Scenario.uploaded] at time 5000, with a blob
    tier that refuses and with one that obeys. *)
Lemma cleanup_candidate_by_candidate_witness :
  NoDup (map file_id (files Scenario.uploaded))
  /\ In Scenario.the_row
       (files (snd (Worker.cleanup_expired_files (Scenario.removal_denied 5000)
                      Scenario.uploaded)))
  /\ gone Scenario.the_file_id
       (snd (Worker.cleanup_expired_files (Scenario.calm 5000) Scenario.uploaded)).
Proof.
  assert (Hnd : NoDup (map file_id (files Scenario.uploaded))).
  { vm_compute. apply NoDup_cons_2; [apply not_elem_of_nil | apply NoDup_nil_2]. }
  assert (Hin : In Scenario.the_row (files Scenario.uploaded))
    by (vm_compute; left; reflexivity).
  split; [exact Hnd|]. split.
  - destruct (cleanup_candidate_by_candidate (Scenario.removal_denied 5000)
                Scenario.uploaded Hnd) as (H & _).
    destruct (H eq_refl) as (_ & Hout).
    exact (Hout Scenario.the_row Hin).
  - destruct (cleanup_candidate_by_candidate (Scenario.calm 5000)
                Scenario.uploaded Hnd) as (H & _).
    destruct (H eq_refl) as (_ & Hout).
    exact (proj1 (Hout Scenario.the_row Hin)).
Defined.

(** The identifiers of [Scenario.receipt]. *)
Lemma upload_identifier_shapes_witness :
  fst (Gateway.upload_file default_config (fun s => s) Scenario.keyed
         (Scenario.calm 1000) (Scenario.request (Some 1) None) empty_world)
    = jsonify Scenario.receipt 200
  /\ String.length (Gateway.u_file_id Scenario.receipt) = 32%nat
  /\ String.length (Gateway.u_download_token Scenario.receipt) = 43%nat.
Proof.
  assert (H : fst (Gateway.upload_file default_config (fun s => s) Scenario.keyed
                     (Scenario.calm 1000) (Scenario.request (Some 1) None)
                     empty_world) = jsonify Scenario.receipt 200)
    by (vm_compute; reflexivity).
  split; [exact H|].
  destruct (upload_identifier_shapes _ _ _ _ _ _ _ H) as (Hl & _ & Ht & _).
  split; [exact Hl | exact Ht].
Defined.

(** ** The token cache and the calls of the gateway *)

Lemma mark_keeps_token_cache (env : Env) (fid token : string) (w : World) :
  token_cache (snd (Storage.mark_file_downloaded env fid token w))
  = token_cache w.
Proof.
  rewrite mark_file_downloaded_eq.
  destruct (bool_decide (token = "")); [reflexivity|].
  destruct (db_down env RtMarkDownloaded); [reflexivity|].
  cbn zeta. destruct (existsb _ _); reflexivity.
Qed.

(** X20. When the call to [mark_file_downloaded] raises (no connection,
    or no answer in time), [download_file] returns no content and leaves
    the token entry in the cache. *)
Lemma download_file_mark_raised (enc : EncryptionService) (env : Env)
    (token : string) (password : option string) (w : World) :
  network env RtMarkDownloaded <> Delivered ->
  status_code (fst (Gateway.download_file enc env token password w)) <> 200
  /\ token_cache (snd (Gateway.download_file enc env token password w))
     = token_cache w.
Proof.
  intros Hnet. rewrite download_file_eq.
  destruct (Gateway.truthy _) as [fid|]; [|split; [discriminate | reflexivity]].
  cbn zeta. set (w1 := Tiers.with_counters _ _ w).
  destruct (network env RtRetrieve);
    try (split; [discriminate | reflexivity]).
  destruct (negb (status_code _ =? 200)).
  { destruct (status_code _ =? 404); split; (discriminate || reflexivity). }
  destruct (body _) as [?|file_data]; [split; [discriminate | reflexivity]|].
  destruct (network env RtDecrypt);
    try (split; [discriminate | reflexivity]).
  destruct (negb (status_code _ =? 200)).
  { destruct (status_code _ =? 401); split; (discriminate || reflexivity). }
  destruct (body _) as [?|content]; [split; [discriminate | reflexivity]|].
  destruct (network env RtMarkDownloaded); [congruence | |];
    (split; [discriminate|]); cbn [snd];
    rewrite ?mark_keeps_token_cache; reflexivity.
Qed.

(** X19. [upload_file] writes the token entry only in the run that
    answers 200, that is after [store_file] has answered 200: an upload
    with any other answer leaves the token cache as it was. *)
Lemma upload_token_cache_after_store (cfg : Config) (sf : string -> string)
    (enc : EncryptionService) (env : Env) (request : Gateway.UploadRequest)
    (w : World) :
  status_code (fst (Gateway.upload_file cfg sf enc env request w)) <> 200 ->
  token_cache (snd (Gateway.upload_file cfg sf enc env request w))
  = token_cache w.
Proof.
  unfold Gateway.upload_file, Gateway.requests_call, Gateway.json,
    Tiers.redis_setex_token.
  unfold_handler.
  destruct (Gateway.up_file request) as [file|]; [|reflexivity].
  destruct (bool_decide (Gateway.uf_filename file = "")); [reflexivity|].
  destruct (negb (Gateway.allowed_file _)); [reflexivity|].
  destruct (Gateway.exceeds_max cfg _); [reflexivity|].
  cbn beta iota zeta.
  set (w1 := Tiers.with_counters _ _ w).
  destruct (network env RtEncrypt); try reflexivity.
  destruct (negb (status_code (encrypt enc _ _ _) =? 200)); [reflexivity|].
  destruct (body (encrypt enc _ _ _)) as [?|encryption_data]; [reflexivity|].
  match goal with
  | |- context [Storage.store_file env ?d w1] => set (data := d)
  end.
  pose proof (store_keeps_token_cache env data w1) as Hkeep.
  destruct (network env RtStore); try reflexivity; try exact (fun _ => Hkeep).
  destruct (Storage.store_file env data w1) as [rs ws].
  cbn [fst snd] in *.
  destruct (negb (status_code rs =? 200)); [intros _; exact Hkeep|].
  destruct (body rs); [intros _; exact Hkeep|].
  destruct (DEFAULT_EXPIRY_HOURS cfg * 3600 <=? 0); [intros _; exact Hkeep|].
  cbn. congruence.
Qed.

(* ===================================================================== *)
(** * Further properties of the handlers                                 *)
(* ===================================================================== *)

(** ** Validation of an upload *)

Lemma rsplit_dot_none (s : string) :
  no_dot s = true -> Gateway.rsplit_dot s = None.
Proof.
  unfold no_dot. induction s as [|c s IH]; cbn; [reflexivity|].
  intros H. apply andb_true_iff in H as [Hc Hs].
  rewrite (IH Hs). apply negb_true_iff in Hc. rewrite Hc. reflexivity.
Qed.

Lemma rsplit_dot_last (base ext : string) :
  no_dot ext = true -> Gateway.rsplit_dot (base +:+ "." +:+ ext) = Some ext.
Proof.
  intros Hext. induction base as [|c base IH].
  - change ("" +:+ "." +:+ ext) with (String "."%char ext).
    cbn [Gateway.rsplit_dot]. rewrite (rsplit_dot_none ext Hext). reflexivity.
  - change (String c base +:+ "." +:+ ext)
      with (String c (base +:+ "." +:+ ext)).
    cbn [Gateway.rsplit_dot]. rewrite IH. reflexivity.
Qed.

(** X1. [allowed_file] looks at what follows the last ['.'] only, in
    lower case: a name [base.ext] whose [ext] has no dot is allowed
    exactly when the lower-cased [ext] is one of [ALLOWED_EXTENSIONS],
    whatever [base] is (other dots included). *)
Theorem allowed_file_last_extension (base ext : string)
    (Hext : no_dot ext = true) :
  Gateway.allowed_file (base +:+ "." +:+ ext)
  = bool_decide (Gateway.lower ext ∈ Gateway.ALLOWED_EXTENSIONS).
Proof.
  unfold Gateway.allowed_file. rewrite rsplit_dot_last by exact Hext.
  reflexivity.
Qed.

Lemma allowed_file_last_extension_witness :
  no_dot "exe" = true
  /\ Gateway.allowed_file ("report.pdf" +:+ "." +:+ "exe") = false
  /\ Gateway.allowed_file ("archive.tar" +:+ "." +:+ "ZIP") = true.
Proof.
  split; [reflexivity|]. split.
  - rewrite (allowed_file_last_extension "report.pdf" "exe" eq_refl).
    vm_compute. reflexivity.
  - rewrite (allowed_file_last_extension "archive.tar" "ZIP" eq_refl).
    vm_compute. reflexivity.
Defined.

(** X2. A name without any ['.'] is never allowed, and neither is a name
    that ends in ['.']. *)
Theorem allowed_file_needs_extension (name : string) :
  (no_dot name = true -> Gateway.allowed_file name = false)
  /\ Gateway.allowed_file (name +:+ ".") = false.
Proof.
  split.
  - intros H. unfold Gateway.allowed_file.
    rewrite (rsplit_dot_none name H). reflexivity.
  - unfold Gateway.allowed_file.
    change (name +:+ ".") with (name +:+ "." +:+ "").
    rewrite (rsplit_dot_last name "" eq_refl). reflexivity.
Qed.

Lemma allowed_file_needs_extension_witness :
  Gateway.allowed_file "Makefile" = false
  /\ Gateway.allowed_file ("notes" +:+ ".") = false.
Proof.
  split.
  - apply (proj1 (allowed_file_needs_extension "Makefile")). reflexivity.
  - apply (proj2 (allowed_file_needs_extension "notes")).
Defined.

(** What a 200 answer of [upload_file] tells about the request and the
    calls that were made. *)
Lemma upload_file_accepted (cfg : Config) (sf : string -> string)
    (enc : EncryptionService) (env : Env) (request : Gateway.UploadRequest)
    (w : World) (u : Gateway.Uploaded) :
  fst (Gateway.upload_file cfg sf enc env request w) = jsonify u 200 ->
  exists file encryption_data,
    let fid := Secrets.token_hex (gateway_entropy env) 0 16 in
    let token := Gateway.generate_token (gateway_entropy env) 16 in
    let data := store_request_of cfg sf env request file encryption_data in
    let stored := Storage.store_file env data (upload_counted w) in
    Gateway.up_file request = Some file
    /\ Gateway.uf_filename file <> ""
    /\ Gateway.allowed_file (Gateway.uf_filename file) = true
    /\ Gateway.exceeds_max cfg (Gateway.up_expiry_hours request) = false
    /\ body (encrypt enc fid (Gateway.uf_content file)
              (Gateway.up_password request)) = inr encryption_data
    /\ status_code (fst stored) = 200
    /\ 0 < DEFAULT_EXPIRY_HOURS cfg * 3600
    /\ u = {| Gateway.u_file_id := fid;
              Gateway.u_download_token := token;
              Gateway.u_download_url := "/download/" +:+ token;
              Gateway.u_filename := sf (Gateway.uf_filename file);
              Gateway.u_file_size :=
                Z.of_nat (length (Gateway.uf_content file));
              Gateway.u_expires_at :=
                now env + Storage.sr_expiry_hours data * 3600 |}
    /\ snd (Gateway.upload_file cfg sf enc env request w)
       = Tiers.with_token_cache
           (<[token := (fid, now env + DEFAULT_EXPIRY_HOURS cfg * 3600)]>
              (token_cache (snd stored)))
           (TokenCacheSet token) (snd stored).
Proof.
  unfold Gateway.upload_file, Gateway.requests_call, Gateway.json,
    Tiers.redis_setex_token.
  unfold_handler.
  destruct (Gateway.up_file request) as [file|]; [|discriminate].
  destruct (bool_decide (Gateway.uf_filename file = "")) eqn:Hname;
    [discriminate|].
  apply bool_decide_eq_false in Hname.
  destruct (negb (Gateway.allowed_file _)) eqn:Hallowed; [discriminate|].
  apply negb_false_iff in Hallowed.
  destruct (Gateway.exceeds_max cfg _) eqn:Hmax; [discriminate|].
  cbn beta iota zeta. fold (upload_counted w).
  destruct (network env RtEncrypt); try discriminate.
  destruct (negb (status_code (encrypt enc _ _ _) =? 200)); [discriminate|].
  destruct (body (encrypt enc _ _ _)) as [?|encryption_data] eqn:Henc;
    [discriminate|].
  destruct (network env RtStore); try discriminate.
  fold (store_request_of cfg sf env request file encryption_data).
  set (data := store_request_of cfg sf env request file encryption_data).
  pose proof (store_file_answer env data (upload_counted w)) as Hbody.
  destruct (Storage.store_file env data (upload_counted w)) as [rs ws] eqn:Hs.
  cbn [fst snd] in *.
  destruct (negb (status_code rs =? 200)) eqn:Hrs; [discriminate|].
  apply negb_false_iff, Z.eqb_eq in Hrs.
  rewrite (Hbody Hrs).
  destruct (DEFAULT_EXPIRY_HOURS cfg * 3600 <=? 0) eqn:Httl; [discriminate|].
  cbn [fst snd]. intros [= <-].
  exists file, encryption_data. cbn zeta. fold data. rewrite Hs.
  cbn [fst snd].
  repeat (split; [first [reflexivity | assumption | lia]|]).
  reflexivity.
Qed.

(** X3. An upload that is answered 400 (no file, no file name, a file
    type that is not allowed, an expiry above the maximum) has touched
    nothing: no counter, no blob, no row, no cache entry, no write at
    all.  And each of the four defects is answered 400. *)
Theorem upload_rejected_untouched (cfg : Config) (sf : string -> string)
    (enc : EncryptionService) (env : Env) (request : Gateway.UploadRequest)
    (w : World) :
  let answer := fst (Gateway.upload_file cfg sf enc env request w) in
  (status_code answer = 400 ->
     snd (Gateway.upload_file cfg sf enc env request w) = w)
  /\ (Gateway.up_file request = None -> status_code answer = 400)
  /\ (forall file, Gateway.up_file request = Some file ->
        Gateway.uf_filename file = ""
        \/ Gateway.allowed_file (Gateway.uf_filename file) = false
        \/ (exists h, Gateway.up_expiry_hours request = Some h
                      /\ h > MAX_EXPIRY_HOURS cfg /\ h <> 0) ->
        status_code answer = 400).
Proof.
  intros answer. subst answer.
  unfold Gateway.upload_file, Gateway.requests_call, Gateway.json,
    Tiers.redis_setex_token.
  unfold_handler.
  destruct (Gateway.up_file request) as [file|].
  2:{ repeat split; reflexivity. }
  destruct (bool_decide (Gateway.uf_filename file = "")) eqn:Hname.
  { repeat split; reflexivity. }
  apply bool_decide_eq_false in Hname.
  destruct (Gateway.allowed_file (Gateway.uf_filename file)) eqn:Hallowed;
    cbn [negb].
  2:{ repeat split; reflexivity. }
  destruct (Gateway.exceeds_max cfg _) eqn:Hmax.
  { repeat split; reflexivity. }
  split; [|split; [discriminate|]].
  - cbn beta iota zeta.
    destruct (network env RtEncrypt); try discriminate.
    destruct (negb (status_code (encrypt enc _ _ _) =? 200)); [discriminate|].
    destruct (body (encrypt enc _ _ _)); [discriminate|].
    destruct (network env RtStore); try discriminate.
    destruct (Storage.store_file env _ _) as [rs ws]. cbn [fst snd].
    destruct (negb (status_code rs =? 200)); [discriminate|].
    destruct (body rs); [discriminate|].
    destruct (DEFAULT_EXPIRY_HOURS cfg * 3600 <=? 0); discriminate.
  - intros file' [= <-] [Hn|[Ha|(h & Hh & Hgt & Hnz)]];
      [congruence | congruence |].
    exfalso. unfold Gateway.exceeds_max in Hmax. rewrite Hh in Hmax.
    apply andb_false_iff in Hmax as [Hz|Hg].
    + apply negb_false_iff, Z.eqb_eq in Hz. contradiction.
    + lia.
Qed.

Lemma upload_rejected_untouched_witness :
  snd (Gateway.upload_file default_config (fun s => s) Scenario.keyed
         (Scenario.calm 1000) (Scenario.request (Some 169) None)
         Scenario.uploaded)
  = Scenario.uploaded.
Proof.
  apply (proj1 (upload_rejected_untouched default_config (fun s => s)
                  Scenario.keyed (Scenario.calm 1000)
                  (Scenario.request (Some 169) None) Scenario.uploaded)).
  vm_compute. reflexivity.
Defined.

(** X4. An upload that is answered 200 had a file with a name that is
    not empty and has an allowed extension; the answer carries the size
    of the content, the link [/download/<token>] and an expiry time that
    lies at most [max MAX_EXPIRY_HOURS DEFAULT_EXPIRY_HOURS] hours after
    the upload. *)
Theorem upload_accepted_within_bounds (cfg : Config) (sf : string -> string)
    (enc : EncryptionService) (env : Env) (request : Gateway.UploadRequest)
    (w : World) (u : Gateway.Uploaded)
    (Hok : fst (Gateway.upload_file cfg sf enc env request w) = jsonify u 200) :
  exists file,
    Gateway.up_file request = Some file
    /\ Gateway.uf_filename file <> ""
    /\ Gateway.allowed_file (Gateway.uf_filename file) = true
    /\ Gateway.u_file_size u = Z.of_nat (length (Gateway.uf_content file))
    /\ Gateway.u_filename u = sf (Gateway.uf_filename file)
    /\ Gateway.u_download_url u = "/download/" +:+ Gateway.u_download_token u
    /\ Gateway.u_expires_at u
       <= now env
          + Z.max (MAX_EXPIRY_HOURS cfg) (DEFAULT_EXPIRY_HOURS cfg) * 3600.
Proof.
  apply upload_file_accepted in Hok.
  destruct Hok as (file & ed & Hfile & Hname & Hallowed & Hmax & _ & _ & _
                   & -> & _).
  exists file. cbn.
  repeat (split; [first [reflexivity | assumption]|]).
  unfold Gateway.exceeds_max in Hmax. unfold Gateway.or_default.
  destruct (Gateway.up_expiry_hours request) as [h|]; [|lia].
  destruct (h =? 0) eqn:Hz; [lia|].
  cbn [negb andb] in Hmax. lia.
Qed.

Lemma upload_accepted_within_bounds_witness :
  fst (Gateway.upload_file default_config (fun s => s) Scenario.keyed
         (Scenario.calm 1000) (Scenario.request (Some 1) None) empty_world)
    = jsonify Scenario.receipt 200
  /\ Gateway.u_expires_at Scenario.receipt <= 1000 + Z.max 168 24 * 3600.
Proof.
  assert (H : fst (Gateway.upload_file default_config (fun s => s) Scenario.keyed
                     (Scenario.calm 1000) (Scenario.request (Some 1) None)
                     empty_world) = jsonify Scenario.receipt 200)
    by (vm_compute; reflexivity).
  split; [exact H|].
  destruct (upload_accepted_within_bounds _ _ _ _ _ _ _ H)
    as (file & _ & _ & _ & _ & _ & _ & Hb).
  exact Hb.
Defined.

(** X5. When the encryption service cannot be reached or does not answer
    200, [upload_file] does not answer 200 and stores nothing: no blob,
    no row, no cache entry; all it has done is count the upload. *)
Theorem upload_encryption_failure_stores_nothing (cfg : Config)
    (sf : string -> string) (enc : EncryptionService) (env : Env)
    (request : Gateway.UploadRequest) (w : World)
    (Hfail : network env RtEncrypt <> Delivered
             \/ forall file, Gateway.up_file request = Some file ->
                  status_code
                    (encrypt enc (Secrets.token_hex (gateway_entropy env) 0 16)
                       (Gateway.uf_content file) (Gateway.up_password request))
                  <> 200) :
  let answer := fst (Gateway.upload_file cfg sf enc env request w) in
  let w' := snd (Gateway.upload_file cfg sf enc env request w) in
  status_code answer <> 200
  /\ files w' = files w /\ bucket w' = bucket w
  /\ token_cache w' = token_cache w /\ meta_cache w' = meta_cache w
  /\ file_audit_log w' = file_audit_log w.
Proof.
  intros answer w'. subst answer w'.
  unfold Gateway.upload_file, Gateway.requests_call, Gateway.json,
    Tiers.redis_setex_token.
  unfold_handler.
  destruct (Gateway.up_file request) as [file|];
    [|repeat split; discriminate].
  destruct (bool_decide (Gateway.uf_filename file = ""));
    [repeat split; discriminate|].
  destruct (negb (Gateway.allowed_file _)); [repeat split; discriminate|].
  destruct (Gateway.exceeds_max cfg _); [repeat split; discriminate|].
  cbn beta iota zeta.
  destruct (network env RtEncrypt) eqn:Hnet;
    try (repeat split; discriminate).
  destruct Hfail as [Hfail|Hfail]; [congruence|].
  specialize (Hfail file eq_refl).
  destruct (status_code (encrypt enc _ _ _) =? 200) eqn:Hs.
  - apply Z.eqb_eq in Hs. contradiction.
  - cbn [negb]. repeat split; discriminate.
Qed.

Lemma upload_encryption_failure_stores_nothing_witness :
  files (snd (Gateway.upload_file default_config (fun s => s) Scenario.keyed
                (Scenario.encryption_lost 1000) (Scenario.request (Some 1) None)
                empty_world)) = [].
Proof.
  destruct (upload_encryption_failure_stores_nothing default_config
              (fun s => s) Scenario.keyed (Scenario.encryption_lost 1000)
              (Scenario.request (Some 1) None) empty_world)
    as (_ & H & _).
  - left. vm_compute. discriminate.
  - exact H.
Defined.

(** ** Upload, then download *)

Lemma find_new_row (row : FileRecord) (l : list FileRecord) :
  existsb (Tiers.clashes row) l = false ->
  List.find (Tiers.matches (file_id row) (download_token row)) (l ++ [row])
  = Some row.
Proof.
  induction l as [|x l IH]; cbn [existsb app List.find].
  - intros _. unfold Tiers.matches.
    rewrite !bool_decide_eq_true_2 by reflexivity. reflexivity.
  - intros H. apply orb_false_iff in H as [Hx Hl].
    unfold Tiers.clashes in Hx. apply orb_false_iff in Hx as [Hf _].
    unfold Tiers.matches at 1. rewrite Hf. cbn [andb]. exact (IH Hl).
Qed.

Lemma nonempty_of_length (s : string) (n : nat) :
  String.length s = S n -> s <> "".
Proof. intros H ->. discriminate. Qed.

(** X6. Round trip.  After an upload that was answered 200, a download
    with the returned token, made while the token entry and the file
    have not expired and with the services answering, returns 200 with
    exactly the uploaded bytes, the stored file name and the content
    type of the upload, provided the decryption service inverts what the
    encryption service did to this upload. *)
Theorem upload_download_round_trip (cfg : Config) (sf : string -> string)
    (enc : EncryptionService) (env : Env) (request : Gateway.UploadRequest)
    (w : World) (u : Gateway.Uploaded) (env2 : Env) (password2 : option string)
    (Hok : fst (Gateway.upload_file cfg sf enc env request w) = jsonify u 200)
    (Hlive : now env2 < now env + DEFAULT_EXPIRY_HOURS cfg * 3600)
    (Hexp : now env2 <= Gateway.u_expires_at u)
    (Hnet : forall rt, network env2 rt = Delivered)
    (Hdb : db_down env2 RtRetrieve = false)
    (Hdec : forall file ct key,
        Gateway.up_file request = Some file ->
        body (encrypt enc (Gateway.u_file_id u) (Gateway.uf_content file)
                (Gateway.up_password request)) = inr (ct, key) ->
        decrypt enc (Gateway.u_file_id u) ct key password2
        = jsonify (Gateway.uf_content file) 200) :
  exists file,
    Gateway.up_file request = Some file
    /\ fst (Gateway.download_file enc env2 (Gateway.u_download_token u)
              password2 (snd (Gateway.upload_file cfg sf enc env request w)))
       = jsonify
           {| Gateway.dl_content := Gateway.uf_content file;
              Gateway.dl_download_name := Gateway.u_filename u;
              Gateway.dl_mimetype :=
                if bool_decide (Gateway.uf_content_type file = "")
                then "application/octet-stream"
                else Gateway.uf_content_type file |} 200.
Proof.
  apply upload_file_accepted in Hok.
  destruct Hok as (file & [ct key] & Hfile & _ & _ & _ & Henc & H200 & Httl
                   & -> & ->).
  cbn zeta in *.
  cbn [Gateway.u_file_id Gateway.u_download_token Gateway.u_filename
       Gateway.u_expires_at] in *.
  set (data := store_request_of cfg sf env request file (ct, key)) in *.
  destruct (store_file_stored env data (upload_counted w) H200)
    as (Hfiles & Hclash & Hbucket & _ & _ & _ & Hhours).
  exists file. split; [exact Hfile|].
  set (fid := Secrets.token_hex (gateway_entropy env) 0 16) in *.
  set (token := Gateway.generate_token (gateway_entropy env) 16) in *.
  apply (download_file_serves enc env2 token password2 _ fid
           (now env + DEFAULT_EXPIRY_HOURS cfg * 3600)
           (stored_row env data) ct (Gateway.uf_content file)).
  - cbn [token_cache Tiers.with_token_cache]. apply lookup_insert_eq.
  - exact Hlive.
  - apply (nonempty_of_length _ 31).
    apply (token_hex_shape (gateway_entropy env) 0 16).
  - apply (nonempty_of_length _ 42).
    apply (token_urlsafe_shape (gateway_entropy env) 16 32).
  - cbn [files Tiers.with_token_cache]. rewrite Hfiles.
    apply (find_new_row (stored_row env data)). exact Hclash.
  - reflexivity.
  - exact Hexp.
  - cbn [bucket Tiers.with_token_cache]. rewrite Hbucket.
    apply lookup_insert_eq.
  - exact Hnet.
  - exact Hdb.
  - apply (Hdec file ct key Hfile Henc).
Qed.

Lemma upload_download_round_trip_witness :
  exists file,
    Gateway.up_file (Scenario.request (Some 1) (Some "s3cret")) = Some file
    /\ fst (Gateway.download_file Scenario.keyed (Scenario.calm 2000)
              (Gateway.u_download_token Scenario.receipt) (Some "s3cret")
              (snd (Gateway.upload_file default_config (fun s => s)
                      Scenario.keyed (Scenario.calm 1000)
                      (Scenario.request (Some 1) (Some "s3cret")) empty_world)))
       = jsonify
           {| Gateway.dl_content := Gateway.uf_content file;
              Gateway.dl_download_name := Gateway.u_filename Scenario.receipt;
              Gateway.dl_mimetype :=
                if bool_decide (Gateway.uf_content_type file = "")
                then "application/octet-stream"
                else Gateway.uf_content_type file |} 200.
Proof.
  apply (upload_download_round_trip default_config (fun s => s) Scenario.keyed
           (Scenario.calm 1000) (Scenario.request (Some 1) (Some "s3cret"))
           empty_world Scenario.receipt (Scenario.calm 2000) (Some "s3cret")).
  - vm_compute. reflexivity.
  - vm_compute. reflexivity.
  - vm_compute. discriminate.
  - intros rt. reflexivity.
  - reflexivity.
  - intros file ct key [= <-]. cbn [Scenario.keyed encrypt decrypt body jsonify].
    intros [= <- <-]. vm_compute. reflexivity.
Defined.

(** X7. One-time use.  A [download_file] that answered 200 has removed
    the token from the cache, so from the state it leaves every later
    [download_file] and every later [get_file_status] with that token is
    answered 404, and that refusal changes nothing. *)
Theorem download_consumes_token (enc : EncryptionService) (env : Env)
    (token : string) (password : option string) (w : World)
    (Hok : status_code (fst (Gateway.download_file enc env token password w)) = 200) :
  let w' := snd (Gateway.download_file enc env token password w) in
  token_cache w' !! token = None
  /\ forall (env2 : Env) (password2 : option string),
       Gateway.download_file enc env2 token password2 w'
         = (error "Invalid or expired download link" 404, w')
       /\ Gateway.get_file_status env2 token w'
          = (error "Invalid or expired token" 404, w').
Proof.
  intros w'. subst w'. revert Hok. rewrite download_file_eq.
  destruct (Gateway.truthy _) as [fid|]; [|discriminate].
  cbn zeta. set (w1 := Tiers.with_counters _ _ w).
  destruct (network env RtRetrieve); try discriminate.
  destruct (negb (status_code _ =? 200)).
  { destruct (status_code _ =? 404); discriminate. }
  destruct (body _) as [?|file_data]; [discriminate|].
  destruct (network env RtDecrypt); try discriminate.
  destruct (negb (status_code _ =? 200)).
  { destruct (status_code _ =? 401); discriminate. }
  destruct (body _) as [?|content]; [discriminate|].
  destruct (network env RtMarkDownloaded); try discriminate.
  intros _. cbn [fst snd].
  set (w3 := Tiers.with_token_cache _ _ _).
  assert (Hgone : token_cache w3 !! token = None)
    by (subst w3; cbn [token_cache Tiers.with_token_cache];
        apply lookup_delete_eq).
  split; [exact Hgone|].
  intros env2 password2. split.
  - rewrite download_file_eq, Hgone. reflexivity.
  - rewrite gateway_status_eq, Hgone. reflexivity.
Qed.

Lemma download_consumes_token_witness :
  status_code (fst (Scenario.download (Scenario.calm 2000) None Scenario.uploaded))
    = 200
  /\ fst (Gateway.download_file Scenario.keyed (Scenario.calm 2001)
            Scenario.the_token None Scenario.consumed)
     = error "Invalid or expired download link" 404.
Proof.
  assert (H : status_code
                (fst (Gateway.download_file Scenario.keyed (Scenario.calm 2000)
                        Scenario.the_token None Scenario.uploaded)) = 200)
    by (vm_compute; reflexivity).
  split; [exact H|].
  destruct (download_consumes_token Scenario.keyed (Scenario.calm 2000)
              Scenario.the_token None Scenario.uploaded H) as (_ & Hnext).
  destruct (Hnext (Scenario.calm 2001) None) as (Hd & _).
  unfold Scenario.consumed, Scenario.download. rewrite Hd. reflexivity.
Defined.

(** ** After [mark_file_downloaded] *)

Lemma set_downloaded_matches (env : Env) (fid token : string) (r : FileRecord) :
  Tiers.matches fid token (Storage.set_downloaded env r)
  = Tiers.matches fid token r.
Proof. reflexivity. Qed.

Lemma find_marked (env : Env) (fid token : string) (l : list FileRecord) :
  List.find (Tiers.matches fid token)
    (map (fun r => if Tiers.matches fid token r
                   then Storage.set_downloaded env r else r) l)
  = Storage.set_downloaded env <$> List.find (Tiers.matches fid token) l.
Proof.
  induction l as [|x l IH]; cbn [map List.find]; [reflexivity|].
  destruct (Tiers.matches fid token x) eqn:Hx.
  - rewrite set_downloaded_matches, Hx. reflexivity.
  - rewrite Hx. exact IH.
Qed.

Lemma find_some_exists (p : FileRecord -> bool) (l : list FileRecord) :
  existsb p l = true -> exists r, List.find p l = Some r.
Proof.
  induction l as [|x l IH]; cbn; [discriminate|].
  destruct (p x); [eauto | exact IH].
Qed.

(** What a 200 answer of [mark_file_downloaded] tells. *)
Lemma mark_file_downloaded_200 (env : Env) (fid token : string) (w : World) :
  status_code (fst (Storage.mark_file_downloaded env fid token w)) = 200 ->
  let w' := snd (Storage.mark_file_downloaded env fid token w) in
  token <> ""
  /\ (exists r, List.find (Tiers.matches fid token) (files w) = Some r
                /\ List.find (Tiers.matches fid token) (files w')
                   = Some (Storage.set_downloaded env r))
  /\ meta_cache w' = delete fid (meta_cache w)
  /\ bucket w' = bucket w.
Proof.
  rewrite mark_file_downloaded_eq.
  destruct (bool_decide (token = "")) eqn:Htok; [discriminate|].
  apply bool_decide_eq_false in Htok.
  destruct (db_down env RtMarkDownloaded); [discriminate|]. cbn zeta.
  destruct (existsb _ _) eqn:Hex; [|discriminate].
  intros _. cbn [fst snd files meta_cache bucket Tiers.with_files
                 Tiers.with_meta_cache].
  split; [exact Htok|]. split; [|split; reflexivity].
  destruct (find_some_exists _ _ Hex) as [r Hr].
  exists r. split; [exact Hr|]. rewrite find_marked, Hr. reflexivity.
Qed.

(** X8. Once [mark_file_downloaded] has answered 200 for a file
    identifier and token, [retrieve_file] for them never answers 200
    again from the state it leaves, at whatever time it is asked; with
    the database reachable its answer is 410. *)
Theorem marked_file_is_not_retrieved (env : Env) (fid token : string)
    (w : World)
    (Hok : status_code (fst (Storage.mark_file_downloaded env fid token w)) = 200) :
  forall env2 : Env,
    let answer :=
      fst (Storage.retrieve_file env2 fid token
             (snd (Storage.mark_file_downloaded env fid token w))) in
    status_code answer <> 200
    /\ (db_down env2 RtRetrieve = false -> status_code answer = 410).
Proof.
  intros env2 answer. subst answer.
  destruct (mark_file_downloaded_200 env fid token w Hok)
    as (Htok & (r & _ & Hfind) & _).
  rewrite retrieve_file_eq. cbn [fst].
  rewrite bool_decide_eq_false_2 by exact Htok. rewrite Hfind.
  destruct (db_down env2 RtRetrieve); [split; [discriminate|discriminate]|].
  destruct (now env2 >? expires_at _);
    (split; [discriminate | intros _; reflexivity]).
Qed.

Lemma marked_file_is_not_retrieved_witness :
  status_code
    (fst (Storage.retrieve_file (Scenario.calm 2001) Scenario.the_file_id
            Scenario.the_token
            (snd (Storage.mark_file_downloaded (Scenario.calm 2000)
                    Scenario.the_file_id Scenario.the_token Scenario.uploaded))))
  = 410.
Proof.
  assert (H : status_code
                (fst (Storage.mark_file_downloaded (Scenario.calm 2000)
                        Scenario.the_file_id Scenario.the_token
                        Scenario.uploaded)) = 200)
    by (vm_compute; reflexivity).
  apply (marked_file_is_not_retrieved _ _ _ _ H (Scenario.calm 2001)).
  reflexivity.
Defined.

(** X9. Once [mark_file_downloaded] has answered 200, [get_file_status]
    of the storage service, asked with the database reachable, finds no
    cached metadata for the file, reads the row and reports the status
    [downloaded], with the time of the marking and a download count of at
    least one more than before. *)
Theorem marked_file_reports_downloaded (env : Env) (fid token : string)
    (w : World)
    (Hok : status_code (fst (Storage.mark_file_downloaded env fid token w)) = 200) :
  forall env2 : Env,
    db_down env2 RtStatus = false ->
    exists r b,
      List.find (Tiers.matches fid token) (files w) = Some r
      /\ fst (Storage.get_file_status env2 fid token
                (snd (Storage.mark_file_downloaded env fid token w)))
         = jsonify b 200
      /\ Storage.sb_status b = Some Storage.downloaded
      /\ Storage.sb_is_downloaded b = true
      /\ Storage.sb_downloaded_at b = Some (now env)
      /\ Storage.sb_download_count b = download_count r + 1.
Proof.
  intros env2 Hdb.
  destruct (mark_file_downloaded_200 env fid token w Hok)
    as (Htok & (r & Hr & Hfind) & Hmeta & _).
  exists r. eexists. split; [exact Hr|].
  rewrite storage_status_eq. cbn [fst].
  rewrite bool_decide_eq_false_2 by exact Htok.
  rewrite Hdb, Hfind, Hmeta, lookup_delete_eq. cbn [Tiers.live].
  split; [reflexivity|]. cbn. repeat split.
Qed.

Lemma marked_file_reports_downloaded_witness :
  exists r b,
    List.find (Tiers.matches Scenario.the_file_id Scenario.the_token)
      (files Scenario.uploaded) = Some r
    /\ fst (Storage.get_file_status (Scenario.calm 2001) Scenario.the_file_id
              Scenario.the_token
              (snd (Storage.mark_file_downloaded (Scenario.calm 2000)
                      Scenario.the_file_id Scenario.the_token Scenario.uploaded)))
       = jsonify b 200
    /\ Storage.sb_status b = Some Storage.downloaded
    /\ Storage.sb_is_downloaded b = true
    /\ Storage.sb_downloaded_at b = Some (now (Scenario.calm 2000))
    /\ Storage.sb_download_count b = download_count r + 1.
Proof.
  assert (H : status_code
                (fst (Storage.mark_file_downloaded (Scenario.calm 2000)
                        Scenario.the_file_id Scenario.the_token
                        Scenario.uploaded)) = 200)
    by (vm_compute; reflexivity).
  apply (marked_file_reports_downloaded _ _ _ _ H (Scenario.calm 2001)).
  reflexivity.
Defined.

(** ** Refusals of the storage service seen through the gateway *)

(** X10. [download_file] passes on only the 404 of [retrieve_file]: for a
    token that resolves, a file that has expired or has been downloaded
    (which [retrieve_file] answers with 410) is answered with 500
    "Storage service error", and a file identifier and token that match
    no row with 404.  In both cases no content is returned, the file is
    not marked and the token stays in the cache. *)
Theorem download_refused_by_storage (enc : EncryptionService) (env : Env)
    (token : string) (password : option string) (w : World) (fid : string)
    (Hfid : Gateway.truthy (Tiers.live env (token_cache w !! token)) = Some fid)
    (Hnet : network env RtRetrieve = Delivered)
    (Htoken : token <> "") (Hdb : db_down env RtRetrieve = false) :
  let answer := fst (Gateway.download_file enc env token password w) in
  let w' := snd (Gateway.download_file enc env token password w) in
  (List.find (Tiers.matches fid token) (files w) = None ->
     answer = error "File not found or expired" 404
     /\ files w' = files w /\ token_cache w' = token_cache w)
  /\ (forall r, List.find (Tiers.matches fid token) (files w) = Some r ->
        now env > expires_at r \/ is_downloaded r = true ->
        answer = error "Storage service error" 500
        /\ files w' = files w /\ token_cache w' = token_cache w).
Proof.
  intros answer w'. subst answer w'. rewrite download_file_eq, Hfid.
  cbn zeta. rewrite Hnet. set (w1 := Tiers.with_counters _ _ w).
  rewrite retrieve_file_eq. cbn [fst].
  rewrite bool_decide_eq_false_2 by exact Htoken. rewrite Hdb.
  change (files w1) with (files w). change (bucket w1) with (bucket w).
  split.
  - intros ->. repeat split.
  - intros r -> [Hexp|Hdl].
    + assert ((now env >? expires_at r) = true) as -> by lia. repeat split.
    + rewrite Hdl. destruct (now env >? expires_at r); repeat split.
Qed.

Lemma download_refused_by_storage_witness :
  fst (Gateway.download_file Scenario.keyed (Scenario.calm 5000)
         Scenario.the_token None Scenario.uploaded)
  = error "Storage service error" 500.
Proof.
  assert (Ht : Scenario.the_token <> "") by (vm_compute; discriminate).
  destruct (download_refused_by_storage Scenario.keyed (Scenario.calm 5000)
              Scenario.the_token None Scenario.uploaded Scenario.the_file_id)
    as (_ & H).
  - vm_compute. reflexivity.
  - reflexivity.
  - exact Ht.
  - reflexivity.
  - apply (H Scenario.the_row).
    + vm_compute. reflexivity.
    + left. vm_compute. reflexivity.
Defined.

(** ** Storing twice *)

Lemma clashes_spec (row : FileRecord) (l : list FileRecord) :
  existsb (Tiers.clashes row) l = true <->
  exists r, In r l /\ (file_id r = file_id row
                       \/ download_token r = download_token row).
Proof.
  rewrite existsb_exists. unfold Tiers.clashes.
  split; intros (r & Hr & H); exists r; (split; [exact Hr|]).
  - apply orb_true_iff in H. rewrite !bool_decide_eq_true in H. exact H.
  - apply orb_true_iff. rewrite !bool_decide_eq_true. exact H.
Qed.

(** X11. [store_file] with an expiry time in the range of [datetime],
    for a file identifier or a download token that a row of [files]
    already carries, is answered 500: the INSERT is refused, no row is
    added or changed and no metadata is cached, but the blob written
    before the INSERT stays in the bucket under its fresh object
    name. *)
Theorem store_file_duplicate_leaves_blob (env : Env)
    (data : Storage.StoreRequest) (w : World)
    (Hfits : expiry_fits env data = true)
    (Hput : put_object_fails env = false)
    (Hdup : exists r, In r (files w)
              /\ (file_id r = Storage.sr_file_id data
                  \/ download_token r = Storage.sr_download_token data)) :
  let w' := snd (Storage.store_file env data w) in
  fst (Storage.store_file env data w) = error "Storage failed" 500
  /\ files w' = files w /\ meta_cache w' = meta_cache w
  /\ token_cache w' = token_cache w
  /\ bucket w' !! (Storage.sr_file_id data +:+ "/"
                   +:+ Secrets.token_hex (storage_entropy env) 0 8)
     = Some (Storage.sr_encrypted_content data).
Proof.
  intros w'. subst w'. rewrite store_file_eq, Hfits, Hput. cbn [negb]. cbn zeta.
  assert (Hclash : existsb (Tiers.clashes (stored_row env data)) (files w) = true)
    by (apply clashes_spec; exact Hdup).
  rewrite Hclash. rewrite andb_false_r.
  destruct (db_down env RtStore);
    cbn [fst snd files meta_cache token_cache bucket Tiers.with_bucket];
    (repeat split; apply lookup_insert_eq).
Qed.

Lemma store_file_duplicate_leaves_blob_witness :
  fst (Storage.store_file (Scenario.calm 1500)
         (store_request_of default_config (fun s => s) (Scenario.calm 1500)
            (Scenario.request (Some 1) None)
            {| Gateway.uf_filename := "again.txt";
               Gateway.uf_content := Scenario.hello;
               Gateway.uf_content_type := "" |}
            (Scenario.hello, ""))
         Scenario.uploaded)
  = error "Storage failed" 500
  /\ files (snd (Storage.store_file (Scenario.calm 1500)
         (store_request_of default_config (fun s => s) (Scenario.calm 1500)
            (Scenario.request (Some 1) None)
            {| Gateway.uf_filename := "again.txt";
               Gateway.uf_content := Scenario.hello;
               Gateway.uf_content_type := "" |}
            (Scenario.hello, ""))
         Scenario.uploaded))
     = [Scenario.the_row].
Proof.
  destruct (store_file_duplicate_leaves_blob (Scenario.calm 1500)
              (store_request_of default_config (fun s => s) (Scenario.calm 1500)
                 (Scenario.request (Some 1) None)
                 {| Gateway.uf_filename := "again.txt";
                    Gateway.uf_content := Scenario.hello;
                    Gateway.uf_content_type := "" |}
                 (Scenario.hello, ""))
              Scenario.uploaded) as (Ha & Hf & _).
  - vm_compute. reflexivity.
  - reflexivity.
  - exists Scenario.the_row. split.
    + vm_compute. left. reflexivity.
    + left. vm_compute. reflexivity.
  - split; [exact Ha|]. rewrite Hf. vm_compute. reflexivity.
Defined.

(** ** The UNIQUE columns *)

Lemma NoDup_map_filter {A B} (f : A -> B) (p : A -> bool) (l : list A) :
  NoDup (map f l) -> NoDup (map f (List.filter p l)).
Proof.
  induction l as [|x l IH]; cbn [map List.filter]; [auto|].
  intros H. apply NoDup_cons in H as [Hx Hl].
  destruct (p x); [|auto]. cbn [map]. apply NoDup_cons. split; [|auto].
  rewrite list_elem_of_In in *. intros Hin. apply Hx.
  apply in_map_iff in Hin as (y & Hy & Hin).
  apply filter_In in Hin as [Hin _].
  apply in_map_iff. eauto.
Qed.

Lemma unique_keys_filter (p : FileRecord -> bool) (w w' : World) :
  files w' = List.filter p (files w) -> unique_keys w -> unique_keys w'.
Proof.
  intros Hfiles [Hf Ht]. unfold unique_keys. rewrite Hfiles.
  split; apply NoDup_map_filter; assumption.
Qed.

Lemma filter_filter {A} (p q : A -> bool) (l : list A) :
  List.filter p (List.filter q l) = List.filter (fun x => q x && p x) l.
Proof.
  induction l as [|x l IH]; cbn [List.filter]; [reflexivity|].
  destruct (q x); cbn [List.filter andb]; [|exact IH].
  destruct (p x); rewrite IH; reflexivity.
Qed.

Lemma sweep_filters (env : Env) (op : Operation) (cs : list FileRecord) :
  forall (n s : Z) (w : World),
  exists keep, files (snd (Worker.sweep env op cs n s w))
               = List.filter keep (files w).
Proof.
  induction cs as [|c rest IH]; intros n s w.
  - exists (fun _ => true). cbn.
    induction (files w) as [|x l IHl]; cbn; [reflexivity | f_equal; exact IHl].
  - rewrite sweep_cons.
    destruct (blob_error env c) as [code|].
    + destruct (bool_decide (code = "NoSuchKey")); [|apply IH].
      edestruct IH as [keep ->]. cbn [files Tiers.with_files].
      rewrite filter_filter. eauto.
    + edestruct IH as [keep ->].
      cbn [files Tiers.with_files Tiers.with_meta_cache Tiers.with_audit
           Tiers.with_bucket].
      rewrite filter_filter. eauto.
Qed.

Lemma cleanup_loop_filters (env : Env) (cs : list FileRecord) :
  forall (n : Z) (w : World),
  exists keep, files (snd (Storage.cleanup_loop env cs n w))
               = List.filter keep (files w).
Proof.
  induction cs as [|c rest IH]; intros n w.
  - exists (fun _ => true). cbn.
    induction (files w) as [|x l IHl]; cbn; [reflexivity | f_equal; exact IHl].
  - rewrite cleanup_loop_cons.
    destruct (blob_error env c) as [code|]; [apply IH|].
    edestruct IH as [keep ->].
    cbn [files Tiers.with_files Tiers.with_meta_cache Tiers.with_bucket].
    rewrite filter_filter. eauto.
Qed.

Lemma map_marked {B} (f : FileRecord -> B) (env : Env) (fid token : string)
    (l : list FileRecord) :
  (forall r, f (Storage.set_downloaded env r) = f r) ->
  map f (map (fun r => if Tiers.matches fid token r
                       then Storage.set_downloaded env r else r) l)
  = map f l.
Proof.
  intros Hf. induction l as [|x l IH]; cbn [map]; [reflexivity|].
  rewrite IH. destruct (Tiers.matches fid token x); [rewrite Hf|]; reflexivity.
Qed.

(** X12. [mark_file_downloaded] and the sweeps never write a file
    identifier or a download token: after [mark_file_downloaded] the two
    columns read as before, row by row, and after
    [cleanup_expired_files] of either service or
    [cleanup_downloaded_files] the table is the old one with some rows
    taken out.  So in a table where no file identifier and no download
    token occurs twice, none occurs twice afterwards, whatever they
    answer. *)
Theorem unique_keys_kept (env : Env) (w : World) (Hu : unique_keys w) :
  (forall fid token,
     let w' := snd (Storage.mark_file_downloaded env fid token w) in
     map file_id (files w') = map file_id (files w)
     /\ map download_token (files w') = map download_token (files w)
     /\ unique_keys w')
  /\ ((exists keep, files (snd (Storage.cleanup_expired_files env w))
                    = List.filter keep (files w))
      /\ unique_keys (snd (Storage.cleanup_expired_files env w)))
  /\ ((exists keep, files (snd (Worker.cleanup_expired_files env w))
                    = List.filter keep (files w))
      /\ unique_keys (snd (Worker.cleanup_expired_files env w)))
  /\ ((exists keep, files (snd (Worker.cleanup_downloaded_files env w))
                    = List.filter keep (files w))
      /\ unique_keys (snd (Worker.cleanup_downloaded_files env w))).
Proof.
  assert (Hall : files w = List.filter (fun _ => true) (files w)).
  { induction (files w) as [|x l IHl]; cbn; [reflexivity | f_equal; exact IHl]. }
  assert (Hfilter : forall w' : World,
            (exists keep, files w' = List.filter keep (files w)) ->
            (exists keep, files w' = List.filter keep (files w))
            /\ unique_keys w').
  { intros w' [keep Hk]. split; [eauto|].
    eapply unique_keys_filter; eauto. }
  split; [|split; [|split]].
  - intros fid token. cbn zeta. rewrite mark_file_downloaded_eq.
    destruct (bool_decide (token = "")); [repeat split; apply Hu|].
    destruct (db_down env RtMarkDownloaded); [repeat split; apply Hu|].
    cbn zeta. destruct Hu as [Hf Ht].
    destruct (existsb _ _); unfold unique_keys;
      cbn [snd files Tiers.with_files Tiers.with_meta_cache];
      rewrite !map_marked by reflexivity; repeat split; assumption.
  - apply Hfilter.
    unfold Storage.cleanup_expired_files. unfold_handler.
    destruct (db_down env RtCleanupExpired); [eauto|]. cbn beta iota.
    destruct (cleanup_loop_filters env
                (List.filter (Storage.expired_not_downloaded env) (files w)) 0 w)
      as [keep Hk].
    destruct (Storage.cleanup_loop env _ 0 w) as [[e|n] w'];
      cbn [snd] in *; eauto.
  - apply Hfilter.
    unfold Worker.cleanup_expired_files, Worker.task,
      Tiers.redis_setex_cleanup_stats.
    unfold_handler.
    destruct (db_down env TaskCleanupExpired); [eauto|]. cbn beta iota.
    destruct (sweep_filters env expired_cleanup
                (List.filter (Worker.is_expired env) (files w)) 0 0 w)
      as [keep Hk].
    destruct (Worker.sweep env expired_cleanup _ 0 0 w) as [[e|[n s]] w'];
      cbn [snd] in *; eauto.
  - apply Hfilter.
    unfold Worker.cleanup_downloaded_files, Worker.task.
    unfold_handler.
    destruct (db_down env TaskCleanupDownloaded); [eauto|]. cbn beta iota.
    destruct (sweep_filters env downloaded_cleanup
                (List.filter (Worker.downloaded_long_ago env) (files w)) 0 0 w)
      as [keep Hk].
    destruct (Worker.sweep env downloaded_cleanup _ 0 0 w) as [[e|[n s]] w'];
      cbn [snd] in *; eauto.
Qed.

(** The table of [Scenario.two_files]: marking the first file changes a
    row and keeps both keys; the sweep of the worker at time 5000 takes
    the first row out and leaves the second. *)
Lemma unique_keys_kept_witness :
  files Scenario.two_files = [Scenario.the_row; Scenario.other_row]
  /\ unique_keys Scenario.two_files
  /\ map is_downloaded
       (files (snd (Storage.mark_file_downloaded (Scenario.calm 2000)
                      Scenario.the_file_id Scenario.the_token
                      Scenario.two_files))) = [true; false]
  /\ unique_keys
       (snd (Storage.mark_file_downloaded (Scenario.calm 2000)
               Scenario.the_file_id Scenario.the_token Scenario.two_files))
  /\ files (snd (Worker.cleanup_expired_files (Scenario.calm 5000)
                   Scenario.two_files)) = [Scenario.other_row]
  /\ unique_keys
       (snd (Worker.cleanup_expired_files (Scenario.calm 5000)
               Scenario.two_files)).
Proof.
  assert (Hu : unique_keys Scenario.two_files).
  { split; vm_compute;
      (apply NoDup_cons_2;
       [apply not_elem_of_cons; split; [discriminate | apply not_elem_of_nil]
       | apply NoDup_cons_2; [apply not_elem_of_nil | apply NoDup_nil_2]]). }
  destruct (unique_keys_kept (Scenario.calm 2000) Scenario.two_files Hu)
    as (Hmark & _).
  destruct (unique_keys_kept (Scenario.calm 5000) Scenario.two_files Hu)
    as (_ & _ & (_ & Hsweep) & _).
  split; [vm_compute; reflexivity|]. split; [exact Hu|].
  split; [vm_compute; reflexivity|].
  split; [exact (proj2 (proj2 (Hmark Scenario.the_file_id Scenario.the_token)))|].
  split; [vm_compute; reflexivity | exact Hsweep].
Defined.

(** ** What a download leaves alone *)

(** X13. [download_file] never removes anything: whatever it answers, the
    bucket and the audit log are as before, and the table [files] has
    the same rows in the same order, each one either unchanged or marked
    as downloaded at the time of the call; rows whose download token is
    not the one presented are unchanged. *)
Theorem download_removes_nothing (enc : EncryptionService) (env : Env)
    (token : string) (password : option string) (w : World) :
  let w' := snd (Gateway.download_file enc env token password w) in
  bucket w' = bucket w
  /\ file_audit_log w' = file_audit_log w
  /\ length (files w') = length (files w)
  /\ forall i r, files w !! i = Some r ->
       exists r', files w' !! i = Some r'
         /\ (r' = r \/ (download_token r = token
                        /\ r' = Storage.set_downloaded env r)).
Proof.
  intros w'. subst w'. rewrite download_file_eq.
  assert (Hsame : forall w0 : World, files w0 = files w ->
            forall i r, files w !! i = Some r ->
              exists r', files w0 !! i = Some r'
                /\ (r' = r \/ (download_token r = token
                               /\ r' = Storage.set_downloaded env r))).
  { intros w0 -> i r Hi. exists r. auto. }
  assert (Hmark : forall fid (w1 : World),
            files w1 = files w -> bucket w1 = bucket w ->
            file_audit_log w1 = file_audit_log w ->
            let w2 := snd (Storage.mark_file_downloaded env fid token w1) in
            bucket w2 = bucket w /\ file_audit_log w2 = file_audit_log w
            /\ length (files w2) = length (files w)
            /\ forall i r, files w !! i = Some r ->
                 exists r', files w2 !! i = Some r'
                   /\ (r' = r \/ (download_token r = token
                                  /\ r' = Storage.set_downloaded env r))).
  { intros fid w1 Hf Hb Ha. cbn zeta. rewrite mark_file_downloaded_eq.
    destruct (bool_decide (token = ""));
      [cbn [snd]; rewrite Hf; auto|].
    destruct (db_down env RtMarkDownloaded);
      [cbn [snd]; rewrite Hf; auto|].
    cbn zeta.
    assert (Hrows : forall i r, files w !! i = Some r ->
              exists r',
                map (fun r => if Tiers.matches fid token r
                              then Storage.set_downloaded env r else r)
                  (files w1) !! i = Some r'
                /\ (r' = r \/ (download_token r = token
                               /\ r' = Storage.set_downloaded env r))).
    { intros i r Hi. rewrite Hf, list_lookup_fmap, Hi. cbn.
      destruct (Tiers.matches fid token r) eqn:Hm; eexists;
        (split; [reflexivity|]); [right | left; reflexivity].
      apply matches_spec in Hm as [_ Hm]. auto. }
    rewrite Hf in Hrows.
    destruct (existsb _ _);
      cbn [snd files bucket file_audit_log Tiers.with_files
           Tiers.with_meta_cache];
      rewrite length_map, Hf; auto. }
  destruct (Gateway.truthy _) as [fid|]; [|cbn [snd]; auto].
  cbn zeta. set (w1 := Tiers.with_counters _ _ w).
  destruct (network env RtRetrieve); try (cbn [snd]; auto 6; fail).
  destruct (negb (status_code _ =? 200)); [cbn [snd]; auto 6|].
  destruct (body _) as [?|file_data]; [cbn [snd]; auto 6|].
  destruct (network env RtDecrypt); try (cbn [snd]; auto 6; fail).
  destruct (negb (status_code _ =? 200)); [cbn [snd]; auto 6|].
  destruct (body _) as [?|content]; [cbn [snd]; auto 6|].
  pose proof (Hmark fid w1 eq_refl eq_refl eq_refl) as Hm. cbn zeta in Hm.
  destruct (network env RtMarkDownloaded); cbn [snd]; auto 6.
Qed.

(** ** The sweeps in numbers *)

Lemma sweep_counts (env : Env) (op : Operation) (cs : list FileRecord) :
  forall (n s : Z) (w : World),
    fst (Worker.sweep env op cs n s w)
    = inr (n + Z.of_nat (length (List.filter (worker_cleans env) cs)),
           s + total_size (List.filter (blob_removed env) cs)).
Proof.
  induction cs as [|c rest IH]; intros n s w.
  - cbn. f_equal. f_equal; lia.
  - rewrite sweep_cons. cbn [List.filter].
    unfold worker_cleans at 1, blob_removed at 1.
    destruct (blob_error env c) as [code|].
    + destruct (bool_decide (code = "NoSuchKey")); rewrite IH;
        cbn [length total_size fold_right]; f_equal; f_equal; lia.
    + rewrite IH. cbn [length total_size fold_right].
      fold (total_size (List.filter (blob_removed env) rest)).
      f_equal. f_equal; lia.
Qed.

(** X14. A sweep of the worker that reaches the database reports as
    [deleted_count] the number of candidates whose blob was removed or
    reported as [NoSuchKey], and as [bytes_freed] the sizes of those
    whose blob was removed only.  Every row that is still a candidate
    after the sweep is one whose blob removal failed with another error:
    when the blob tier raises no such error, no expired row is left after
    [cleanup_expired_files] and no row downloaded more than an hour ago
    after [cleanup_downloaded_files]. *)
Theorem worker_sweep_report (env : Env) (w : World) :
  (db_down env TaskCleanupExpired = false ->
     let expired_files := List.filter (Worker.is_expired env) (files w) in
     fst (Worker.cleanup_expired_files env w)
     = Worker.Completed
         (Z.of_nat (length (List.filter (worker_cleans env) expired_files)))
         (total_size (List.filter (blob_removed env) expired_files))
     /\ forall r, In r (files (snd (Worker.cleanup_expired_files env w))) ->
          Worker.is_expired env r = true ->
          exists code, blob_error env r = Some code /\ code <> "NoSuchKey")
  /\ (db_down env TaskCleanupDownloaded = false ->
        let downloaded_files :=
          List.filter (Worker.downloaded_long_ago env) (files w) in
        fst (Worker.cleanup_downloaded_files env w)
        = Worker.Completed
            (Z.of_nat (length (List.filter (worker_cleans env) downloaded_files)))
            (total_size (List.filter (blob_removed env) downloaded_files))
        /\ forall r, In r (files (snd (Worker.cleanup_downloaded_files env w))) ->
             Worker.downloaded_long_ago env r = true ->
             exists code, blob_error env r = Some code /\ code <> "NoSuchKey").
Proof.
  assert (Hleft : forall (candidate : FileRecord -> bool) (w' : World),
            (forall r, In r (files w') <->
               In r (files w)
               /\ ~ In (file_id r)
                    (map file_id (List.filter (worker_cleans env)
                                    (List.filter candidate (files w))))) ->
            forall r, In r (files w') -> candidate r = true ->
              exists code, blob_error env r = Some code /\ code <> "NoSuchKey").
  { intros candidate w' Hf r Hr Hc. apply Hf in Hr as [Hr Hn].
    destruct (blob_error env r) as [code|] eqn:Herr.
    - exists code. split; [reflexivity|]. intros ->. apply Hn.
      apply in_map, filter_In. split; [apply filter_In; auto|].
      unfold worker_cleans. rewrite Herr. reflexivity.
    - exfalso. apply Hn. apply in_map, filter_In.
      split; [apply filter_In; auto|].
      unfold worker_cleans. rewrite Herr. reflexivity. }
  split; intros Hdb; cbn zeta.
  - unfold Worker.cleanup_expired_files, Worker.task,
      Tiers.redis_setex_cleanup_stats.
    unfold_handler. rewrite Hdb. cbn beta iota.
    pose proof (sweep_counts env expired_cleanup
                  (List.filter (Worker.is_expired env) (files w)) 0 0 w) as Hc.
    destruct (sweep_spec env expired_cleanup
                (List.filter (Worker.is_expired env) (files w)) 0 0 w)
      as (n' & s' & w' & Hs & Hf & _).
    rewrite Hs in *. cbn [fst snd] in *. injection Hc as -> ->.
    split; [reflexivity|].
    cbn [files Tiers.with_cleanup_stats]. exact (Hleft _ w' Hf).
  - unfold Worker.cleanup_downloaded_files, Worker.task.
    unfold_handler. rewrite Hdb. cbn beta iota.
    pose proof (sweep_counts env downloaded_cleanup
                  (List.filter (Worker.downloaded_long_ago env) (files w)) 0 0 w)
      as Hc.
    destruct (sweep_spec env downloaded_cleanup
                (List.filter (Worker.downloaded_long_ago env) (files w)) 0 0 w)
      as (n' & s' & w' & Hs & Hf & _).
    rewrite Hs in *. cbn [fst snd] in *. injection Hc as -> ->.
    split; [reflexivity|]. exact (Hleft _ w' Hf).
Qed.

Lemma worker_sweep_report_witness :
  fst (Worker.cleanup_expired_files (Scenario.calm 5000) Scenario.uploaded)
  = Worker.Completed 1 5.
Proof.
  destruct (worker_sweep_report (Scenario.calm 5000) Scenario.uploaded)
    as (H & _).
  destruct (H eq_refl) as (Hr & _).
  rewrite Hr. vm_compute. reflexivity.
Defined.

(** X15. [POST /cleanup/expired] of the storage service, when it reaches
    the database, answers 200 with the number of expired, not downloaded
    rows whose blob was removed; a row that is still expired and not
    downloaded after the sweep is one whose blob removal raised an
    error. *)
Theorem storage_sweep_report (env : Env) (w : World)
    (Hdb : db_down env RtCleanupExpired = false) :
  let expired_files :=
    List.filter (Storage.expired_not_downloaded env) (files w) in
  fst (Storage.cleanup_expired_files env w)
  = jsonify (Z.of_nat (length (List.filter (blob_removed env) expired_files))) 200
  /\ forall r, In r (files (snd (Storage.cleanup_expired_files env w))) ->
       Storage.expired_not_downloaded env r = true ->
       exists code, blob_error env r = Some code.
Proof.
  cbn zeta. unfold Storage.cleanup_expired_files. unfold_handler.
  rewrite Hdb. cbn beta iota.
  destruct (cleanup_loop_spec env
              (List.filter (Storage.expired_not_downloaded env) (files w)) 0 w)
    as (n' & w' & -> & Hf & _ & _ & _ & ->).
  cbn [fst snd]. split; [reflexivity|].
  intros r Hr Hc. apply Hf in Hr as [Hr Hn].
  destruct (blob_error env r) as [code|] eqn:Herr; [eauto|].
  exfalso. apply Hn. apply in_map, filter_In.
  split; [apply filter_In; auto|].
  unfold blob_removed. rewrite Herr. reflexivity.
Qed.

Lemma storage_sweep_report_witness :
  fst (Storage.cleanup_expired_files (Scenario.calm 5000) Scenario.uploaded)
  = jsonify 1 200.
Proof.
  destruct (storage_sweep_report (Scenario.calm 5000) Scenario.uploaded eq_refl)
    as (Hr & _).
  rewrite Hr. vm_compute. reflexivity.
Defined.

Lemma bucket_outside (b b' : gmap string (list byte)) (cs : list FileRecord)
    (p : FileRecord -> bool) (name : string) :
  (forall n, b' !! n =
     if bool_decide (n ∈ map minio_object_name (List.filter p cs))
     then None else b !! n) ->
  (forall c, In c cs -> minio_object_name c <> name) ->
  b' !! name = b !! name.
Proof.
  intros Hb Hname. rewrite Hb. rewrite bool_decide_eq_false_2; [reflexivity|].
  intros Hin. apply list_elem_of_In, in_map_iff in Hin as (c & Hc & Hin).
  apply filter_In in Hin as [Hin _]. exact (Hname c Hin Hc).
Qed.

(** X16. No sweep touches the token cache, and no sweep removes a blob
    other than those of its candidates: an object name that is not the
    [minio_object_name] of an expired row (for [cleanup_expired_files] of
    the worker), of an expired and not downloaded row (for the storage
    service) or of a row downloaded more than an hour ago (for
    [cleanup_downloaded_files]) holds the same content after the sweep
    as before. *)
Theorem sweeps_touch_candidates_only (env : Env) (w : World) (name : string) :
  (token_cache (snd (Worker.cleanup_expired_files env w)) = token_cache w
   /\ ((forall c, In c (files w) -> Worker.is_expired env c = true ->
          minio_object_name c <> name) ->
       bucket (snd (Worker.cleanup_expired_files env w)) !! name
       = bucket w !! name))
  /\ (token_cache (snd (Worker.cleanup_downloaded_files env w)) = token_cache w
      /\ ((forall c, In c (files w) -> Worker.downloaded_long_ago env c = true ->
             minio_object_name c <> name) ->
          bucket (snd (Worker.cleanup_downloaded_files env w)) !! name
          = bucket w !! name))
  /\ (token_cache (snd (Storage.cleanup_expired_files env w)) = token_cache w
      /\ ((forall c, In c (files w) ->
             Storage.expired_not_downloaded env c = true ->
             minio_object_name c <> name) ->
          bucket (snd (Storage.cleanup_expired_files env w)) !! name
          = bucket w !! name)).
Proof.
  assert (Hcand : forall (p : FileRecord -> bool),
            (forall c, In c (files w) -> p c = true ->
               minio_object_name c <> name) ->
            forall c, In c (List.filter p (files w)) ->
              minio_object_name c <> name).
  { intros p H c Hc. apply filter_In in Hc as [Hc Hp]. auto. }
  split; [|split].
  - unfold Worker.cleanup_expired_files, Worker.task,
      Tiers.redis_setex_cleanup_stats.
    unfold_handler.
    destruct (db_down env TaskCleanupExpired); [split; reflexivity|].
    cbn beta iota.
    destruct (sweep_spec env expired_cleanup
                (List.filter (Worker.is_expired env) (files w)) 0 0 w)
      as (n' & s' & w' & -> & _ & _ & Hb & Ht & _).
    cbn [snd token_cache bucket Tiers.with_cleanup_stats].
    split; [exact Ht|]. intros H.
    eapply bucket_outside; [exact Hb | apply Hcand, H].
  - unfold Worker.cleanup_downloaded_files, Worker.task.
    unfold_handler.
    destruct (db_down env TaskCleanupDownloaded); [split; reflexivity|].
    cbn beta iota.
    destruct (sweep_spec env downloaded_cleanup
                (List.filter (Worker.downloaded_long_ago env) (files w)) 0 0 w)
      as (n' & s' & w' & -> & _ & _ & Hb & Ht & _).
    cbn [snd]. split; [exact Ht|]. intros H.
    eapply bucket_outside; [exact Hb | apply Hcand, H].
  - unfold Storage.cleanup_expired_files. unfold_handler.
    destruct (db_down env RtCleanupExpired); [split; reflexivity|].
    cbn beta iota.
    destruct (cleanup_loop_spec env
                (List.filter (Storage.expired_not_downloaded env) (files w)) 0 w)
      as (n' & w' & -> & _ & _ & Hb & Ht & _).
    cbn [snd]. split; [exact Ht|]. intros H.
    eapply bucket_outside; [exact Hb | apply Hcand, H].
Qed.

(** The worker sweeping [Scenario.two_files] at time 5000: the first
    file has expired and its blob is removed, the blob of the second
    file is not touched. *)
Lemma sweeps_touch_candidates_only_witness :
  bucket Scenario.two_files !! minio_object_name Scenario.the_row
    = Some Scenario.hello
  /\ bucket (snd (Worker.cleanup_expired_files (Scenario.calm 5000)
                    Scenario.two_files))
       !! minio_object_name Scenario.the_row = None
  /\ bucket (snd (Worker.cleanup_expired_files (Scenario.calm 5000)
                    Scenario.two_files))
       !! minio_object_name Scenario.other_row
     = Some Scenario.hello.
Proof.
  split; [vm_compute; reflexivity|]. split; [vm_compute; reflexivity|].
  destruct (sweeps_touch_candidates_only (Scenario.calm 5000) Scenario.two_files
              (minio_object_name Scenario.other_row)) as ((_ & H) & _).
  rewrite H; [vm_compute; reflexivity|].
  intros c Hc Hexp.
  assert (Hrows : files Scenario.two_files
                  = [Scenario.the_row; Scenario.other_row])
    by (vm_compute; reflexivity).
  rewrite Hrows in Hc. destruct Hc as [<-|[<-|[]]].
  - vm_compute. discriminate.
  - vm_compute in Hexp. discriminate.
Defined.

(** ** The status of a stored file *)

(** X17. Right after [store_file] has answered 200, [get_file_status] of
    the storage service for the stored identifier and token, asked with
    the database reachable, answers 200 with the stored expiry time, not
    downloaded, count 0.  The cached metadata lives until [expiry_hours]
    hours after the SETEX of [store_file], which is not before
    [expires_at]; as long as it lives the answer is the cached document
    completed from the row, without a computed status, also when the
    file has expired in between.  Afterwards the status is computed from
    the row: [expired] once [expires_at] has passed.  So before
    [expires_at] the answer carries no status, it never says
    [downloaded], and it says [available] only when asked at
    [expires_at] itself after a SETEX that took no time. *)
Theorem status_after_store (env : Env) (data : Storage.StoreRequest)
    (w : World) (env2 : Env)
    (Hok : status_code (fst (Storage.store_file env data w)) = 200)
    (Htoken : Storage.sr_download_token data <> "")
    (Hdb : db_down env2 RtStatus = false) :
  let expires := now env + Storage.sr_expiry_hours data * 3600 in
  let lapse := cached_at env + Storage.sr_expiry_hours data * 3600 in
  exists b,
    fst (Storage.get_file_status env2 (Storage.sr_file_id data)
           (Storage.sr_download_token data)
           (snd (Storage.store_file env data w))) = jsonify b 200
    /\ Storage.sb_expires_at b = expires
    /\ Storage.sb_is_downloaded b = false
    /\ Storage.sb_download_count b = 0
    /\ expires <= lapse
    /\ Storage.sb_status b
       = (if now env2 <? lapse then None
          else if now env2 >? expires then Some Storage.expired
          else Some Storage.available)
    /\ (now env2 < expires -> Storage.sb_status b = None)
    /\ Storage.sb_status b <> Some Storage.downloaded
    /\ (Storage.sb_status b = Some Storage.available ->
          now env2 = expires /\ store_elapsed env = 0%N).
Proof.
  cbn zeta.
  destruct (store_file_stored env data w Hok)
    as (Hfiles & Hclash & _ & _ & Hmeta & _).
  rewrite storage_status_eq. cbn [fst].
  rewrite bool_decide_eq_false_2 by exact Htoken.
  assert (Hfind :
    List.find (Tiers.matches (Storage.sr_file_id data)
                 (Storage.sr_download_token data))
      (files w ++ [stored_row env data]) = Some (stored_row env data))
    by exact (find_new_row (stored_row env data) (files w) Hclash).
  rewrite Hdb, Hfiles, Hmeta, lookup_insert_eq, Hfind.
  cbn [Tiers.live]. unfold cached_at.
  set (h := Storage.sr_expiry_hours data * 3600).
  destruct (now env2 <? now env + Z.of_N (store_elapsed env) + h) eqn:Hlive.
  - eexists. split; [reflexivity|]. cbn.
    repeat split; try discriminate. lia.
  - eexists. split; [reflexivity|]. cbn. fold h.
    apply Z.ltb_ge in Hlive.
    split; [reflexivity|]. split; [reflexivity|]. split; [reflexivity|].
    split; [lia|].
    destruct (now env2 >? now env + h) eqn:Hgt.
    + repeat split; try discriminate. lia.
    + repeat split; try discriminate; try lia.
Qed.

(** A store at time 1000 for one hour whose SETEX arrives two seconds
    later: at time 4601 the file has expired and the answer still comes
    from the cache, without a status. *)
Lemma status_after_store_witness :
  exists b,
    fst (Storage.get_file_status (Scenario.calm 4601) "abc" "t"
           (snd (Storage.store_file (Scenario.unhurried 1000)
                   (Scenario.parcel 1) empty_world))) = jsonify b 200
    /\ Storage.sb_expires_at b = 4600
    /\ Storage.sb_status b = None.
Proof.
  destruct (status_after_store (Scenario.unhurried 1000) (Scenario.parcel 1)
              empty_world (Scenario.calm 4601))
    as (b & Hb & He & _ & _ & _ & Hs & _).
  - vm_compute. reflexivity.
  - discriminate.
  - reflexivity.
  - exists b. split; [exact Hb|]. split; [exact He|]. rewrite Hs.
    vm_compute. reflexivity.
Defined.

(** ** Notifications *)

Lemma take_app_take {A} (n : nat) (p q : list A) :
  take n (p ++ take n q) = take n (p ++ q).
Proof.
  rewrite !firstn_app, firstn_firstn. f_equal. f_equal. lia.
Qed.

Lemma sends_fold (cs : list Notifier.Call) :
  forall l : list Notifier.Notification,
    (length l <= 1000)%nat ->
    fold_left Notifier.send cs l
    = take 1000 (rev (map Notifier.returned cs) ++ l).
Proof.
  induction cs as [|c cs IH]; intros l Hl.
  - cbn. rewrite firstn_all2 by exact Hl. reflexivity.
  - cbn [fold_left map rev].
    change (Notifier.send l c) with (take 1000 (Notifier.returned c :: l)).
    rewrite IH by (rewrite length_take; lia).
    rewrite take_app_take, <- app_assoc. reflexivity.
Qed.

(** X18. [send_notification] keeps the list [sent_notifications] at the
    last 1000 notifications, newest first: after any sequence of calls
    on an empty list, the list holds the notifications returned by the
    last 1000 of the calls, in reverse order of the calls, and so never
    more than 1000; each of them carries the time of its call, and an
    empty metadata dictionary when none was given. *)
Theorem sent_notifications_keeps_last_1000 (cs : list Notifier.Call) :
  fold_left Notifier.send cs []
  = rev (map Notifier.returned (drop (length cs - 1000) cs))
  /\ (length (fold_left Notifier.send cs []) <= 1000)%nat
  /\ forall c, Notifier.nt_sent_at (Notifier.returned c)
               = now (Notifier.c_env c)
               /\ (Notifier.c_metadata c = None ->
                   Notifier.nt_metadata (Notifier.returned c) = []).
Proof.
  assert (Hfold : fold_left Notifier.send cs []
                  = take 1000 (rev (map Notifier.returned cs))).
  { rewrite sends_fold by (cbn; lia). rewrite app_nil_r. reflexivity. }
  rewrite Hfold. split; [|split].
  - rewrite firstn_rev, length_map, skipn_map. reflexivity.
  - rewrite length_take. lia.
  - intros c. split; [reflexivity|]. intros H. cbn. rewrite H. reflexivity.
Qed.

(** ** A token entry that outlives, or is outlived by, its file *)

Lemma find_none_of_all (p : FileRecord -> bool) (l : list FileRecord) :
  (forall r, In r l -> p r = false) -> List.find p l = None.
Proof.
  induction l as [|x l IH]; cbn [List.find]; [reflexivity|].
  intros H. rewrite (H x) by (left; reflexivity).
  apply IH. intros r Hr. apply H. right. exact Hr.
Qed.

(** X21. The token entry written by a successful [upload_file] lapses
    [DEFAULT_EXPIRY_HOURS] hours after the upload whatever expiry was
    asked for: from then on [download_file] and [get_file_status] with
    the returned token are answered 404, also when the file itself has
    not expired yet. *)
Theorem token_entry_lapses_after_default (cfg : Config) (sf : string -> string)
    (enc : EncryptionService) (env : Env) (request : Gateway.UploadRequest)
    (w : World) (u : Gateway.Uploaded) (env2 : Env) (password2 : option string)
    (Hok : fst (Gateway.upload_file cfg sf enc env request w) = jsonify u 200)
    (Hlate : now env + DEFAULT_EXPIRY_HOURS cfg * 3600 <= now env2) :
  let w' := snd (Gateway.upload_file cfg sf enc env request w) in
  Gateway.download_file enc env2 (Gateway.u_download_token u) password2 w'
    = (error "Invalid or expired download link" 404, w')
  /\ Gateway.get_file_status env2 (Gateway.u_download_token u) w'
     = (error "Invalid or expired token" 404, w').
Proof.
  intros w'. subst w'.
  destruct (upload_token_ttl cfg sf enc env request w u Hok) as [Hcache _].
  assert (Hmiss : Gateway.truthy
            (Tiers.live env2
               (token_cache (snd (Gateway.upload_file cfg sf enc env request w))
                  !! Gateway.u_download_token u)) = None).
  { rewrite Hcache. cbn [Tiers.live].
    assert ((now env2 <? now env + DEFAULT_EXPIRY_HOURS cfg * 3600) = false)
      as -> by lia.
    reflexivity. }
  split.
  - rewrite download_file_eq, Hmiss. reflexivity.
  - rewrite gateway_status_eq, Hmiss. reflexivity.
Qed.

Lemma token_entry_lapses_after_default_witness :
  fst (Gateway.upload_file default_config (fun s => s) Scenario.keyed
         (Scenario.calm 1000) (Scenario.request (Some 48) None) empty_world)
    = jsonify Scenario.long_receipt 200
  /\ Gateway.u_expires_at Scenario.long_receipt = 1000 + 48 * 3600
  /\ fst (Gateway.download_file Scenario.keyed (Scenario.calm (1000 + 24 * 3600))
            Scenario.the_token None
            (snd (Gateway.upload_file default_config (fun s => s) Scenario.keyed
                    (Scenario.calm 1000) (Scenario.request (Some 48) None)
                    empty_world)))
     = error "Invalid or expired download link" 404.
Proof.
  assert (H : fst (Gateway.upload_file default_config (fun s => s) Scenario.keyed
                     (Scenario.calm 1000) (Scenario.request (Some 48) None)
                     empty_world) = jsonify Scenario.long_receipt 200)
    by (vm_compute; reflexivity).
  split; [exact H|]. split; [reflexivity|].
  destruct (token_entry_lapses_after_default default_config (fun s => s)
              Scenario.keyed (Scenario.calm 1000)
              (Scenario.request (Some 48) None) empty_world
              Scenario.long_receipt (Scenario.calm (1000 + 24 * 3600)) None H)
    as (Hd & _).
  - vm_compute. discriminate.
  - change (Gateway.u_download_token Scenario.long_receipt)
      with Scenario.the_token in Hd.
    rewrite Hd. reflexivity.
Defined.

(** X22. The sweeps leave the token cache alone, and the storage service
    decides: once [cleanup_expired_files] of the worker has removed the
    row of an expired file (its blob was removed or reported as
    [NoSuchKey]), a [download_file] with a token that still resolves to
    that file in the cache is answered 404 and returns no content. *)
Theorem swept_file_is_not_found (enc : EncryptionService) (env : Env)
    (w : World) (c : FileRecord) (env2 : Env) (token : string)
    (password : option string)
    (Hdbw : db_down env TaskCleanupExpired = false)
    (Hc : In c (files w)) (Hexp : Worker.is_expired env c = true)
    (Hclean : worker_cleans env c = true)
    (Hfid : Gateway.truthy (Tiers.live env2 (token_cache w !! token))
            = Some (file_id c))
    (Hnet : network env2 RtRetrieve = Delivered)
    (Htoken : token <> "") (Hdb : db_down env2 RtRetrieve = false) :
  fst (Gateway.download_file enc env2 token password
         (snd (Worker.cleanup_expired_files env w)))
  = error "File not found or expired" 404.
Proof.
  unfold Worker.cleanup_expired_files, Worker.task,
    Tiers.redis_setex_cleanup_stats.
  unfold_handler. rewrite Hdbw. cbn beta iota.
  destruct (sweep_spec env expired_cleanup
              (List.filter (Worker.is_expired env) (files w)) 0 0 w)
    as (n' & s' & w' & -> & Hf & _ & _ & Ht & _).
  cbn [snd]. rewrite download_file_eq.
  cbn [token_cache Tiers.with_cleanup_stats]. rewrite Ht, Hfid.
  cbn zeta. rewrite Hnet. rewrite retrieve_file_eq. cbn [fst].
  rewrite bool_decide_eq_false_2 by exact Htoken. rewrite Hdb.
  cbn [files Tiers.with_counters Tiers.with_cleanup_stats].
  rewrite find_none_of_all; [reflexivity|].
  intros r Hr. apply Hf in Hr as [_ Hn].
  unfold Tiers.matches. apply andb_false_iff. left.
  apply bool_decide_eq_false. intros Heq. apply Hn. rewrite Heq.
  apply in_map, filter_In. split; [apply filter_In; auto | exact Hclean].
Qed.

Lemma swept_file_is_not_found_witness :
  fst (Gateway.download_file Scenario.keyed (Scenario.calm 5001)
         Scenario.the_token None
         (snd (Worker.cleanup_expired_files (Scenario.calm 5000)
                 Scenario.uploaded)))
  = error "File not found or expired" 404.
Proof.
  assert (Ht : Scenario.the_token <> "") by (vm_compute; discriminate).
  apply (swept_file_is_not_found Scenario.keyed (Scenario.calm 5000)
           Scenario.uploaded Scenario.the_row (Scenario.calm 5001)
           Scenario.the_token None).
  - reflexivity.
  - vm_compute. left. reflexivity.
  - vm_compute. reflexivity.
  - reflexivity.
  - vm_compute. reflexivity.
  - reflexivity.
  - exact Ht.
  - reflexivity.
Defined.

Lemma upload_token_cache_after_store_witness :
  status_code
    (fst (Gateway.upload_file default_config (fun s => s) Scenario.keyed
            (Scenario.encryption_lost 1000) (Scenario.request (Some 1) None)
            empty_world)) <> 200
  /\ token_cache
       (snd (Gateway.upload_file default_config (fun s => s) Scenario.keyed
               (Scenario.encryption_lost 1000) (Scenario.request (Some 1) None)
               empty_world)) = ∅.
Proof.
  assert (H : status_code
                (fst (Gateway.upload_file default_config (fun s => s)
                        Scenario.keyed (Scenario.encryption_lost 1000)
                        (Scenario.request (Some 1) None) empty_world)) <> 200)
    by (vm_compute; discriminate).
  split; [exact H|].
  exact (upload_token_cache_after_store _ _ _ _ _ _ H).
Defined.

Lemma download_file_mark_raised_witness :
  network (Scenario.mark_unreachable 2000) RtMarkDownloaded <> Delivered
  /\ token_cache
       (snd (Gateway.download_file Scenario.keyed (Scenario.mark_unreachable 2000)
               Scenario.the_token None Scenario.uploaded))
     = token_cache Scenario.uploaded.
Proof.
  assert (H : network (Scenario.mark_unreachable 2000) RtMarkDownloaded
              <> Delivered) by (vm_compute; discriminate).
  split; [exact H|].
  exact (proj2 (download_file_mark_raised Scenario.keyed
                  (Scenario.mark_unreachable 2000) Scenario.the_token None
                  Scenario.uploaded H)).
Defined.
